(** * Migration-guide MCP server: template generators and validators

    A shallow embedding of the string-template generators, the
    smithery.yaml serializer, the package.json validator and the
    migration-overview generator, together with the properties stated
    about them.

    Conventions of the model.
    - A JavaScript string is a [string], the sequence of the bytes of
      its UTF-8 text.  The regular expressions of the source only use
      ASCII classes.  The case mappings of the engine ([toLowerCase],
      [toUpperCase]) follow the Unicode tables, which are no part of the
      program: they are parameters of the model ([CaseMapping]).
    - A JavaScript value that comes from JSON or YAML is a [value];
      an object is the list of its entries in enumeration order.  A
      number is given by the decimal text that the engine prints for it.
    - A function that can throw returns a [result]; the conversion of a
      value to a string ([String_of]) is such a function. *)

From Stdlib Require Import String Ascii List Bool Arith ZArith Lia.
From Stdlib Require Import DecimalString.
Import ListNotations.
Open Scope list_scope.
Open Scope string_scope.

Set Warnings "-register-all".

(* ================================================================= *)
(** ** Characters and strings *)

Module Str.

Definition dq : string := String "034"%char EmptyString.
Definition nl : string := String "010"%char EmptyString.
Definition bs : string := String "092"%char EmptyString.
Definition bq : string := "`".

Definition nl_char : ascii := "010"%char.
Definition dash : ascii := "-"%char.

Definition between (lo hi : nat) (c : ascii) : bool :=
  (lo <=? nat_of_ascii c)%nat && (nat_of_ascii c <=? hi)%nat.

Definition is_upper (c : ascii) : bool := between 65 90 c.
Definition is_lower (c : ascii) : bool := between 97 122 c.
Definition is_digit (c : ascii) : bool := between 48 57 c.

(** The class [\w] of the regular expressions: [A-Za-z0-9_]. *)
Definition is_word (c : ascii) : bool :=
  is_upper c || is_lower c || is_digit c || Ascii.eqb c "_"%char.

Definition lower_char (c : ascii) : ascii :=
  if is_upper c then ascii_of_nat (nat_of_ascii c + 32) else c.

Definition upper_char (c : ascii) : ascii :=
  if is_lower c then ascii_of_nat (nat_of_ascii c - 32) else c.

Fixpoint map_chars (f : ascii -> ascii) (s : string) : string :=
  match s with
  | EmptyString => EmptyString
  | String c s' => String (f c) (map_chars f s')
  end.

Fixpoint forall_chars (p : ascii -> bool) (s : string) : bool :=
  match s with
  | EmptyString => true
  | String c s' => p c && forall_chars p s'
  end.

(** The text holds ASCII characters only. *)
Definition is_ascii (s : string) : bool :=
  forall_chars (fun c => (nat_of_ascii c <? 128)%nat) s.

(** The text holds no line break. *)
Definition nonl (s : string) : bool :=
  forall_chars (fun c => negb (Ascii.eqb c nl_char)) s.

(** The case mapping of ASCII: what [toLowerCase] and [toUpperCase] do
    to a text of ASCII. *)
Definition ascii_lower : string -> string := map_chars lower_char.
Definition ascii_upper : string -> string := map_chars upper_char.

(** [String.prototype.toLowerCase] and [String.prototype.toUpperCase].
    On other than ASCII characters they follow the Unicode tables of the
    engine (the Kelvin sign becomes k, the sharp s becomes SS); the model
    takes them as given, with what the program relies on: on a text of
    ASCII they are the ASCII mappings, and they neither add nor remove a
    line break. *)
Class CaseMapping : Type := {
  toLowerCase : string -> string;
  toUpperCase : string -> string;
  toLowerCase_ascii :
    forall s, is_ascii s = true -> toLowerCase s = ascii_lower s;
  toUpperCase_ascii :
    forall s, is_ascii s = true -> toUpperCase s = ascii_upper s;
  toLowerCase_nonl : forall s, nonl s = true -> nonl (toLowerCase s) = true;
  toUpperCase_nonl : forall s, nonl s = true -> nonl (toUpperCase s) = true
}.

Lemma map_chars_nonl (f : ascii -> ascii) (s : string) :
  (forall c, Ascii.eqb c nl_char = false -> Ascii.eqb (f c) nl_char = false) ->
  nonl s = true -> nonl (map_chars f s) = true.
Proof.
  intros Hf. unfold nonl. induction s as [|c s IH]; [reflexivity|].
  cbn [forall_chars map_chars]. intros H. apply andb_prop in H as [Hc Hs].
  apply negb_true_iff in Hc. rewrite (Hf c Hc), (IH Hs). reflexivity.
Qed.

Lemma lower_char_nl (c : ascii) :
  Ascii.eqb c nl_char = false -> Ascii.eqb (lower_char c) nl_char = false.
Proof.
  intros H. unfold lower_char. destruct (is_upper c) eqn:E; [|exact H].
  apply Ascii.eqb_neq. intros D.
  apply (f_equal nat_of_ascii) in D.
  unfold is_upper, between in E. apply andb_prop in E as [A B].
  apply Nat.leb_le in A, B.
  rewrite nat_ascii_embedding in D by lia. cbn in D. lia.
Qed.

Lemma upper_char_nl (c : ascii) :
  Ascii.eqb c nl_char = false -> Ascii.eqb (upper_char c) nl_char = false.
Proof.
  intros H. unfold upper_char. destruct (is_lower c) eqn:E; [|exact H].
  apply Ascii.eqb_neq. intros D.
  apply (f_equal nat_of_ascii) in D.
  unfold is_lower, between in E. apply andb_prop in E as [A B].
  apply Nat.leb_le in A, B.
  rewrite nat_ascii_embedding in D by lia. cbn in D. lia.
Qed.

(** The engine as a program that only meets ASCII sees it: the examples
    below, whose names are written in ASCII, are evaluated with it. *)
Definition ascii_mapping : CaseMapping :=
  {| toLowerCase := ascii_lower;
     toUpperCase := ascii_upper;
     toLowerCase_ascii := fun s _ => eq_refl;
     toUpperCase_ascii := fun s _ => eq_refl;
     toLowerCase_nonl := fun s => map_chars_nonl lower_char s lower_char_nl;
     toUpperCase_nonl := fun s => map_chars_nonl upper_char s upper_char_nl |}.

Fixpoint join (sep : string) (l : list string) : string :=
  match l with
  | [] => EmptyString
  | [x] => x
  | x :: rest => x ++ sep ++ join sep rest
  end.

Fixpoint startsWith (p s : string) : bool :=
  match p, s with
  | EmptyString, _ => true
  | String a p', String b s' => Ascii.eqb a b && startsWith p' s'
  | String _ _, EmptyString => false
  end.

Fixpoint includes (p s : string) : bool :=
  startsWith p s ||
  match s with
  | EmptyString => false
  | String _ s' => includes p s'
  end.

Fixpoint endsWith_aux (p s : string) (n : nat) : bool :=
  match n with
  | O => String.eqb p s
  | S n' => match s with
            | EmptyString => String.eqb p s
            | String _ s' => endsWith_aux p s' n'
            end
  end.

Definition endsWith (p s : string) : bool :=
  endsWith_aux p s (String.length s - String.length p).

Fixpoint repeat_space (n : nat) : string :=
  match n with
  | O => EmptyString
  | S n' => String " "%char (repeat_space n')
  end.

(** [s.split('\n')] *)
Fixpoint split_nl (s : string) : list string :=
  match s with
  | EmptyString => [EmptyString]
  | String c s' =>
      if Ascii.eqb c nl_char then EmptyString :: split_nl s'
      else match split_nl s' with
           | l :: ls => String c l :: ls
           | [] => [String c EmptyString]
           end
  end.

Definition is_space (c : ascii) : bool :=
  let n := nat_of_ascii c in
  Nat.eqb n 32 || ((9 <=? n)%nat && (n <=? 13)%nat).

(** [s.trimEnd()] *)
Fixpoint trimEnd (s : string) : string :=
  match s with
  | EmptyString => EmptyString
  | String c s' =>
      match trimEnd s' with
      | EmptyString => if is_space c then EmptyString else String c EmptyString
      | t => String c t
      end
  end.

End Str.
Import Str.

(* ================================================================= *)
(** ** Identifier sanitization (templates/utils.ts) *)

(** [replace(/[^a-z0-9]/g, '-')] *)
Definition replace_non_alnum : string -> string :=
  map_chars (fun c => if is_lower c || is_digit c then c else dash).

(** [replace(/-+/g, '-')] *)
Fixpoint collapse_dashes (s : string) : string :=
  match s with
  | EmptyString => EmptyString
  | String c s' =>
      if Ascii.eqb c dash then
        match s' with
        | String d _ =>
            if Ascii.eqb d dash then collapse_dashes s'
            else String c (collapse_dashes s')
        | EmptyString => String c EmptyString
        end
      else String c (collapse_dashes s')
  end.

Definition strip_leading_dash (s : string) : string :=
  match s with
  | String c s' => if Ascii.eqb c dash then s' else s
  | EmptyString => EmptyString
  end.

Fixpoint strip_trailing_dash (s : string) : string :=
  match s with
  | EmptyString => EmptyString
  | String c EmptyString => if Ascii.eqb c dash then EmptyString else s
  | String c s' => String c (strip_trailing_dash s')
  end.

(** [replace(/^-|-$/g, '')]: one dash at the start and one at the end. *)
Definition trim_dashes (s : string) : string :=
  strip_trailing_dash (strip_leading_dash s).

Definition sanitizeId `{CM : CaseMapping} (name : string) : string :=
  trim_dashes (collapse_dashes (replace_non_alnum (toLowerCase name))).

(* ================================================================= *)
(** ** Properties of [sanitizeId] *)

Module SanitizeFacts.

Definition slug_char (c : ascii) : bool :=
  is_lower c || is_digit c || Ascii.eqb c dash.

Definition slug (s : string) : bool := forall_chars slug_char s.

Fixpoint no_double_dash (s : string) : bool :=
  match s with
  | EmptyString => true
  | String c s' =>
      match s' with
      | String d _ => negb (Ascii.eqb c dash && Ascii.eqb d dash)
      | EmptyString => true
      end && no_double_dash s'
  end.

Definition no_leading_dash (s : string) : bool :=
  match s with
  | String c _ => negb (Ascii.eqb c dash)
  | EmptyString => true
  end.

Fixpoint no_trailing_dash (s : string) : bool :=
  match s with
  | EmptyString => true
  | String c EmptyString => negb (Ascii.eqb c dash)
  | String _ s' => no_trailing_dash s'
  end.

Lemma slug_char_cases c :
  slug_char c = true ->
  lower_char c = c /\ (if is_lower c || is_digit c then c else dash) = c.
Proof.
  unfold slug_char, lower_char. intros H.
  destruct (is_lower c) eqn:El; simpl in *.
  - split; [|reflexivity].
    destruct (is_upper c) eqn:Eu; [|reflexivity].
    unfold is_lower, is_upper, between in *.
    apply andb_prop in El as [A B]. apply andb_prop in Eu as [C D].
    apply Nat.leb_le in A, B, C, D. lia.
  - destruct (is_digit c) eqn:Ed; simpl in *.
    + split; [|reflexivity].
      destruct (is_upper c) eqn:Eu; [|reflexivity].
      unfold is_digit, is_upper, between in *.
      apply andb_prop in Ed as [A B]. apply andb_prop in Eu as [C D].
      apply Nat.leb_le in A, B, C, D. lia.
    + apply Ascii.eqb_eq in H. subst c. split; reflexivity.
Qed.

Lemma slug_cons c s : slug (String c s) = slug_char c && slug s.
Proof. reflexivity. Qed.

Lemma slug_ascii s : slug s = true -> is_ascii s = true.
Proof.
  unfold is_ascii. induction s as [|c s IH]; [reflexivity|].
  rewrite slug_cons. intros H. apply andb_prop in H as [Hc Hs].
  cbn [forall_chars]. rewrite (IH Hs), andb_true_r.
  apply Nat.ltb_lt. unfold slug_char in Hc.
  apply orb_prop in Hc as [Hc|Hc];
    [apply orb_prop in Hc as [Hc|Hc];
     unfold is_lower, is_digit, between in Hc;
     apply andb_prop in Hc as [_ B]; apply Nat.leb_le in B; lia|].
  apply Ascii.eqb_eq in Hc. subst c. cbn. lia.
Qed.

Lemma slug_ascii_lower s : slug s = true -> ascii_lower s = s.
Proof.
  unfold ascii_lower.
  induction s as [|c s IH]; [reflexivity|].
  rewrite slug_cons. intros H. apply andb_prop in H as [Hc Hs].
  cbn [map_chars].
  rewrite (proj1 (slug_char_cases c Hc)), (IH Hs). reflexivity.
Qed.

Lemma slug_lower `{CM : CaseMapping} s : slug s = true -> toLowerCase s = s.
Proof.
  intros Hs. rewrite (toLowerCase_ascii s (slug_ascii s Hs)).
  apply slug_ascii_lower, Hs.
Qed.

Lemma slug_replace s : slug s = true -> replace_non_alnum s = s.
Proof.
  unfold replace_non_alnum.
  induction s as [|c s IH]; [reflexivity|].
  rewrite slug_cons. intros H. apply andb_prop in H as [Hc Hs].
  cbn [map_chars].
  rewrite (proj2 (slug_char_cases c Hc)), (IH Hs). reflexivity.
Qed.

Lemma replace_is_slug s : slug (replace_non_alnum s) = true.
Proof.
  unfold replace_non_alnum.
  induction s as [|c s IH]; [reflexivity|].
  cbn [map_chars]. rewrite slug_cons, IH, andb_true_r.
  unfold slug_char.
  destruct (is_lower c || is_digit c) eqn:E.
  - rewrite E. reflexivity.
  - reflexivity.
Qed.

Lemma collapse_slug s : slug s = true -> slug (collapse_dashes s) = true.
Proof.
  induction s as [|c s IH]; [reflexivity|].
  rewrite slug_cons. intros H. apply andb_prop in H as [Hc Hs].
  cbn [collapse_dashes].
  destruct (Ascii.eqb c dash) eqn:E.
  - destruct s as [|d s']; [rewrite slug_cons, Hc; reflexivity|].
    destruct (Ascii.eqb d dash) eqn:E'.
    + apply IH, Hs.
    + rewrite slug_cons, Hc. apply IH, Hs.
  - rewrite slug_cons, Hc. apply IH, Hs.
Qed.

Lemma strip_trailing_slug s :
  slug s = true -> slug (strip_trailing_dash s) = true.
Proof.
  induction s as [|c s IH]; [reflexivity|].
  rewrite slug_cons. intros H. apply andb_prop in H as [Hc Hs].
  destruct s as [|d s'].
  - cbn [strip_trailing_dash].
    destruct (Ascii.eqb c dash); [reflexivity|].
    rewrite slug_cons, Hc. reflexivity.
  - change (slug (String c (strip_trailing_dash (String d s'))) = true).
    rewrite slug_cons, Hc. apply IH, Hs.
Qed.

Lemma trim_slug s : slug s = true -> slug (trim_dashes s) = true.
Proof.
  intros H. unfold trim_dashes. apply strip_trailing_slug.
  destruct s as [|c s]; [reflexivity|]. cbn [strip_leading_dash].
  destruct (Ascii.eqb c dash); [|exact H].
  rewrite slug_cons in H. apply andb_prop in H as [_ H]. exact H.
Qed.

Lemma collapse_head c s :
  exists t, collapse_dashes (String c s) = String c t.
Proof.
  revert c. induction s as [|d s IH]; intros c; simpl.
  - destruct (Ascii.eqb c dash); eauto.
  - destruct (Ascii.eqb c dash) eqn:E.
    + destruct (Ascii.eqb d dash) eqn:E'.
      * apply Ascii.eqb_eq in E, E'. subst.
        destruct (IH dash) as [t Ht]. simpl in Ht. eauto.
      * eauto.
    + eauto.
Qed.

Lemma no_double_cons2 c d s :
  no_double_dash (String c (String d s)) =
  negb (Ascii.eqb c dash && Ascii.eqb d dash) && no_double_dash (String d s).
Proof. reflexivity. Qed.

Lemma collapse_no_double s : no_double_dash (collapse_dashes s) = true.
Proof.
  induction s as [|c s IH]; [reflexivity|].
  cbn [collapse_dashes].
  destruct (Ascii.eqb c dash) eqn:E.
  - destruct s as [|d s']; [reflexivity|].
    destruct (Ascii.eqb d dash) eqn:E'; [exact IH|].
    destruct (collapse_head d s') as [t Ht].
    rewrite Ht in *. rewrite no_double_cons2, E', andb_false_r. exact IH.
  - destruct s as [|d s']; [reflexivity|].
    destruct (collapse_head d s') as [t Ht].
    rewrite Ht in *. rewrite no_double_cons2, E. exact IH.
Qed.

Lemma no_double_tail c s :
  no_double_dash (String c s) = true -> no_double_dash s = true.
Proof.
  destruct s as [|d s]; [reflexivity|].
  rewrite no_double_cons2. intros H. apply andb_prop in H as [_ H]. exact H.
Qed.

Lemma no_double_collapse s :
  no_double_dash s = true -> collapse_dashes s = s.
Proof.
  induction s as [|c s IH]; [reflexivity|].
  intros H. pose proof (IH (no_double_tail _ _ H)) as IH'.
  cbn [collapse_dashes].
  destruct (Ascii.eqb c dash) eqn:E.
  - destruct s as [|d s']; [reflexivity|].
    rewrite no_double_cons2, E in H.
    destruct (Ascii.eqb d dash) eqn:E'; [discriminate|].
    rewrite IH'. reflexivity.
  - rewrite IH'. reflexivity.
Qed.

Lemma strip_trailing_cons2 c d s :
  strip_trailing_dash (String c (String d s)) =
  String c (strip_trailing_dash (String d s)).
Proof. reflexivity. Qed.

Lemma strip_trailing_head d s :
  strip_trailing_dash (String d s) = EmptyString \/
  exists t, strip_trailing_dash (String d s) = String d t.
Proof.
  destruct s as [|e s].
  - cbn [strip_trailing_dash]. destruct (Ascii.eqb d dash); eauto.
  - rewrite strip_trailing_cons2. eauto.
Qed.

Lemma strip_trailing_no_double s :
  no_double_dash s = true -> no_double_dash (strip_trailing_dash s) = true.
Proof.
  induction s as [|c s IH]; [reflexivity|].
  intros H. pose proof (IH (no_double_tail _ _ H)) as IH'.
  destruct s as [|d s'].
  - cbn [strip_trailing_dash]. destruct (Ascii.eqb c dash); reflexivity.
  - rewrite strip_trailing_cons2. rewrite no_double_cons2 in H.
    apply andb_prop in H as [H1 _].
    destruct (strip_trailing_head d s') as [Hz|[t Ht]].
    + rewrite Hz. reflexivity.
    + rewrite Ht in *. rewrite no_double_cons2, H1. exact IH'.
Qed.

Lemma strip_leading_sub s :
  no_double_dash s = true -> no_double_dash (strip_leading_dash s) = true.
Proof.
  destruct s as [|c s]; [reflexivity|]. cbn [strip_leading_dash].
  intros H. destruct (Ascii.eqb c dash); [apply (no_double_tail _ _ H)|exact H].
Qed.

Lemma trim_no_double s :
  no_double_dash s = true -> no_double_dash (trim_dashes s) = true.
Proof.
  intros H. unfold trim_dashes.
  apply strip_trailing_no_double, strip_leading_sub, H.
Qed.

Lemma strip_leading_ok s :
  no_double_dash s = true -> no_leading_dash (strip_leading_dash s) = true.
Proof.
  destruct s as [|c s]; [reflexivity|]. cbn [strip_leading_dash].
  destruct (Ascii.eqb c dash) eqn:E.
  - destruct s as [|d s']; [reflexivity|].
    rewrite no_double_cons2, E. cbn [no_leading_dash].
    destruct (Ascii.eqb d dash); [discriminate|reflexivity].
  - intros _. cbn [no_leading_dash]. rewrite E. reflexivity.
Qed.

Lemma strip_trailing_keeps_leading s :
  no_leading_dash s = true ->
  no_leading_dash (strip_trailing_dash s) = true.
Proof.
  destruct s as [|c s]; [reflexivity|].
  intros H. destruct (strip_trailing_head c s) as [Hz|[t Ht]].
  - rewrite Hz. reflexivity.
  - rewrite Ht. exact H.
Qed.

Lemma no_trailing_cons2 c d s :
  no_trailing_dash (String c (String d s)) = no_trailing_dash (String d s).
Proof. reflexivity. Qed.

Lemma strip_trailing_ok s :
  no_double_dash s = true -> no_trailing_dash (strip_trailing_dash s) = true.
Proof.
  induction s as [|c s IH]; [reflexivity|].
  intros H. pose proof (IH (no_double_tail _ _ H)) as IH'.
  destruct s as [|d s'].
  - cbn [strip_trailing_dash].
    destruct (Ascii.eqb c dash) eqn:E; [reflexivity|].
    cbn [no_trailing_dash]. rewrite E. reflexivity.
  - rewrite strip_trailing_cons2. rewrite no_double_cons2 in H.
    apply andb_prop in H as [H1 _].
    destruct s' as [|e s''].
    + cbn [strip_trailing_dash] in *.
      destruct (Ascii.eqb d dash) eqn:E'.
      * cbn [no_trailing_dash]. rewrite andb_true_r in H1. exact H1.
      * rewrite no_trailing_cons2. exact IH'.
    + rewrite strip_trailing_cons2 in *. rewrite no_trailing_cons2.
      exact IH'.
Qed.

Lemma no_trailing_strip s :
  no_trailing_dash s = true -> strip_trailing_dash s = s.
Proof.
  induction s as [|c s IH]; [reflexivity|].
  destruct s as [|d s'].
  - cbn [no_trailing_dash strip_trailing_dash].
    destruct (Ascii.eqb c dash); [discriminate|reflexivity].
  - rewrite no_trailing_cons2, strip_trailing_cons2.
    intros H. rewrite (IH H). reflexivity.
Qed.

Lemma no_leading_strip s :
  no_leading_dash s = true -> strip_leading_dash s = s.
Proof.
  destruct s as [|c s]; [reflexivity|].
  cbn [no_leading_dash strip_leading_dash].
  destruct (Ascii.eqb c dash); [discriminate|reflexivity].
Qed.

(** The shape of every sanitized identifier. *)
Lemma sanitizeId_shape `{CM : CaseMapping} x :
  let r := sanitizeId x in
  slug r = true /\ no_double_dash r = true /\
  no_leading_dash r = true /\ no_trailing_dash r = true.
Proof.
  unfold sanitizeId. set (y := collapse_dashes _).
  assert (Hs : slug y = true) by (apply collapse_slug, replace_is_slug).
  assert (Hn : no_double_dash y = true) by apply collapse_no_double.
  cbv zeta. repeat split.
  - apply trim_slug, Hs.
  - apply trim_no_double, Hn.
  - unfold trim_dashes.
    apply strip_trailing_keeps_leading, strip_leading_ok, Hn.
  - unfold trim_dashes. apply strip_trailing_ok, strip_leading_sub, Hn.
Qed.

Lemma sanitizeId_fixes_shaped `{CM : CaseMapping} r :
  slug r = true -> no_double_dash r = true ->
  no_leading_dash r = true -> no_trailing_dash r = true ->
  sanitizeId r = r.
Proof.
  intros Hs Hn Hl Ht. unfold sanitizeId, trim_dashes.
  rewrite (slug_lower _ Hs), (slug_replace _ Hs), (no_double_collapse _ Hn).
  rewrite (no_leading_strip _ Hl). apply no_trailing_strip, Ht.
Qed.

(** C8: sanitizeId maps the sample name of the specification to
    my-tool-v2, and sanitizing twice is the same as sanitizing once, for
    every name and whatever [toLowerCase] does to the letters that are
    not of ASCII. *)
Theorem sanitizeId_example_and_idempotent `{CM : CaseMapping} :
  sanitizeId "My Tool! v2" = "my-tool-v2" /\
  forall x : string, sanitizeId (sanitizeId x) = sanitizeId x.
Proof.
  split.
  - unfold sanitizeId. rewrite toLowerCase_ascii by reflexivity. reflexivity.
  - intros x. destruct (sanitizeId_shape x) as (Hs & Hn & Hl & Ht).
    apply sanitizeId_fixes_shaped; assumption.
Qed.

End SanitizeFacts.

(* ================================================================= *)
(** ** JavaScript values and exceptions *)

Module JS.

Inductive exn : Type :=
| TypeError
| Error (msg : string).

Inductive result (A : Type) : Type :=
| Ok (a : A)
| Throw (e : exn).

Arguments Ok {A} a.
Arguments Throw {A} e.

Definition bind {A B : Type} (r : result A) (k : A -> result B) : result B :=
  match r with
  | Ok a => k a
  | Throw e => Throw e
  end.

Fixpoint mapM {A B : Type} (f : A -> result B) (l : list A)
  : result (list B) :=
  match l with
  | [] => Ok []
  | x :: rest =>
      bind (f x) (fun y => bind (mapM f rest) (fun ys => Ok (y :: ys)))
  end.

Definition returns {A : Type} (r : result A) : bool :=
  match r with Ok _ => true | Throw _ => false end.

(** A value as JSON.parse or YAML.parse builds it, plus [undefined].
    A number is [VNum t] where [t] is the decimal text that the engine
    prints for it, which is also its JSON text: 0, -3, 1.5, 1e+21. *)
Inductive value : Type :=
| VUndefined
| VNull
| VBool (b : bool)
| VNum (text : string)
| VStr (s : string)
| VArr (items : list value)
| VObj (entries : list (string * value)).

Definition string_of_nat (n : nat) : string :=
  NilZero.string_of_uint (Nat.to_uint n).

Definition truthy (v : value) : bool :=
  match v with
  | VUndefined | VNull => false
  | VBool b => b
  | VNum t => negb (String.eqb t "0" || String.eqb t "NaN")
  | VStr s => negb (String.eqb s EmptyString)
  | VArr _ | VObj _ => true
  end.

(** [a || b] *)
Definition or_else (a b : value) : value := if truthy a then a else b.

Definition is_undefined (v : value) : bool :=
  match v with VUndefined => true | _ => false end.

Definition strict_eq_str (v : value) (s : string) : bool :=
  match v with VStr t => String.eqb t s | _ => false end.

Fixpoint index_entries (i : nat) (l : list value) : list (string * value) :=
  match l with
  | [] => []
  | x :: rest => (string_of_nat i, x) :: index_entries (S i) rest
  end.

Fixpoint chars_of (s : string) : list value :=
  match s with
  | EmptyString => []
  | String c s' => VStr (String c EmptyString) :: chars_of s'
  end.

(** The own enumerable entries of a value that is neither null nor
    undefined, in the order of Object.entries. *)
Definition own_entries (v : value) : list (string * value) :=
  match v with
  | VObj es => es
  | VArr items => index_entries 0 items
  | VStr s => index_entries 0 (chars_of s)
  | _ => []
  end.

Definition Object_entries (v : value) : result (list (string * value)) :=
  match v with
  | VUndefined | VNull => Throw TypeError
  | _ => Ok (own_entries v)
  end.

Definition Object_keys (v : value) : result (list string) :=
  bind (Object_entries v) (fun es => Ok (map fst es)).

Fixpoint lookup (k : string) (es : list (string * value)) : value :=
  match es with
  | [] => VUndefined
  | (k', v) :: rest => if String.eqb k k' then v else lookup k rest
  end.

(** Property read [v.k] or [v[k]].  The keys read by the source are own
    keys or plain names; none is a method or accessor inherited by
    strings, arrays, numbers or booleans. *)
Definition get (v : value) (k : string) : result value :=
  match v with
  | VUndefined | VNull => Throw TypeError
  | _ => Ok (lookup k (own_entries v))
  end.

(** Optional chaining [v?.k] *)
Definition get_opt (v : value) (k : string) : value :=
  match v with
  | VUndefined | VNull => VUndefined
  | _ => lookup k (own_entries v)
  end.

(** The conversion of a value to a string finds a string: no object
    with a [toString] entry of its own is met.  Such an entry holds data
    and no function, so the conversion to a primitive, which also tries
    [valueOf], fails; an array converts its elements, except [null] and
    [undefined]; an object with no such entry has the [toString] of
    Object.prototype. *)
Fixpoint printable (v : value) : bool :=
  match v with
  | VArr items =>
      forallb (fun x => match x with
                        | VUndefined | VNull => true
                        | _ => printable x
                        end) items
  | VObj es => negb (existsb (fun e => String.eqb (fst e) "toString") es)
  | _ => true
  end.

(** The text of a printable value. *)
Fixpoint to_string (v : value) : string :=
  match v with
  | VUndefined => "undefined"
  | VNull => "null"
  | VBool true => "true"
  | VBool false => "false"
  | VNum t => t
  | VStr s => s
  | VArr items =>
      join ","
        (map (fun x => match x with
                       | VUndefined | VNull => EmptyString
                       | _ => to_string x
                       end) items)
  | VObj _ => "[object Object]"
  end.

(** [String(v)], also the conversion of a template-literal hole: it
    throws a TypeError on a value that is not printable. *)
Definition String_of (v : value) : result string :=
  if printable v then Ok (to_string v) else Throw TypeError.

Definition hex_digit (n : nat) : string :=
  match n with
  | 0 => "0" | 1 => "1" | 2 => "2" | 3 => "3" | 4 => "4" | 5 => "5"
  | 6 => "6" | 7 => "7" | 8 => "8" | 9 => "9" | 10 => "a" | 11 => "b"
  | 12 => "c" | 13 => "d" | 14 => "e" | _ => "f"
  end.

Definition json_escape_char (c : ascii) : string :=
  let n := nat_of_ascii c in
  if Nat.eqb n 34 then bs ++ dq
  else if Nat.eqb n 92 then bs ++ bs
  else if Nat.eqb n 8 then bs ++ "b"
  else if Nat.eqb n 12 then bs ++ "f"
  else if Nat.eqb n 10 then bs ++ "n"
  else if Nat.eqb n 13 then bs ++ "r"
  else if Nat.eqb n 9 then bs ++ "t"
  else if Nat.ltb n 32
       then bs ++ "u00" ++ hex_digit (n / 16) ++ hex_digit (n mod 16)
  else String c EmptyString.

Fixpoint json_escape (s : string) : string :=
  match s with
  | EmptyString => EmptyString
  | String c s' => json_escape_char c ++ json_escape s'
  end.

Definition json_quote (s : string) : string := dq ++ json_escape s ++ dq.

(** [JSON.stringify(v)] without indentation; the text [undefined] stands
    for the value undefined, as a template hole prints it. *)
Fixpoint JSON_stringify (v : value) : string :=
  match v with
  | VUndefined => "undefined"
  | VNull => "null"
  | VBool true => "true"
  | VBool false => "false"
  | VNum t =>
      if String.eqb t "NaN" || String.eqb t "Infinity"
         || String.eqb t "-Infinity"
      then "null" else t
  | VStr s => json_quote s
  | VArr items =>
      "[" ++ join ","
        (map (fun x => match x with
                       | VUndefined => "null"
                       | _ => JSON_stringify x
                       end) items) ++ "]"
  | VObj es =>
      "{" ++ join ","
        ((fix members (l : list (string * value)) : list string :=
            match l with
            | [] => []
            | (k, VUndefined) :: rest => members rest
            | (k, x) :: rest =>
                (json_quote k ++ ":" ++ JSON_stringify x) :: members rest
            end) es) ++ "}"
  end.

(** [typeof v === 'object' && v !== null && !Array.isArray(v)] *)
Definition is_plain_object (v : value) : bool :=
  match v with VObj _ => true | _ => false end.

(** [xs.includes(s)] where the receiver is any value. *)
Definition includes_method (recv : value) (s : string) : result bool :=
  match recv with
  | VStr t => Ok (includes s t)
  | VArr items => Ok (existsb (fun x => strict_eq_str x s) items)
  | _ => Throw TypeError
  end.

(** [replace(/c/g, r)] for a one-character pattern. *)
Fixpoint replace_char (c : ascii) (r : string) (s : string) : string :=
  match s with
  | EmptyString => EmptyString
  | String a s' =>
      (if Ascii.eqb a c then r else String a EmptyString)
        ++ replace_char c r s'
  end.

(** [replace(/\b\w/g, l => l.toUpperCase())] *)
Fixpoint upcase_word_starts (prev_word : bool) (s : string) : string :=
  match s with
  | EmptyString => EmptyString
  | String a s' =>
      String (if is_word a && negb prev_word then upper_char a else a)
             (upcase_word_starts (is_word a) s')
  end.

(** [name.replace(/_/g, ' ').replace(/\b\w/g, l => l.toUpperCase())] *)
Definition title_of (name : string) : string :=
  upcase_word_starts false (replace_char "_"%char " " name).

(** [replace(/([A-Z])/g, '_$1')] *)
Fixpoint underscore_capitals (s : string) : string :=
  match s with
  | EmptyString => EmptyString
  | String a s' =>
      (if is_upper a then String "_"%char (String a EmptyString)
       else String a EmptyString) ++ underscore_capitals s'
  end.

(** [a || b] on an optional string. *)
Definition str_or (a : option string) (b : string) : string :=
  match a with
  | Some s => if String.eqb s EmptyString then b else s
  | None => b
  end.

Definition opt_truthy (a : option string) : bool :=
  match a with
  | Some s => negb (String.eqb s EmptyString)
  | None => false
  end.

End JS.
Import JS.

Notation "x <- e ;; k" := (bind e (fun x => k))
  (at level 61, e at next level, right associativity).

Example to_string_samples :
  String_of (VNum "1e+21") = Ok "1e+21" /\
  String_of (VArr [VNum "1"; VNull; VStr "a"]) = Ok "1,,a" /\
  String_of (VObj [("a", VNum "1")]) = Ok "[object Object]" /\
  String_of (VObj [("toString", VNum "1")]) = Throw TypeError /\
  String_of (VArr [VObj [("toString", VNull)]]) = Throw TypeError /\
  string_of_nat 0 = "0" /\ string_of_nat 12 = "12" /\
  title_of "get_weather now" = "Get Weather Now" /\
  underscore_capitals "apiKey" = "api_Key".
Proof. repeat split. Qed.

(* ================================================================= *)
(** ** Shared template utilities (templates/utils.ts) *)

Module McpTool.
Record t : Type := mk {
  name : string;
  description : string;
  inputSchema : value;       (* undefined when absent *)
  handler : option string
}.
End McpTool.

Module McpPrompt.
Record t : Type := mk {
  name : string;
  description : string;
  argsSchema : value;        (* undefined when absent *)
  template : option string
}.
End McpPrompt.

Module McpResource.
Record t : Type := mk {
  name : string;
  uri : string;
  description : string;
  mimeType : option string;
  handler : option string
}.
End McpResource.

(** [cs && Object.keys(cs).length > 0] *)
Definition has_keys (cs : value) : bool :=
  truthy cs && (0 <? List.length (own_entries cs))%nat.

(** The callback of [Object.entries(obj).forEach] in formatObjectAsYaml,
    and the function itself. *)
Fixpoint formatObjectAsYaml (obj : value) (indent : nat) : string :=
  let spaces := repeat_space indent in
  let array_items :=
    fix array_items (items : list value) : string :=
      match items with
      | [] => EmptyString
      | item :: rest =>
          spaces ++ "  - " ++ JSON_stringify item ++ nl ++ array_items rest
      end in
  let entry (key : string) (v : value) (nested : string) : string :=
    match v with
    | VObj _ => spaces ++ key ++ ":" ++ nl ++ nested
    | VArr items => spaces ++ key ++ ":" ++ nl ++ array_items items
    | _ => spaces ++ key ++ ": " ++ JSON_stringify v ++ nl
    end in
  match obj with
  | VObj es =>
      (fix each (l : list (string * value)) : string :=
         match l with
         | [] => EmptyString
         | (key, v) :: rest =>
             entry key v (formatObjectAsYaml v (indent + 2)) ++ each rest
         end) es
  | VArr items =>
      (fix each (i : nat) (l : list value) : string :=
         match l with
         | [] => EmptyString
         | v :: rest =>
             entry (string_of_nat i) v (formatObjectAsYaml v (indent + 2))
               ++ each (S i) rest
         end) 0%nat items
  | _ => spaces ++ JSON_stringify obj ++ nl
  end.

Definition generateResourcesCode `{CM : CaseMapping} (resources : list McpResource.t) : string :=
  match resources with
  | [] => "  // No resources to register"
  | firstResource :: _ =>
      let mimeType := str_or (McpResource.mimeType firstResource) "text/plain" in
      let isHttpsUrl := startsWith "https://" (McpResource.uri firstResource) in
      let resourcesCode :=
        if isHttpsUrl then
          "  // Resource: " ++ McpResource.name firstResource ++ "
  server.registerResource(
    " ++ dq ++ sanitizeId (McpResource.name firstResource) ++ dq ++ ",
    " ++ dq ++ McpResource.uri firstResource ++ dq ++ ",
    {
      title: " ++ dq ++ McpResource.name firstResource ++ dq ++ ",
      description: " ++ dq ++ McpResource.description firstResource ++ dq ++ ",
      mimeType: " ++ dq ++ mimeType ++ dq ++ "
    },
    async (uri) => {
      try {
        const response = await fetch(uri.href);
        if (!response.ok) {
          throw new Error(`Failed to fetch resource: ${response.status}`);
        }
        const content = await response.text();
        return {
          contents: [{
            uri: uri.href,
            mimeType: " ++ dq ++ mimeType ++ dq ++ ",
            text: content
          }]
        };
      } catch (error) {
        throw new Error(`Failed to read resource ${uri.href}: ${error instanceof Error ? error.message : String(error)}`);
      }
    }
  );"
        else
          "  // Resource: " ++ McpResource.name firstResource ++ "
  server.registerResource(
    " ++ dq ++ sanitizeId (McpResource.name firstResource) ++ dq ++ ",
    " ++ dq ++ McpResource.uri firstResource ++ dq ++ ",
    {
      title: " ++ dq ++ McpResource.name firstResource ++ dq ++ ",
      description: " ++ dq ++ McpResource.description firstResource ++ dq ++ ",
      mimeType: " ++ dq ++ mimeType ++ dq ++ "
    },
    async (uri) => {
      // TODO: Implement resource handler for " ++ McpResource.name firstResource ++ "
      return {
        contents: [{
          uri: uri.href,
          mimeType: " ++ dq ++ mimeType ++ dq ++ ",
          text: " ++ dq ++ "Resource content here" ++ dq ++ "
        }]
      };
    }
  );" in
      let resourcesCode :=
        if (1 <? List.length resources)%nat then
          let remainingResources :=
            join nl (map (fun resource =>
              "  // TODO: Register resource " ++ dq ++ McpResource.name resource ++ dq ++ " - " ++ McpResource.description resource ++ " (" ++ McpResource.uri resource ++ ")") (tl resources)) in
          resourcesCode ++ "

  // Additional resources to implement:
" ++ remainingResources
        else resourcesCode in
      "  // Register resources
" ++ resourcesCode
  end.

(** The callback of [Object.entries(properties).map] in
    generateZodSchemaFromJson. *)
Definition zod_property (required : value) (indent : string)
    (entry : string * value) : result string :=
  let (key, prop) := entry in
  ty <- get prop "type" ;;
  let zodType :=
    if strict_eq_str ty "string" then "z.string()"
    else if strict_eq_str ty "number" then "z.number()"
    else if strict_eq_str ty "integer" then "z.number().int()"
    else if strict_eq_str ty "boolean" then "z.boolean()"
    else if strict_eq_str ty "array" then "z.array(z.any())"
    else if strict_eq_str ty "object" then "z.record(z.any())"
    else "z.unknown()" in
  dflt <- get prop "default" ;;
  zodType <-
    (if negb (is_undefined dflt) then
       defaultValue <-
         match dflt with
         | VStr s => Ok (dq ++ s ++ dq)
         | _ => String_of dflt
         end ;;
       Ok (zodType ++ ".default(" ++ defaultValue ++ ")")
     else
       listed <- includes_method required key ;;
       Ok (if negb listed then zodType ++ ".optional()" else zodType)) ;;
  desc <- get prop "description" ;;
  zodType <-
    (if truthy desc then
       match desc with
       | VStr d =>
           Ok (zodType ++ ".describe(" ++ dq
                 ++ replace_char "034"%char (bs ++ dq) d ++ dq ++ ")")
       | _ => Throw TypeError
       end
     else Ok zodType) ;;
  Ok (indent ++ key ++ ": " ++ zodType ++ ",").

Definition generateZodSchemaFromJson (schema : value) (indent : string)
  : result string :=
  props <- get schema "properties" ;;
  req <- get schema "required" ;;
  let properties := or_else props (VObj []) in
  let required := or_else req (VArr []) in
  es <- Object_entries properties ;;
  lines <- mapM (zod_property required indent) es ;;
  Ok (join nl lines).

Definition generatePromptsCode (prompts : list McpPrompt.t) : result string :=
  match prompts with
  | [] => Ok ("  // No prompts to register")
  | firstPrompt :: _ =>
      argsSchemaString <-
        (if truthy (McpPrompt.argsSchema firstPrompt) then
           schemaString <-
             generateZodSchemaFromJson (McpPrompt.argsSchema firstPrompt)
               "        " ;;
           Ok ("      argsSchema: {
" ++ schemaString ++ "
      }")
         else Ok ("      argsSchema: {}")) ;;
      let promptsCode :=
        "  // Prompt: " ++ McpPrompt.name firstPrompt ++ "
  server.registerPrompt(
    " ++ dq ++ McpPrompt.name firstPrompt ++ dq ++ ",
    {
      title: " ++ dq ++ title_of (McpPrompt.name firstPrompt) ++ dq ++ ",
      description: " ++ dq ++ McpPrompt.description firstPrompt ++ dq ++ ",
" ++ argsSchemaString ++ "
    },
    async (args) => {
      // TODO: Implement prompt handler for " ++ McpPrompt.name firstPrompt ++ "
      return {
        messages: [
          {
            role: " ++ dq ++ "user" ++ dq ++ ",
            content: {
              type: " ++ dq ++ "text" ++ dq ++ ",
              text: " ++ dq ++ str_or (McpPrompt.template firstPrompt) "Prompt template here" ++ dq ++ "
            }
          }
        ]
      };
    }
  );" in
      let promptsCode :=
        if (1 <? List.length prompts)%nat then
          let remainingPrompts :=
            join nl (map (fun prompt =>
              "  // TODO: Register prompt " ++ dq ++ McpPrompt.name prompt ++ dq ++ " - " ++ McpPrompt.description prompt) (tl prompts)) in
          promptsCode ++ "

  // Additional prompts to implement:
" ++ remainingPrompts
        else promptsCode in
      Ok ("  // Register prompts
" ++ promptsCode)
  end.

Definition generateServerReturn : string :=
  "  return server.server;".

(** The callback of [Object.entries(configSchema.properties).map] in
    generateEnvConfigParsing. *)
Definition env_config_line `{CM : CaseMapping} (entry : string * value) : result string :=
  let (key, prop) := entry in
  let envVar := "process.env." ++ toUpperCase key in
  ty <- get prop "type" ;;
  if strict_eq_str ty "boolean" then
    Ok ("    " ++ key ++ ": " ++ envVar ++ " === 'true',")
  else if strict_eq_str ty "number" || strict_eq_str ty "integer" then
    Ok ("    " ++ key ++ ": " ++ envVar ++ " ? Number(" ++ envVar ++ ") : undefined,")
  else
    Ok ("    " ++ key ++ ": " ++ envVar ++ ",").

Definition generateEnvConfigParsing `{CM : CaseMapping} (configSchema : value) : result string :=
  if negb (truthy configSchema)
     || negb (truthy (get_opt configSchema "properties"))
  then Ok "const config = {};"
  else
    es <- Object_entries (get_opt configSchema "properties") ;;
    configLines <- mapM env_config_line es ;;
    Ok ("const config = configSchema.parse({
" ++ join nl configLines ++ "
  });").

(* ================================================================= *)
(** ** The Smithery CLI template (templates/smithery-cli-template.ts) *)

Module Cli.

Definition generateImports (includeBackwardCompatibility : bool) : string :=
  let imports := "import { McpServer } from " ++ dq ++ "@modelcontextprotocol/sdk/server/mcp.js" ++ dq ++ ";
import { z } from " ++ dq ++ "zod" ++ dq ++ ";" in
  if includeBackwardCompatibility then
    imports ++ "
import { StdioServerTransport } from " ++ dq ++ "@modelcontextprotocol/sdk/server/stdio.js" ++ dq ++ ";"
  else imports.

Definition generateConfigSchema (actualConfigSchema : value) : result string :=
  if has_keys actualConfigSchema then
    schemaString <- generateZodSchemaFromJson actualConfigSchema "  " ;;
    Ok ("// Configuration schema extracted from your existing server
export const configSchema = z.object({
" ++ schemaString ++ "
});")
  else
    Ok ("// Configuration schema for smithery.yaml
export const configSchema = z.object({});").

Definition generateServerCreation (serverName serverVersion : string) : string :=
  "  const server = new McpServer({
    name: " ++ dq ++ serverName ++ dq ++ ",
    version: " ++ dq ++ serverVersion ++ dq ++ ",
  });".

Definition generateToolsCode (tools : list McpTool.t) (hasConfig : bool)
  : result string :=
  match tools with
  | [] => Ok ("  // No tools to register")
  | firstTool :: _ =>
      inputSchemaString <-
        (if truthy (McpTool.inputSchema firstTool) then
           schemaString <-
             generateZodSchemaFromJson (McpTool.inputSchema firstTool)
               "        " ;;
           Ok ("      inputSchema: {
" ++ schemaString ++ "
      }")
         else Ok ("      inputSchema: {}")) ;;
      let configComment :=
        if hasConfig then "
      // TODO: Use the config parameter for API calls, timeout settings, etc." else EmptyString in
      let configLog :=
        if hasConfig then "
      console.log('Available config:', config);" else EmptyString in
      let toolsCode :=
        "  // Tool: " ++ McpTool.name firstTool ++ "
  server.registerTool(
    " ++ dq ++ McpTool.name firstTool ++ dq ++ ",
    {
      title: " ++ dq ++ title_of (McpTool.name firstTool) ++ dq ++ ",
      description: " ++ dq ++ McpTool.description firstTool ++ dq ++ ",
" ++ inputSchemaString ++ "
    },
    async (request) => {
      // TODO: Implement tool handler for " ++ McpTool.name firstTool ++ configComment ++ "
      console.log('Tool " ++ McpTool.name firstTool ++ " called with args:', request);" ++ configLog ++ "
      return {
        content: [{
          type: " ++ dq ++ "text" ++ dq ++ " as const,
          text: " ++ dq ++ "Tool " ++ McpTool.name firstTool ++ " executed successfully" ++ dq ++ "
        }]
      };
    }
  );" in
      let toolsCode :=
        if (1 <? List.length tools)%nat then
          let remainingTools :=
            join nl (map (fun tool =>
              "  // TODO: Register tool " ++ dq ++ McpTool.name tool ++ dq ++ " - " ++ McpTool.description tool) (tl tools)) in
          toolsCode ++ "

  // Additional tools to implement:
" ++ remainingTools
        else toolsCode in
      Ok ("  // Register tools
" ++ toolsCode)
  end.

Definition generateBackwardsCompatibilityCode `{CM : CaseMapping} (configSchema : value)
  : result string :=
  configParsing <- generateEnvConfigParsing configSchema ;;
  let hasConfig := has_keys configSchema in
  let serverCall :=
    if hasConfig then
      "const server = createServer({
    config
  });"
    else
      "const server = createServer({
    config
  });" in
  Ok ("

// STDIO backwards compatibility - only runs when executed directly
async function main() {
  // Get configuration from environment variables
  " ++ configParsing ++ "
  
  // Create server with configuration
  " ++ serverCall ++ "

  const transport = new StdioServerTransport();
  await server.connect(transport);
  console.error(" ++ dq ++ "MCP Server running in stdio mode" ++ dq ++ ");
}

// By default run the server with stdio transport
main().catch((error) => {
  console.error(" ++ dq ++ "Server error:" ++ dq ++ ", error);
  process.exit(1);
});").

Definition generateIndexTsTemplate `{CM : CaseMapping}
    (tools : list McpTool.t) (prompts : list McpPrompt.t)
    (resources : list McpResource.t) (serverName serverVersion : string)
    (includeBackwardCompatibility : bool) (configSchema : value)
  : result string :=
  let imports := generateImports includeBackwardCompatibility in
  configSchemaCode <-
    (if has_keys configSchema then generateConfigSchema configSchema
     else Ok EmptyString) ;;
  let serverCreation := generateServerCreation serverName serverVersion in
  let resourcesCode := generateResourcesCode resources in
  toolsCode <- generateToolsCode tools (has_keys configSchema) ;;
  promptsCode <- generatePromptsCode prompts ;;
  let serverReturn := generateServerReturn in
  backwardsCompatibilityCode <-
    (if includeBackwardCompatibility
     then generateBackwardsCompatibilityCode configSchema
     else Ok EmptyString) ;;
  Ok (imports ++ "
" ++ (if negb (String.eqb configSchemaCode EmptyString) then "
" ++ configSchemaCode ++ "
" else "
// Configuration schema for smithery.yaml
export const configSchema = z.object({});
") ++ "
export default function createServer({
  config,
}: {
  config: z.infer<typeof configSchema>;
}) {
" ++ serverCreation ++ "

" ++ resourcesCode ++ "

" ++ toolsCode ++ "

" ++ promptsCode ++ "

" ++ serverReturn ++ "
}" ++ backwardsCompatibilityCode ++ "
").

End Cli.

(* ================================================================= *)
(** ** The TypeScript custom-container template
       (templates/custom-container-template.ts) *)

Module Container.

Definition generateCustomContainerImports
    (includeBackwardCompatibility : bool) : string :=
  let imports := "import express, { Request, Response } from " ++ dq ++ "express" ++ dq ++ ";
import cors from " ++ dq ++ "cors" ++ dq ++ ";
import { McpServer } from " ++ dq ++ "@modelcontextprotocol/sdk/server/mcp.js" ++ dq ++ ";
import { StreamableHTTPServerTransport } from " ++ dq ++ "@modelcontextprotocol/sdk/server/streamableHttp.js" ++ dq ++ ";
import { z } from " ++ dq ++ "zod" ++ dq ++ ";" in
  if includeBackwardCompatibility then
    imports ++ "
import { StdioServerTransport } from " ++ dq ++ "@modelcontextprotocol/sdk/server/stdio.js" ++ dq ++ ";"
  else imports.

Definition generateExpressSetup : string :=
  "const app = express();
const PORT = process.env.PORT || 8081;

// CORS configuration for browser-based MCP clients
app.use(cors({
  origin: '*', // Configure appropriately for production
  exposedHeaders: ['Mcp-Session-Id', 'mcp-protocol-version'],
  allowedHeaders: ['Content-Type', 'mcp-session-id'],
}));

app.use(express.json());".

Definition generateCustomContainerConfigSchema (actualConfigSchema : value)
  : result string :=
  if has_keys actualConfigSchema then
    schemaString <- generateZodSchemaFromJson actualConfigSchema "  " ;;
    Ok ("// Configuration schema extracted from your existing server
export const configSchema = z.object({
" ++ schemaString ++ "
});")
  else
    Ok ("// Configuration schema for custom container
export const configSchema = z.object({});").

Definition generateConfigFunctions : string :=
  "// Parse configuration from query parameters
function parseConfig(req: Request) {
  const configParam = req.query.config as string;
  if (configParam) {
    return JSON.parse(Buffer.from(configParam, 'base64').toString());
  }
  return {};
}".

Definition generateCustomContainerServerCreation
    (serverName serverVersion : string) : string :=
  "  const server = new McpServer({
    name: " ++ dq ++ serverName ++ dq ++ ",
    version: " ++ dq ++ serverVersion ++ dq ++ ",
  });".

(** The callback of [tools.map] in generateCustomContainerToolsCode. *)
Definition tool_registration (configComment configLog : string)
    (tool : McpTool.t) : result string :=
  inputSchemaString <-
    (if truthy (McpTool.inputSchema tool) then
       schemaString <-
         generateZodSchemaFromJson (McpTool.inputSchema tool) "        " ;;
       Ok ("      inputSchema: {
" ++ schemaString ++ "
      }")
     else Ok ("      inputSchema: {}")) ;;
  Ok ("  // Tool: " ++ McpTool.name tool ++ "
  server.registerTool(
    " ++ dq ++ McpTool.name tool ++ dq ++ ",
    {
      title: " ++ dq ++ title_of (McpTool.name tool) ++ dq ++ ",
      description: " ++ dq ++ McpTool.description tool ++ dq ++ ",
" ++ inputSchemaString ++ "
    },
    async (params) => {
      // TODO: Implement tool handler for " ++ McpTool.name tool ++ configComment ++ "
      console.log('Tool " ++ McpTool.name tool ++ " called with params:', params);" ++ configLog ++ "
      return {
        content: [{
          type: " ++ dq ++ "text" ++ dq ++ ",
          text: " ++ dq ++ "Tool " ++ McpTool.name tool ++ " executed successfully" ++ dq ++ "
        }]
      };
    }
  );").

Definition generateCustomContainerToolsCode (tools : list McpTool.t)
    (hasConfig : bool) : result string :=
  match tools with
  | [] => Ok ("  // No tools to register")
  | _ :: _ =>
      let configComment :=
        if hasConfig then "
      // TODO: Use the config parameter for API calls, timeout settings, etc." else EmptyString in
      let configLog :=
        if hasConfig then "
      console.log('Available config:', config);" else EmptyString in
      blocks <- mapM (tool_registration configComment configLog) tools ;;
      let toolsCode := join (nl ++ nl) blocks in
      Ok ("  // Register tools
" ++ toolsCode)
  end.

Definition generateMcpRequestHandler (hasConfig : bool) : string :=
  if hasConfig then
    "// Handle MCP requests at /mcp endpoint
app.all('/mcp', async (req: Request, res: Response) => {
  try {
    // Parse configuration
    const rawConfig = parseConfig(req);
    
    // Validate and parse configuration
    const config = configSchema.parse(rawConfig);
    
    const server = createServer({ config });
    const transport = new StreamableHTTPServerTransport({
      sessionIdGenerator: undefined,
    });

    // Clean up on request close
    res.on('close', () => {
      transport.close();
      server.close();
    });

    await server.connect(transport);
    await transport.handleRequest(req, res, req.body);
  } catch (error) {
    console.error('Error handling MCP request:', error);
    if (!res.headersSent) {
      res.status(500).json({
        jsonrpc: '2.0',
        error: { code: -32603, message: 'Internal server error' },
        id: null,
      });
    }
  }
});"
  else
    "// Handle MCP requests at /mcp endpoint
app.all('/mcp', async (req: Request, res: Response) => {
  try {
    const server = createServer();
    const transport = new StreamableHTTPServerTransport({
      sessionIdGenerator: undefined,
    });

    // Clean up on request close
    res.on('close', () => {
      transport.close();
      server.close();
    });

    await server.connect(transport);
    await transport.handleRequest(req, res, req.body);
  } catch (error) {
    console.error('Error handling MCP request:', error);
    if (!res.headersSent) {
      res.status(500).json({
        jsonrpc: '2.0',
        error: { code: -32603, message: 'Internal server error' },
        id: null,
      });
    }
  }
});".

Definition generateCustomContainerMainFunction `{CM : CaseMapping}
    (includeBackwardCompatibility hasConfig : bool) (configSchema : value)
  : result string :=
  if negb includeBackwardCompatibility then
    Ok ("
// Main function to start the HTTP server
async function main() {
  app.listen(PORT, () => {
    console.log(`MCP HTTP Server listening on port ${PORT}`);
  });
}

// Start the server
main().catch((error) => {
  console.error(" ++ dq ++ "Server error:" ++ dq ++ ", error);
  process.exit(1);
});")
  else
    let mainFunction := "// Main function to start the server in the appropriate mode
async function main() {
  const transport = process.env.TRANSPORT || 'stdio';
  
  if (transport === 'http') {
    // Run in HTTP mode
    app.listen(PORT, () => {
      console.log(`MCP HTTP Server listening on port ${PORT}`);
    });
  }" in
    mainFunction <-
      (if includeBackwardCompatibility then
         if hasConfig then
           configParsing <- generateEnvConfigParsing configSchema ;;
           Ok (mainFunction ++ " else {
    // Optional: if you need backward compatibility, add stdio transport
    // Parse config from environment variables
    " ++ configParsing ++ "

    // Create server with configuration
    const server = createServer({ config });

    // Start receiving messages on stdin and sending messages on stdout
    const stdioTransport = new StdioServerTransport();
    await server.connect(stdioTransport);
    console.error(" ++ dq ++ "MCP Server running in stdio mode" ++ dq ++ ");
  }")
         else
           Ok (mainFunction ++ " else {
    // Optional: if you need backward compatibility, add stdio transport
    const server = createServer();

    // Start receiving messages on stdin and sending messages on stdout
    const stdioTransport = new StdioServerTransport();
    await server.connect(stdioTransport);
    console.error(" ++ dq ++ "MCP Server running in stdio mode" ++ dq ++ ");
  }")
       else
         Ok (mainFunction ++ " else {
    console.error(" ++ dq ++ "STDIO mode not enabled. Set TRANSPORT=http to run in HTTP mode." ++ dq ++ ");
    process.exit(1);
  }")) ;;
    Ok (mainFunction ++ "
}

// Start the server
main().catch((error) => {
  console.error(" ++ dq ++ "Server error:" ++ dq ++ ", error);
  process.exit(1);
});").

Definition generateCustomContainerTemplate `{CM : CaseMapping}
    (tools : list McpTool.t) (prompts : list McpPrompt.t)
    (resources : list McpResource.t) (serverName serverVersion : string)
    (includeBackwardCompatibility : bool) (configSchema : value)
  : result string :=
  let imports := generateCustomContainerImports includeBackwardCompatibility in
  let expressSetup := generateExpressSetup in
  configSchemaCode <-
    (if has_keys configSchema
     then generateCustomContainerConfigSchema configSchema
     else Ok EmptyString) ;;
  let configFunctions := generateConfigFunctions in
  let serverCreation :=
    generateCustomContainerServerCreation serverName serverVersion in
  let resourcesCode := generateResourcesCode resources in
  toolsCode <- generateCustomContainerToolsCode tools (has_keys configSchema) ;;
  promptsCode <- generatePromptsCode prompts ;;
  let serverReturn := generateServerReturn in
  let mcpHandler :=
    generateMcpRequestHandler (negb (String.eqb configSchemaCode EmptyString)) in
  mainFunction <-
    generateCustomContainerMainFunction includeBackwardCompatibility
      (negb (String.eqb configSchemaCode EmptyString)) configSchema ;;
  Ok (imports ++ "

" ++ expressSetup ++ "
" ++ (if negb (String.eqb configSchemaCode EmptyString) then "
" ++ configSchemaCode ++ "
" else EmptyString) ++ "
" ++ (if negb (String.eqb configSchemaCode EmptyString) then configFunctions else EmptyString) ++ "

export default function createServer(" ++ (if negb (String.eqb configSchemaCode EmptyString) then "{
  config,
}: {
  config: z.infer<typeof configSchema>;
}" else EmptyString) ++ ") {
" ++ serverCreation ++ "

" ++ resourcesCode ++ "

" ++ toolsCode ++ "

" ++ promptsCode ++ "

" ++ serverReturn ++ "
}

" ++ mcpHandler ++ "

" ++ mainFunction ++ "
").

End Container.

(* ================================================================= *)
(** ** The Python custom-container template
       (templates/python-custom-container-template.ts) *)

Module Python.

Definition generatePythonImports (includeBackwardCompatibility : bool)
  : string :=
  let imports := "# src/main.py
import os
import uvicorn
from mcp.server.fastmcp import FastMCP
from starlette.middleware.cors import CORSMiddleware
from typing import Optional" in
  if includeBackwardCompatibility then
    imports ++ "
import contextvars"
  else imports.

Definition generateServerInit (serverName : string) : string :=
  "# Initialize MCP server
mcp = FastMCP(name=" ++ dq ++ serverName ++ dq ++ ")".

Definition generateConfigFunctions : string :=
  "def get_request_config() -> dict:
    " ++ dq ++ dq ++ dq ++ "Get full config from current request context." ++ dq ++ dq ++ dq ++ "
    try:
        # Access the current request context from FastMCP
        import contextvars
        
        # Try to get from request context if available
        request = contextvars.copy_context().get('request')
        if hasattr(request, 'scope') and request.scope:
            return request.scope.get('smithery_config', {})
    except:
        pass
    return {}

def get_config_value(key: str, default=None):
    " ++ dq ++ dq ++ dq ++ "Get a specific config value from current request." ++ dq ++ dq ++ dq ++ "
    config = get_request_config()
    return config.get(key, default)".

(** [propSchema.default !== undefined ? (typeof propSchema.default ===
    'string' ? quoted : propSchema.default) : 'None'], as a template
    hole prints it. *)
Definition python_default (propSchema : value) : result string :=
  dflt <- get propSchema "default" ;;
  if negb (is_undefined dflt) then
    match dflt with
    | VStr s => Ok (dq ++ s ++ dq)
    | _ => String_of dflt
    end
  else Ok "None".

(** The two callbacks of [configProperties.map] in
    generatePythonToolsCode. *)
Definition http_config_line `{CM : CaseMapping} (properties : value) (prop : string)
  : result string :=
  let propSchema := lookup prop (own_entries properties) in
  defaultValue <- python_default propSchema ;;
  Ok ("    " ++ toLowerCase (underscore_capitals prop) ++ " = get_config_value(" ++ dq ++ prop ++ dq ++ ", " ++ defaultValue ++ ")").

Definition env_var_line `{CM : CaseMapping} (properties : value) (prop : string)
  : result string :=
  let propSchema := lookup prop (own_entries properties) in
  let envVar := toUpperCase (underscore_capitals prop) in
  defaultValue <- python_default propSchema ;;
  Ok ("    # " ++ toLowerCase (underscore_capitals prop) ++ " = os.getenv(" ++ dq ++ envVar ++ dq ++ ", " ++ defaultValue ++ ")").

(** The callback of [tools.map] in generatePythonToolsCode. *)
Definition python_tool `{CM : CaseMapping} (configSchema : value) (tool : McpTool.t)
  : result string :=
  let functionName :=
    replace_char "-"%char "_" (sanitizeId (McpTool.name tool)) in
  configAccessCode <-
    (if truthy configSchema && truthy (get_opt configSchema "properties")
     then
       let properties := get_opt configSchema "properties" in
       configProperties <- Object_keys properties ;;
       httpLines <- mapM (http_config_line properties) configProperties ;;
       let httpConfigCode := join nl httpLines in
       envLines <- mapM (env_var_line properties) configProperties ;;
       let envVarCode := join nl envLines in
       Ok (if negb (String.eqb httpConfigCode EmptyString) then
             "    # Get config values (HTTP mode uses request context, stdio mode uses environment variables)
" ++ httpConfigCode ++ "
" ++ envVarCode ++ "
    
    # TODO: Add your validation logic here using the config values
    "
           else EmptyString)
     else
       Ok ("    # Get config values (HTTP mode uses request context, stdio mode uses environment variables)
    # No config schema provided - add your config access here if needed
    ")) ;;
  Ok ("# Tool: " ++ McpTool.name tool ++ "
@mcp.tool()
def " ++ functionName ++ "() -> str:
    " ++ dq ++ dq ++ dq ++ McpTool.description tool ++ dq ++ dq ++ dq ++ "
" ++ configAccessCode ++ "
    # TODO: Implement tool logic for " ++ McpTool.name tool ++ "
    return f" ++ dq ++ "Tool " ++ McpTool.name tool ++ " executed successfully" ++ dq).

Definition generatePythonToolsCode `{CM : CaseMapping} (tools : list McpTool.t)
    (configSchema : value) : result string :=
  match tools with
  | [] => Ok ("# No tools to register")
  | _ :: _ =>
      blocks <- mapM (python_tool configSchema) tools ;;
      let toolsCode := join (nl ++ nl) blocks in
      Ok ("# Register tools
" ++ toolsCode)
  end.

Definition generatePythonPromptsCode `{CM : CaseMapping} (prompts : list McpPrompt.t) : string :=
  match prompts with
  | [] => "# No prompts to register"
  | _ :: _ =>
      let promptsCode :=
        join (nl ++ nl) (map (fun prompt =>
          let functionName :=
            replace_char "-"%char "_" (sanitizeId (McpPrompt.name prompt)) in
          "# Prompt: " ++ McpPrompt.name prompt ++ "
@mcp.prompt()
def " ++ functionName ++ "() -> str:
    " ++ dq ++ dq ++ dq ++ McpPrompt.description prompt ++ dq ++ dq ++ dq ++ "
    # TODO: Implement prompt logic for " ++ McpPrompt.name prompt ++ "
    return " ++ dq ++ str_or (McpPrompt.template prompt) "Prompt template here" ++ dq) prompts) in
      "# Register prompts
" ++ promptsCode
  end.

Definition generatePythonResourcesCode `{CM : CaseMapping} (resources : list McpResource.t)
  : string :=
  match resources with
  | [] => "# No resources to register"
  | _ :: _ =>
      let resourcesCode :=
        join (nl ++ nl) (map (fun resource =>
          let functionName :=
            replace_char "-"%char "_"
              (sanitizeId (McpResource.name resource)) in
          let isHttpsUrl :=
            startsWith "https://" (McpResource.uri resource) in
          if isHttpsUrl then
            "# Resource: " ++ McpResource.name resource ++ "
@mcp.resource(" ++ dq ++ McpResource.uri resource ++ dq ++ ")
def " ++ functionName ++ "() -> str:
    " ++ dq ++ dq ++ dq ++ McpResource.description resource ++ dq ++ dq ++ dq ++ "
    import requests
    try:
        response = requests.get(" ++ dq ++ McpResource.uri resource ++ dq ++ ")
        response.raise_for_status()
        return response.text
    except requests.RequestException as e:
        raise ValueError(f" ++ dq ++ "Failed to fetch resource " ++ McpResource.uri resource ++ ": {str(e)}" ++ dq ++ ")"
          else
            "# Resource: " ++ McpResource.name resource ++ "
@mcp.resource(" ++ dq ++ McpResource.uri resource ++ dq ++ ")
def " ++ functionName ++ "() -> str:
    " ++ dq ++ dq ++ dq ++ McpResource.description resource ++ dq ++ dq ++ dq ++ "
    # TODO: Implement resource handler for " ++ McpResource.uri resource ++ "
    return " ++ dq ++ "Resource content here" ++ dq) resources) in
      "# Register resources
" ++ resourcesCode
  end.

Definition generatePythonMainFunction
    (includeBackwardCompatibility hasConfig : bool) : string :=
  if includeBackwardCompatibility then
    "def main():
    transport_mode = os.getenv(" ++ dq ++ "TRANSPORT" ++ dq ++ ", " ++ dq ++ "stdio" ++ dq ++ ")
    
    if transport_mode == " ++ dq ++ "http" ++ dq ++ ":
        # HTTP mode with config extraction from URL parameters
        print(" ++ dq ++ "MCP Server starting in HTTP mode..." ++ dq ++ ")
        
        # Setup Starlette app with CORS for cross-origin requests
        app = mcp.streamable_http_app()
        
        # IMPORTANT: add CORS middleware for browser based clients
        app.add_middleware(
            CORSMiddleware,
            allow_origins=[" ++ dq ++ "*" ++ dq ++ "],
            allow_credentials=True,
            allow_methods=[" ++ dq ++ "GET" ++ dq ++ ", " ++ dq ++ "POST" ++ dq ++ ", " ++ dq ++ "OPTIONS" ++ dq ++ "],
            allow_headers=[" ++ dq ++ "*" ++ dq ++ "],
            expose_headers=[" ++ dq ++ "mcp-session-id" ++ dq ++ ", " ++ dq ++ "mcp-protocol-version" ++ dq ++ "],
            max_age=86400,
        )

        " ++ (if hasConfig then "# Apply custom middleware for config extraction (per-request API key handling)
        app = SmitheryConfigMiddleware(app)

        " else EmptyString) ++ "# Use Smithery-required PORT environment variable
        port = int(os.environ.get(" ++ dq ++ "PORT" ++ dq ++ ", 8081))
        print(f" ++ dq ++ "Listening on port {port}" ++ dq ++ ")

        uvicorn.run(app, host=" ++ dq ++ "0.0.0.0" ++ dq ++ ", port=port, log_level=" ++ dq ++ "debug" ++ dq ++ ")
    else:
        # Optional: add stdio transport for backwards compatibility
        # You can publish this to uv for users to run locally
        print(" ++ dq ++ "MCP Server starting in stdio mode..." ++ dq ++ ")
        
        # In stdio mode, config comes from environment variables
        # Tools will read directly from environment using os.getenv() as needed
        
        # Run with stdio transport (default)
        mcp.run()

if __name__ == " ++ dq ++ "__main__" ++ dq ++ ":
    main()"
  else
    "def main():
    # HTTP mode for Smithery deployment
    print(" ++ dq ++ "MCP Server starting in HTTP mode..." ++ dq ++ ")
    
    # Setup Starlette app with CORS for cross-origin requests
    app = mcp.streamable_http_app()
    
    # IMPORTANT: add CORS middleware for browser based clients
    app.add_middleware(
        CORSMiddleware,
        allow_origins=[" ++ dq ++ "*" ++ dq ++ "],
        allow_credentials=True,
        allow_methods=[" ++ dq ++ "GET" ++ dq ++ ", " ++ dq ++ "POST" ++ dq ++ ", " ++ dq ++ "OPTIONS" ++ dq ++ "],
        allow_headers=[" ++ dq ++ "*" ++ dq ++ "],
        expose_headers=[" ++ dq ++ "mcp-session-id" ++ dq ++ ", " ++ dq ++ "mcp-protocol-version" ++ dq ++ "],
        max_age=86400,
    )

    " ++ (if hasConfig then "# Apply custom middleware for config extraction (per-request API key handling)
    app = SmitheryConfigMiddleware(app)

    " else EmptyString) ++ "# Use Smithery-required PORT environment variable
    port = int(os.environ.get(" ++ dq ++ "PORT" ++ dq ++ ", 8081))
    print(f" ++ dq ++ "Listening on port {port}" ++ dq ++ ")

    uvicorn.run(app, host=" ++ dq ++ "0.0.0.0" ++ dq ++ ", port=port, log_level=" ++ dq ++ "debug" ++ dq ++ ")

if __name__ == " ++ dq ++ "__main__" ++ dq ++ ":
    main()".

Definition generateMiddleware : string :=
  "# src/middleware.py - Custom middleware for Smithery configuration
import json
import base64
from urllib.parse import parse_qs, unquote

class SmitheryConfigMiddleware:
    def __init__(self, app):
        self.app = app

    async def __call__(self, scope, receive, send):
        if scope.get('type') == 'http':
            query = scope.get('query_string', b'').decode()
            
            if 'config=' in query:
                try:
                    config_b64 = unquote(parse_qs(query)['config'][0])
                    config = json.loads(base64.b64decode(config_b64))
                    
                    # Inject full config into request scope for per-request access
                    scope['smithery_config'] = config
                except Exception as e:
                    print(f" ++ dq ++ "SmitheryConfigMiddleware: Error parsing config: {e}" ++ dq ++ ")
                    scope['smithery_config'] = {}
            else:
                scope['smithery_config'] = {}
        
        await self.app(scope, receive, send)".

Definition generatePythonTemplate `{CM : CaseMapping}
    (tools : list McpTool.t) (prompts : list McpPrompt.t)
    (resources : list McpResource.t) (serverName serverVersion : string)
    (includeBackwardCompatibility : bool) (configSchema : value)
  : result string :=
  let imports := generatePythonImports includeBackwardCompatibility in
  let serverInit := generateServerInit serverName in
  let configFunctions :=
    if has_keys configSchema then generateConfigFunctions else EmptyString in
  let middleware :=
    if has_keys configSchema then generateMiddleware else EmptyString in
  toolsCode <- generatePythonToolsCode tools configSchema ;;
  let promptsCode := generatePythonPromptsCode prompts in
  let resourcesCode := generatePythonResourcesCode resources in
  let mainFunction :=
    generatePythonMainFunction includeBackwardCompatibility
      (has_keys configSchema) in
  Ok (imports ++ "

" ++ serverInit ++ "
" ++ (if negb (String.eqb configFunctions EmptyString) then "
" ++ configFunctions ++ "
" else EmptyString) ++ "
" ++ toolsCode ++ "

" ++ promptsCode ++ "

" ++ resourcesCode ++ "

" ++ mainFunction ++ "
" ++ (if negb (String.eqb middleware EmptyString) then "
" ++ middleware else EmptyString) ++ "
").

End Python.

(* ================================================================= *)
(** ** The template dispatcher (templates/index.ts) *)

Record SmitheryMigrationParams : Type := {
  tools : list McpTool.t;
  prompts : list McpPrompt.t;
  resources : list McpResource.t;
  serverName : string;
  serverVersion : string;
  includeBackwardCompatibility : bool;
  smitheryYaml : option string
}.

Section WithYamlParser.

(** The external [YAML.parse]; a syntax error is a thrown exception. *)
Variable YAML_parse : string -> result value.

Definition parseSmitheryYaml (yamlContent : string) : value :=
  match YAML_parse yamlContent with
  | Ok parsed => parsed
  | Throw _ => VNull
  end.

(** [parsed?.startCommand?.configSchema] *)
Definition extractConfigSchemaFromSmitheryYaml (yamlContent : string)
  : value :=
  let parsed := parseSmitheryYaml yamlContent in
  get_opt (get_opt parsed "startCommand") "configSchema".

Definition extractExampleConfigFromSmitheryYaml (yamlContent : string)
  : value :=
  let parsed := parseSmitheryYaml yamlContent in
  get_opt (get_opt parsed "startCommand") "exampleConfig".

(** [smitheryYaml ? extractConfigSchemaFromSmitheryYaml(smitheryYaml)
    : undefined] *)
Definition extractedConfigSchema (smitheryYaml : option string) : value :=
  match smitheryYaml with
  | Some y =>
      if opt_truthy smitheryYaml
      then extractConfigSchemaFromSmitheryYaml y else VUndefined
  | None => VUndefined
  end.

Definition generateSmitheryCliMigration `{CM : CaseMapping} (params : SmitheryMigrationParams)
  : result string :=
  Cli.generateIndexTsTemplate
    (tools params) (prompts params) (resources params)
    (serverName params) (serverVersion params)
    (includeBackwardCompatibility params)
    (extractedConfigSchema (smitheryYaml params)).

Definition generateCustomContainerMigration `{CM : CaseMapping}
    (params : SmitheryMigrationParams) : result string :=
  Container.generateCustomContainerTemplate
    (tools params) (prompts params) (resources params)
    (serverName params) (serverVersion params)
    (includeBackwardCompatibility params)
    (extractedConfigSchema (smitheryYaml params)).

Definition generatePythonCustomContainerMigration `{CM : CaseMapping}
    (params : SmitheryMigrationParams) : result string :=
  Python.generatePythonTemplate
    (tools params) (prompts params) (resources params)
    (serverName params) (serverVersion params)
    (includeBackwardCompatibility params)
    (extractedConfigSchema (smitheryYaml params)).

Definition generateMigrationTemplate `{CM : CaseMapping} (migrationMode : string)
    (params : SmitheryMigrationParams) : result string :=
  if String.eqb migrationMode "ts-smithery-cli" then
    generateSmitheryCliMigration params
  else if String.eqb migrationMode "ts-custom-container" then
    generateCustomContainerMigration params
  else if String.eqb migrationMode "py-custom-container" then
    generatePythonCustomContainerMigration params
  else
    Throw (Error ("Unsupported migration mode: " ++ migrationMode)).

End WithYamlParser.

Definition getFileExtension (migrationMode : string) : string :=
  if String.eqb migrationMode "ts-smithery-cli"
     || String.eqb migrationMode "ts-custom-container" then "ts"
  else if String.eqb migrationMode "py-custom-container" then "py"
  else "txt".

(* ================================================================= *)
(** ** The smithery.yaml generator (smithery-yaml-generator.ts) *)

Module SmitheryYaml.

(** [SmitheryYamlParams]; the three record-valued fields are
    [VUndefined] when absent. *)
Record Params : Type := {
  runtime : option string;
  startCommandType : string;
  configSchema : value;
  exampleConfig : value;
  env : value;
  dockerfile : option string;
  dockerBuildPath : option string;
  commandFunction : option string
}.

(** The assignment [obj.k = v]: a new key goes last, an existing key
    keeps its place. *)
Definition set_prop (k : string) (v : value) (es : list (string * value))
  : list (string * value) :=
  if existsb (fun e => String.eqb (fst e) k) es
  then map (fun e => if String.eqb (fst e) k then (fst e, v) else e) es
  else (es ++ [(k, v)])%list.

Definition opt_value (o : option string) : value :=
  match o with Some s => VStr s | None => VUndefined end.

Definition isLocalOnlyStdio (p : Params) : bool :=
  String.eqb (startCommandType p) "stdio" && opt_truthy (commandFunction p).

(** The object [yamlContent] once all the assignments are done. *)
Definition yamlContent (p : Params) : list (string * value) :=
  let y : list (string * value) := [] in
  let y :=
    if match runtime p with
       | Some r => String.eqb r "typescript"
       | None => false
       end
    then
      let y := set_prop "runtime" (VStr "typescript") y in
      if truthy (env p) then set_prop "env" (env p) y else y
    else if negb (isLocalOnlyStdio p) then
      let y :=
        if opt_truthy (runtime p)
        then set_prop "runtime" (opt_value (runtime p)) y else y in
      if opt_truthy (dockerfile p) || opt_truthy (dockerBuildPath p) then
        let build : list (string * value) := [] in
        let build :=
          if opt_truthy (dockerfile p)
          then set_prop "dockerfile" (opt_value (dockerfile p)) build
          else build in
        let build :=
          if opt_truthy (dockerBuildPath p)
          then set_prop "dockerBuildPath" (opt_value (dockerBuildPath p)) build
          else build in
        set_prop "build" (VObj build) y
      else y
    else y in
  let startCommand : list (string * value) :=
    [("type", VStr (startCommandType p))] in
  let startCommand :=
    if String.eqb (startCommandType p) "stdio"
       && opt_truthy (commandFunction p)
    then set_prop "commandFunction" (opt_value (commandFunction p))
           startCommand
    else startCommand in
  let startCommand :=
    set_prop "configSchema" (or_else (configSchema p) (VObj [])) startCommand in
  let startCommand :=
    set_prop "exampleConfig" (or_else (exampleConfig p) (VObj []))
      startCommand in
  let y := set_prop "startCommand" (VObj startCommand) y in
  if truthy (env p) then set_prop "env" (env p) y else y.

(** [typeof v === 'object'] *)
Definition typeof_object (v : value) : bool :=
  match v with VNull | VArr _ | VObj _ => true | _ => false end.

Definition typeof_string (v : value) : bool :=
  match v with VStr _ => true | _ => false end.

(** [v.split('\n')] on any value. *)
Definition split_method (v : value) : result (list string) :=
  match v with
  | VStr s => Ok (split_nl s)
  | _ => Throw TypeError
  end.

(** One of the two blocks [configSchema] and [exampleConfig]. *)
Definition object_block (v : value) : result string :=
  keys <- Object_keys v ;;
  Ok (if Nat.eqb (List.length keys) 0 then "    {}" ++ nl
      else formatObjectAsYaml v 4).

Definition render_startCommand (key : string) (startCommand : value)
  : result string :=
  ty <- get startCommand "type" ;;
  let result := key ++ ":" ++ nl in
  let result := result ++ "  type: " ++ dq ++ to_string ty ++ dq ++ nl in
  cf <- get startCommand "commandFunction" ;;
  result <-
    (if truthy cf then
       lines <- split_method cf ;;
       Ok (result ++ "  commandFunction:" ++ nl
             ++ "    # A JS function that produces the CLI command based on the given config to start the MCP on stdio."
             ++ nl ++ "    |-" ++ nl
             ++ String.concat EmptyString
                  (map (fun line => "    " ++ line ++ nl) lines))
     else Ok result) ;;
  cs <- get startCommand "configSchema" ;;
  result <-
    (if negb (is_undefined cs) then
       block <- object_block cs ;;
       Ok (result
             ++ "  # JSON Schema defining the configuration options for the MCP."
             ++ nl ++ "  configSchema:" ++ nl ++ block)
     else Ok result) ;;
  ec <- get startCommand "exampleConfig" ;;
  result <-
    (if negb (is_undefined ec) then
       block <- object_block ec ;;
       Ok (result ++ "  exampleConfig:" ++ nl ++ block)
     else Ok result) ;;
  Ok (trimEnd result).

Definition render_build (key : string) (build : value) : result string :=
  let result := key ++ ":" ++ nl in
  d <- get build "dockerfile" ;;
  let result :=
    if truthy d
    then result ++ "  dockerfile: " ++ dq ++ to_string d ++ dq ++ nl
    else result in
  b <- get build "dockerBuildPath" ;;
  let result :=
    if truthy b
    then result ++ "  dockerBuildPath: " ++ dq ++ to_string b ++ dq ++ nl
    else result in
  Ok (trimEnd result).

Definition render_env (key : string) (v : value) : result string :=
  es <- Object_entries v ;;
  Ok (trimEnd
        (key ++ ":" ++ nl
           ++ String.concat EmptyString
                (map (fun e : string * value =>
                        "  " ++ fst e ++ ": " ++ dq ++ to_string (snd e)
                          ++ dq ++ nl) es))).

(** The callback of [Object.entries(yamlContent).map]. *)
Definition render_entry (entry : string * value) : result string :=
  let (key, v) := entry in
  if String.eqb key "startCommand" && typeof_object v then
    render_startCommand key v
  else if String.eqb key "build" && typeof_object v then
    render_build key v
  else if String.eqb key "env" && typeof_object v then
    render_env key v
  else if typeof_string v then
    Ok (key ++ ": " ++ dq ++ to_string v ++ dq)
  else
    Ok (key ++ ": " ++ JSON_stringify v).

Definition comment : string :=
  "# Smithery configuration file: https://smithery.ai/docs/build/project-config/smithery-yaml"
    ++ nl.

Definition generateSmitheryYaml (p : Params) : result string :=
  blocks <- mapM render_entry (yamlContent p) ;;
  let yamlString := join nl blocks in
  Ok (comment ++ yamlString ++ nl).

End SmitheryYaml.

Example generateSmitheryYaml_sample :
  SmitheryYaml.generateSmitheryYaml
    {| SmitheryYaml.runtime := Some "container";
       SmitheryYaml.startCommandType := "http";
       SmitheryYaml.configSchema :=
         VObj [("type", VStr "object");
               ("required", VArr [VStr "apiKey"]);
               ("properties",
                VObj [("apiKey", VObj [("type", VStr "string")])])];
       SmitheryYaml.exampleConfig := VUndefined;
       SmitheryYaml.env := VObj [("NODE_ENV", VStr "production")];
       SmitheryYaml.dockerfile := Some "Dockerfile";
       SmitheryYaml.dockerBuildPath := None;
       SmitheryYaml.commandFunction := None |}
  = Ok ("# Smithery configuration file: https://smithery.ai/docs/build/project-config/smithery-yaml
runtime: " ++ dq ++ "container" ++ dq ++ "
build:
  dockerfile: " ++ dq ++ "Dockerfile" ++ dq ++ "
startCommand:
  type: " ++ dq ++ "http" ++ dq ++ "
  # JSON Schema defining the configuration options for the MCP.
  configSchema:
    type: " ++ dq ++ "object" ++ dq ++ "
    required:
      - " ++ dq ++ "apiKey" ++ dq ++ "
    properties:
      apiKey:
        type: " ++ dq ++ "string" ++ dq ++ "
  exampleConfig:
    {}
env:
  NODE_ENV: " ++ dq ++ "production" ++ dq ++ "
").
Proof. vm_compute. reflexivity. Qed.

(* ================================================================= *)
(** ** The package.json validator (package-json-validation.ts) *)

Module PackageJson.

Record RequiredChange : Type := {
  field : string;
  expected : value;
  current : value;
  action : string
}.

Record ValidationResult : Type := {
  isValid : bool;
  errors : list string;
  warnings : list string;
  suggestions : list string;
  requiredChanges : list RequiredChange
}.

(** The mutations [result.errors.push(..)] and the like, on the one
    result object that the validators share. *)
Definition push_error (r : ValidationResult) (e : string) : ValidationResult :=
  {| isValid := isValid r; errors := (errors r ++ [e])%list;
     warnings := warnings r; suggestions := suggestions r;
     requiredChanges := requiredChanges r |}.

Definition push_warning (r : ValidationResult) (w : string)
  : ValidationResult :=
  {| isValid := isValid r; errors := errors r;
     warnings := (warnings r ++ [w])%list; suggestions := suggestions r;
     requiredChanges := requiredChanges r |}.

Definition push_suggestion (r : ValidationResult) (s : string)
  : ValidationResult :=
  {| isValid := isValid r; errors := errors r; warnings := warnings r;
     suggestions := (suggestions r ++ [s])%list;
     requiredChanges := requiredChanges r |}.

Definition push_change (r : ValidationResult) (c : RequiredChange)
  : ValidationResult :=
  {| isValid := isValid r; errors := errors r; warnings := warnings r;
     suggestions := suggestions r;
     requiredChanges := (requiredChanges r ++ [c])%list |}.

Definition set_isValid (r : ValidationResult) (b : bool) : ValidationResult :=
  {| isValid := b; errors := errors r; warnings := warnings r;
     suggestions := suggestions r; requiredChanges := requiredChanges r |}.

(** [v.endsWith(suffix)] on any value. *)
Definition endsWith_method (v : value) (suffix : string) : result bool :=
  match v with
  | VStr s => Ok (endsWith suffix s)
  | _ => Throw TypeError
  end.

(** One round of the loop over [requiredScripts]. *)
Definition check_script (scripts : value) (r : ValidationResult)
    (scriptName expectedCommand : string) : result ValidationResult :=
  actual <- get scripts scriptName ;;
  if negb (truthy actual) then
    Ok (push_change
          (push_error r ("Missing required script: '" ++ scriptName ++ "'"))
          {| field := "scripts." ++ scriptName;
             expected := VStr expectedCommand;
             current := VUndefined;
             action := "add" |})
  else if negb (strict_eq_str actual expectedCommand) then
    got <- String_of actual ;;
    Ok (push_change
          (push_error r
             ("Incorrect script for '" ++ scriptName ++ "' - expected: '"
                ++ expectedCommand ++ "', got: '" ++ got ++ "'"))
          {| field := "scripts." ++ scriptName;
             expected := VStr expectedCommand;
             current := actual;
             action := "modify" |})
  else Ok r.

Definition validateSmitheryCliScripts (scripts : value)
    (r : ValidationResult) : result ValidationResult :=
  r <- check_script scripts r "build" "npx @smithery/cli build" ;;
  r <- check_script scripts r "dev" "npx @smithery/cli dev" ;;
  start <- get scripts "start" ;;
  if truthy start then
    uses_stdio <- includes_method start "stdio" ;;
    Ok (if uses_stdio
        then push_warning r
               "Start script appears to use STDIO transport - consider updating for HTTP transport"
        else r)
  else Ok r.

Definition validateSmitheryCliDependencies (deps devDeps : value)
    (r : ValidationResult) : result ValidationResult :=
  cli <- get devDeps "@smithery/cli" ;;
  let r :=
    if negb (truthy cli) then
      push_change
        (push_error r "Missing required devDependency: @smithery/cli")
        {| field := "devDependencies.@smithery/cli";
           expected := VStr "^1.0.0 (or your preferred version)";
           current := VUndefined;
           action := "add" |}
    else r in
  tsx <- get devDeps "tsx" ;;
  Ok (if negb (truthy tsx) then
        push_change
          (push_error r "Missing required devDependency: tsx")
          {| field := "devDependencies.tsx";
             expected := VStr "^4.0.0 (or your preferred version)";
             current := VUndefined;
             action := "add" |}
      else r).

Definition validateSmitheryCliPackageJson (packageJson : value)
    (r : ValidationResult) : result ValidationResult :=
  name <- get packageJson "name" ;;
  let r :=
    if negb (truthy name) then
      push_change (push_error r "Missing required field: 'name'")
        {| field := "name"; expected := VStr "your-server-name";
           current := VUndefined; action := "add" |}
    else r in
  version <- get packageJson "version" ;;
  let r :=
    if negb (truthy version) then
      push_change (push_error r "Missing required field: 'version'")
        {| field := "version"; expected := VStr "1.0.0";
           current := VUndefined; action := "add" |}
    else r in
  module <- get packageJson "module" ;;
  r <-
    (if negb (truthy module) then
       Ok (push_change
             (push_error r "Missing 'module' field required for Smithery CLI")
             {| field := "module"; expected := VStr "./src/index.ts";
                current := VUndefined; action := "add" |})
     else
       ts <- endsWith_method module ".ts" ;;
       if negb ts then
         js <- endsWith_method module ".js" ;;
         Ok (if negb js
             then push_warning r
                    "Module field should point to your main TypeScript or JavaScript file"
             else r)
       else Ok r) ;;
  ty <- get packageJson "type" ;;
  let r :=
    if negb (strict_eq_str ty "module") then
      push_suggestion
        (push_warning r
           "Consider setting 'type': 'module' for ES modules support")
        ("Add '" ++ dq ++ "type" ++ dq ++ ": " ++ dq ++ "module" ++ dq
           ++ "' to package.json for better ES modules support")
    else r in
  scripts <- get packageJson "scripts" ;;
  r <- validateSmitheryCliScripts (or_else scripts (VObj [])) r ;;
  deps <- get packageJson "dependencies" ;;
  devDeps <- get packageJson "devDependencies" ;;
  validateSmitheryCliDependencies
    (or_else deps (VObj [])) (or_else devDeps (VObj [])) r.

Definition validateCustomContainerPackageJson (packageJson : value)
    (r : ValidationResult) : result ValidationResult :=
  Ok (push_suggestion r
        "Custom container migration allows full flexibility - configure dependencies and scripts as needed for your specific setup").

Definition validatePythonContainerPackageJson (packageJson : value)
    (r : ValidationResult) : result ValidationResult :=
  name <- get packageJson "name" ;;
  let r :=
    if negb (truthy name)
    then push_warning r
           "Consider adding 'name' field for better project identification"
    else r in
  version <- get packageJson "version" ;;
  let r :=
    if negb (truthy version)
    then push_warning r
           "Consider adding 'version' field for better project versioning"
    else r in
  Ok (push_suggestion r
        "For Python projects, ensure requirements.txt or pyproject.toml contains your Python dependencies").

Definition performValidation (packageJson : value) (migrationPath : string)
  : result ValidationResult :=
  let r := {| isValid := true; errors := []; warnings := [];
              suggestions := []; requiredChanges := [] |} in
  r <-
    (if String.eqb migrationPath "ts-smithery-cli" then
       validateSmitheryCliPackageJson packageJson r
     else if String.eqb migrationPath "ts-custom-container" then
       validateCustomContainerPackageJson packageJson r
     else if String.eqb migrationPath "py-custom-container" then
       validatePythonContainerPackageJson packageJson r
     else Ok r) ;;
  Ok (set_isValid r (Nat.eqb (List.length (errors r)) 0)).

End PackageJson.

(* ================================================================= *)
(** ** The migration overview (migration-overview.ts) *)

Module FileNeeded.
Record t : Type := {
  filename : string;
  description : string;
  required : bool;
  generated : bool
}.
End FileNeeded.

Module ProjectStructure.
Record t : Type := {
  description : string;
  structure : string
}.
End ProjectStructure.

Module Overview.

Record MigrationOverview : Type := {
  migrationPath : string;
  title : string;
  description : string;
  prerequisites : list string;
  filesNeeded : list FileNeeded.t;
  projectStructure : ProjectStructure.t;
  deploymentSteps : list string;
  additionalNotes : list string;
  nextSteps : list string
}.

(** The object [commonParams]. *)
Record CommonParams : Type := {
  cp_includeBackwardCompatibility : bool;
  cp_needsLocalAccess : bool;
  cp_needsFileSystemAccess : bool;
  cp_needsLocalApps : bool;
  cp_needsSessionConfig : bool
}.

Definition generateLocalStdioOverview (params : CommonParams)
  : MigrationOverview :=
  let needsFileSystemAccess := cp_needsFileSystemAccess params in
  let needsLocalApps := cp_needsLocalApps params in
  let localReasons : list string := [] in
  let localReasons :=
    if needsFileSystemAccess
    then (localReasons ++ ["File system access required"])%list
    else localReasons in
  let localReasons :=
    if needsLocalApps
    then (localReasons ++ ["Local application integration needed"])%list
    else localReasons in
  {| Overview.migrationPath := "local-stdio-only";
     Overview.title := "Local STDIO Servers - Contact Support";
     Overview.description := "Your server needs local file system access or local application integration. We're actively working on improving support for local servers and would love to work with you personally to get yours set up - no migration work needed on your end!";
     Overview.prerequisites := ["Nothing! We'll handle the setup for you."];
     Overview.filesNeeded := [];
     Overview.projectStructure := {| ProjectStructure.description := "Keep your existing project structure - no changes needed";
     ProjectStructure.structure := "No changes to your existing codebase required" |};
     Overview.deploymentSteps := ["📧 Email us: contact@smithery.ai";
      "💬 Join our Discord: https://discord.gg/sKd9uycgH9";
      "We'll work with you directly to get your server set up - no work needed on your end!"];
     Overview.additionalNotes := [];
     Overview.nextSteps := [] |}.

Definition generateSmitheryCLIOverview (params : CommonParams)
  : MigrationOverview :=
  let includeBackwardCompatibility := cp_includeBackwardCompatibility params in
  {| Overview.migrationPath := "ts-smithery-cli";
     Overview.title := "TypeScript with Smithery CLI Migration (RECOMMENDED)";
     Overview.description := "RECOMMENDED: This is the recommended approach for TypeScript projects. Migrate to HTTP transport using Smithery CLI with automatic deployment and containerization. This is the simplest migration path with built-in development tools and requires minimal configuration.";
     Overview.prerequisites := ["Node.js 18+ installed";
      "Existing TypeScript MCP server with STDIO transport";
      "GitHub repository for deployment";
      "Basic understanding of MCP concepts"];
     Overview.filesNeeded := ([{| FileNeeded.filename := "src/index.ts (or main entry file)";
     FileNeeded.description := "Entry point file that exports the createServer function";
     FileNeeded.required := true;
     FileNeeded.generated := true |};
      {| FileNeeded.filename := "package.json";
     FileNeeded.description := "Updated with Smithery CLI scripts and module field pointing to createServer export";
     FileNeeded.required := true;
     FileNeeded.generated := false |};
      {| FileNeeded.filename := "yarn.lock or pnpm-lock.yaml";
     FileNeeded.description := "Lock file required if using yarn or pnpm (not needed for npm)";
     FileNeeded.required := false;
     FileNeeded.generated := false |};
      {| FileNeeded.filename := "smithery.yaml";
     FileNeeded.description := "Smithery configuration (runtime: typescript)";
     FileNeeded.required := true;
     FileNeeded.generated := true |}]
      ++ (if includeBackwardCompatibility then [{| FileNeeded.filename := "tsconfig.json";
     FileNeeded.description := "TypeScript configuration for STDIO builds";
     FileNeeded.required := false;
     FileNeeded.generated := false |}] else []))%list;
     Overview.projectStructure := {| ProjectStructure.description := "Reference TypeScript project structure optimized for Smithery CLI";
     ProjectStructure.structure := "my-mcp-server/
├── src/
│   └── index.ts          # Main server file (exported createServer)
├── package.json          # Updated with Smithery CLI config
├── smithery.yaml         # Smithery runtime configuration
├── tsconfig.json         # TypeScript configuration
└── README.md            # Documentation" |};
     Overview.deploymentSteps := (["1. Update package.json with Smithery CLI scripts and module field pointing to createServer export";
      ("2. Add build and dev scripts: " ++ dq ++ "build" ++ dq ++ ": " ++ dq ++ "npx @smithery/cli build" ++ dq ++ ", " ++ dq ++ "dev" ++ dq ++ ": " ++ dq ++ "npx @smithery/cli dev" ++ dq)%string;
      "3. Generate new src/index.ts with exported createServer function";
      "4. Update smithery.yaml with runtime: typescript";
      "5. Test locally with 'npm run dev' (interactive playground)";
      "6. Push changes to your GitHub repository";
      "7. Wait a few minutes for auto-deploy, or manually trigger deployment from your Smithery server dashboard if it doesn't start automatically"])%string;
     Overview.additionalNotes := (["No Dockerfile needed - Smithery CLI handles containerization";
      "Session-based configuration management";
      ("Required scripts: " ++ dq ++ "build" ++ dq ++ ": " ++ dq ++ "npx @smithery/cli build" ++ dq ++ ", " ++ dq ++ "dev" ++ dq ++ ": " ++ dq ++ "npx @smithery/cli dev" ++ dq)%string;
      "Include your lock file (yarn.lock or pnpm-lock.yaml) if using yarn/pnpm - this helps detect your package manager";
      "The 'module' field in package.json must point to the file that exports createServer (e.g., './src/index.ts')"]
      ++ (if includeBackwardCompatibility then ["STDIO backward compatibility included"] else []))%list;
     Overview.nextSteps := ["Use 'create_migration_template' tool with mode 'ts-smithery-cli'";
      "Use 'generate_smithery_yaml' tool for smithery.yaml configuration";
      "Use 'validate_package_json' tool with migrationPath 'ts-smithery-cli' to ensure all required scripts and dependencies are present"] |}.

Definition generateTypeScriptContainerOverview (params : CommonParams)
  : MigrationOverview :=
  let includeBackwardCompatibility := cp_includeBackwardCompatibility params in
  {| Overview.migrationPath := "ts-custom-container";
     Overview.title := "TypeScript Custom Container Migration";
     Overview.description := "Migrate to HTTP transport using custom Express server with full Docker control. Provides maximum flexibility for middleware and custom logic.";
     Overview.prerequisites := ["Node.js 18+ installed";
      "Docker installed and running";
      "Understanding of Express.js and middleware";
      "Existing TypeScript MCP server";
      "GitHub repository for deployment"];
     Overview.filesNeeded := ([{| FileNeeded.filename := "src/index.ts";
     FileNeeded.description := "Main server file with Express app and MCP request handler";
     FileNeeded.required := true;
     FileNeeded.generated := true |};
      {| FileNeeded.filename := "Dockerfile";
     FileNeeded.description := "Custom Docker container configuration";
     FileNeeded.required := true;
     FileNeeded.generated := true |};
      {| FileNeeded.filename := "package.json";
     FileNeeded.description := "Updated with Express dependencies and scripts";
     FileNeeded.required := true;
     FileNeeded.generated := false |};
      {| FileNeeded.filename := "smithery.yaml";
     FileNeeded.description := "Smithery configuration (runtime: container, type: http)";
     FileNeeded.required := true;
     FileNeeded.generated := true |};
      {| FileNeeded.filename := "tsconfig.json";
     FileNeeded.description := "TypeScript configuration for building";
     FileNeeded.required := true;
     FileNeeded.generated := false |}]
      ++ (if includeBackwardCompatibility then [{| FileNeeded.filename := ".env.example";
     FileNeeded.description := "Environment variables template";
     FileNeeded.required := false;
     FileNeeded.generated := false |}] else []))%list;
     Overview.projectStructure := {| ProjectStructure.description := "Reference TypeScript project with Express server and Docker containerization";
     ProjectStructure.structure := "my-mcp-server/
├── src/
│   └── index.ts          # Express server with MCP handlers
├── dist/                 # Built JavaScript output
├── Dockerfile            # Custom container configuration
├── package.json          # Express dependencies and build scripts
├── smithery.yaml         # Container runtime configuration
├── tsconfig.json         # TypeScript build configuration
└── README.md            # Documentation" |};
     Overview.deploymentSteps := ["1. Generate Express-based src/index.ts with MCP request handlers";
      "2. Create custom Dockerfile with Node.js and build steps";
      "3. Update package.json with Express dependencies";
      "4. Create smithery.yaml with container runtime configuration";
      "5. Test locally: 'npm run build && docker build -t server . && docker run -p 8081:8081 -e PORT=8081 server'";
      "6. Push changes to your GitHub repository";
      "7. Wait a few minutes for auto-deploy, or manually trigger deployment from your Smithery server dashboard if it doesn't start automatically";
      "8. Smithery builds and deploys your custom container"];
     Overview.additionalNotes := (["Full control over Express middleware and routing";
      "Custom Docker environment configuration";
      "Advanced CORS and security configurations";
      "Per-request configuration parsing from URL parameters";
      "IMPORTANT: Server must listen on process.env.PORT (Smithery provides this, defaults to 8081)"]
      ++ (if includeBackwardCompatibility then ["STDIO backward compatibility with TRANSPORT env var"] else []))%list;
     Overview.nextSteps := ["Use 'create_migration_template' tool with mode 'ts-custom-container'";
      "Use 'generate_dockerfile' tool with containerType 'ts-custom-container'";
      "Use 'generate_smithery_yaml' tool for container runtime configuration";
      "Update package.json with Express, CORS, and other dependencies"] |}.

Definition generatePythonContainerOverview (params : CommonParams)
  : MigrationOverview :=
  let includeBackwardCompatibility := cp_includeBackwardCompatibility params in
  let needsSessionConfig := cp_needsSessionConfig params in
  {| Overview.migrationPath := "py-custom-container";
     Overview.title := "Python Custom Container Migration";
     Overview.description := "Migrate to HTTP transport using FastMCP with custom middleware and Docker control. Ideal for Python-based MCP servers with advanced configuration needs.";
     Overview.prerequisites := ["Python 3.11+ installed";
      "uv or pip package manager";
      "Docker installed and running";
      "Understanding of FastAPI/Starlette middleware";
      "Existing Python MCP server";
      "GitHub repository for deployment"];
     Overview.filesNeeded := ([{| FileNeeded.filename := "src/main.py";
     FileNeeded.description := "Main server file with FastMCP and HTTP transport";
     FileNeeded.required := true;
     FileNeeded.generated := true |}]
      ++ (if needsSessionConfig then [{| FileNeeded.filename := "src/middleware.py";
     FileNeeded.description := "Custom middleware for Smithery configuration handling (access tokens, session settings)";
     FileNeeded.required := true;
     FileNeeded.generated := true |}] else [])
      ++ [{| FileNeeded.filename := "Dockerfile";
     FileNeeded.description := "Custom Docker container with Python and uv/pip";
     FileNeeded.required := true;
     FileNeeded.generated := true |};
      {| FileNeeded.filename := "pyproject.toml";
     FileNeeded.description := "Python project configuration with FastMCP dependencies";
     FileNeeded.required := true;
     FileNeeded.generated := false |};
      {| FileNeeded.filename := "smithery.yaml";
     FileNeeded.description := "Smithery configuration (runtime: container, type: http)";
     FileNeeded.required := true;
     FileNeeded.generated := true |};
      {| FileNeeded.filename := "uv.lock";
     FileNeeded.description := "Dependency lock file (if using uv)";
     FileNeeded.required := false;
     FileNeeded.generated := false |}])%list;
     Overview.projectStructure := {| ProjectStructure.description := "Reference Python project structure with FastMCP server and Docker containerization";
     ProjectStructure.structure := ("my-mcp-server/
├── src/
│   ├── main.py           # FastMCP server with HTTP transport" ++ (if needsSessionConfig then "
│   └── middleware.py     # Custom Smithery config middleware" else EmptyString) ++ "
├── Dockerfile            # Custom Python container
├── pyproject.toml        # Python dependencies and config
├── uv.lock              # Dependency lock file (uv)
├── smithery.yaml         # Container runtime configuration
└── README.md            # Documentation")%string |};
     Overview.deploymentSteps := (["1. Generate FastMCP-based src/main.py with HTTP transport"]
      ++ (if needsSessionConfig then ["2. Create src/middleware.py for configuration handling"] else [])
      ++ [((if needsSessionConfig then "3" else "2") ++ ". Create custom Dockerfile with Python and dependency management")%string;
      ((if needsSessionConfig then "4" else "3") ++ ". Update pyproject.toml with FastMCP and required dependencies")%string;
      ((if needsSessionConfig then "5" else "4") ++ ". Create smithery.yaml with container runtime configuration")%string;
      ((if needsSessionConfig then "6" else "5") ++ ". Test locally: 'uv sync && docker build -t server . && docker run -p 8081:8081 -e PORT=8081 server'")%string;
      ((if needsSessionConfig then "7" else "6") ++ ". Push changes to your GitHub repository")%string;
      ((if needsSessionConfig then "8" else "7") ++ ". Wait a few minutes for auto-deploy, or manually trigger deployment from your Smithery server dashboard if it doesn't start automatically")%string])%list;
     Overview.additionalNotes := (["FastMCP provides simple decorator-based tool registration"]
      ++ (if needsSessionConfig then ["Per-request configuration access through middleware"] else ["No middleware needed if no session configuration required"])
      ++ (if includeBackwardCompatibility then ["STDIO backward compatibility with TRANSPORT env var"] else [])
      ++ ["CORS handling for browser-based MCP clients";
      "IMPORTANT: Server must listen on int(os.environ.get('PORT', 8081)) - Smithery provides PORT env var"])%list;
     Overview.nextSteps := ["Use 'create_migration_template' tool with mode 'py-custom-container'";
      "Use 'generate_dockerfile' tool with containerType 'py-custom-container'";
      "Use 'generate_smithery_yaml' tool for container runtime configuration";
      "Create pyproject.toml with FastMCP and uvicorn dependencies"] |}.

Record MigrationOverviewParams : Type := {
  p_migrationPath : string;
  p_includeBackwardCompatibility : option bool;
  p_needsFileSystemAccess : option bool;
  p_needsLocalApps : option bool;
  p_existingSmitheryYaml : option string
}.

(** A destructuring default [x = false]. *)
Definition default_false (o : option bool) : bool :=
  match o with Some b => b | None => false end.

Section WithYamlParser.

Variable YAML_parse : string -> result value.

(** The body of the try block of analyzeSmitheryYamlForSessionConfig;
    the returned value is only ever tested for truth. *)
Definition analyzeSmitheryYamlForSessionConfig (yamlContent : string)
  : bool :=
  match YAML_parse yamlContent with
  | Ok parsed =>
      let hasConfigSchema :=
        has_keys (get_opt (get_opt parsed "startCommand") "configSchema") in
      let hasExampleConfig :=
        has_keys (get_opt (get_opt parsed "startCommand") "exampleConfig") in
      hasConfigSchema || hasExampleConfig
  | Throw _ => false
  end.

Definition generateMigrationOverview (params : MigrationOverviewParams)
  : result MigrationOverview :=
  let migrationPath := p_migrationPath params in
  let includeBackwardCompatibility :=
    default_false (p_includeBackwardCompatibility params) in
  let needsFileSystemAccess :=
    default_false (p_needsFileSystemAccess params) in
  let needsLocalApps := default_false (p_needsLocalApps params) in
  let existingSmitheryYaml := p_existingSmitheryYaml params in
  let detectedSessionConfig :=
    match existingSmitheryYaml with
    | Some y =>
        if opt_truthy existingSmitheryYaml
        then analyzeSmitheryYamlForSessionConfig y else false
    | None => false
    end in
  let needsLocalAccess := needsFileSystemAccess || needsLocalApps in
  let commonParams :=
    {| cp_includeBackwardCompatibility := includeBackwardCompatibility;
       cp_needsLocalAccess := needsLocalAccess;
       cp_needsFileSystemAccess := needsFileSystemAccess;
       cp_needsLocalApps := needsLocalApps;
       cp_needsSessionConfig := detectedSessionConfig |} in
  if String.eqb migrationPath "local-stdio-only" then
    Ok (generateLocalStdioOverview commonParams)
  else if String.eqb migrationPath "ts-smithery-cli" then
    Ok (generateSmitheryCLIOverview commonParams)
  else if String.eqb migrationPath "ts-custom-container" then
    Ok (generateTypeScriptContainerOverview commonParams)
  else if String.eqb migrationPath "py-custom-container" then
    Ok (generatePythonContainerOverview commonParams)
  else
    Throw (Error ("Unsupported migration path: " ++ migrationPath)).

End WithYamlParser.

End Overview.

(* ================================================================= *)
(** * Properties *)

(* ================================================================= *)
(** ** Facts about strings *)

Module StrFacts.

Lemma app_nil_r (s : string) : s ++ EmptyString = s.
Proof. induction s as [|c s IH]; cbn; [reflexivity|rewrite IH; reflexivity]. Qed.

Lemma app_assoc (a b c : string) : (a ++ b) ++ c = a ++ b ++ c.
Proof. induction a as [|x a IH]; cbn; [reflexivity|rewrite IH; reflexivity]. Qed.

Lemma startsWith_refl_app (m b : string) : startsWith m (m ++ b) = true.
Proof.
  induction m as [|c m IH]; cbn; [reflexivity|].
  rewrite Ascii.eqb_refl. exact IH.
Qed.

Lemma startsWith_app_l (m a b : string) :
  startsWith m a = true -> startsWith m (a ++ b) = true.
Proof.
  revert a. induction m as [|c m IH]; intros a; cbn; [reflexivity|].
  destruct a as [|d a]; cbn; [discriminate|].
  intros H. apply andb_prop in H as [H1 H2]. rewrite H1. cbn. apply IH, H2.
Qed.

Lemma includes_unfold (m s : string) :
  includes m s =
  startsWith m s ||
  match s with EmptyString => false | String _ s' => includes m s' end.
Proof. destruct s; reflexivity. Qed.


Lemma includes_app_l (m a b : string) :
  includes m a = true -> includes m (a ++ b) = true.
Proof.
  induction a as [|c a IH]; intros H.
  - rewrite includes_unfold in H. rewrite orb_false_r in H.
    destruct m; [|discriminate]. destruct b; reflexivity.
  - rewrite includes_unfold in H. apply orb_prop in H as [H|H].
    + cbn [append]. rewrite includes_unfold.
      change (String c (a ++ b)) with (String c a ++ b).
      rewrite (startsWith_app_l _ _ _ H). reflexivity.
    + cbn [append]. rewrite includes_unfold, (IH H). apply orb_true_r.
Qed.









End StrFacts.

(* ================================================================= *)
(** ** Counting the lines of a generated text *)

Module Lines.
Import StrFacts.

(** No newline in the string. *)
Inductive mode : Type := Exact | Prefix.

(** A line to look for: the whole line, or its beginning. *)
Record marker : Type := { m_mode : mode; m_text : string }.

Definition matches_text (md : mode) (r l : string) : bool :=
  match md with
  | Exact => String.eqb r l
  | Prefix => startsWith r l
  end.

Definition matches (m : marker) (l : string) : bool :=
  matches_text (m_mode m) (m_text m) l.

(** The number of lines of [s] that are (or begin with) the marker. *)
Definition count_lines (m : marker) (s : string) : nat :=
  List.length (filter (matches m) (split_nl s)).

(** *** A one-pass scanner

    The state is what remains to be read of the marker on the current
    line, or [None] once the line cannot match. *)

Definition step (md : mode) (st : option string) (c : ascii)
  : option string :=
  match st with
  | None => None
  | Some EmptyString =>
      match md with Exact => None | Prefix => Some EmptyString end
  | Some (String d r) => if Ascii.eqb c d then Some r else None
  end.

Definition finish (st : option string) : nat :=
  match st with Some EmptyString => 1 | _ => 0 end.

Fixpoint scan (md : mode) (M : string) (st : option string) (acc : nat)
    (s : string) : nat * option string :=
  match s with
  | EmptyString => (acc, st)
  | String c s' =>
      if Ascii.eqb c "010"%char
      then scan md M (Some M) (acc + finish st) s'
      else scan md M (step md st c) acc s'
  end.

Fixpoint fold_step (md : mode) (st : option string) (u : string)
  : option string :=
  match u with
  | EmptyString => st
  | String c u' => fold_step md (step md st c) u'
  end.

Lemma fold_step_none (md : mode) (u : string) : fold_step md None u = None.
Proof. induction u as [|c u IH]; [reflexivity|exact IH]. Qed.

Lemma fold_step_app (md : mode) (st : option string) (u v : string) :
  fold_step md st (u ++ v) = fold_step md (fold_step md st u) v.
Proof.
  revert st. induction u as [|c u IH]; intros st; [reflexivity|].
  cbn [append fold_step]. apply IH.
Qed.

Lemma finish_fold_step (md : mode) (r u : string) :
  finish (fold_step md (Some r) u) = if matches_text md r u then 1 else 0.
Proof.
  revert r. induction u as [|c u IH]; intros r.
  - destruct r, md; reflexivity.
  - cbn [fold_step]. destruct r as [|d r].
    + destruct md; cbn [step].
      * rewrite fold_step_none. reflexivity.
      * rewrite IH. cbn. destruct u; reflexivity.
    + cbn [step]. rewrite Ascii.eqb_sym.
      destruct md; cbn [matches_text String.eqb startsWith];
        destruct (Ascii.eqb d c); cbn [andb];
        try (rewrite fold_step_none; reflexivity); apply IH.
Qed.

Definition prepend (u : string) (ls : list string) : list string :=
  match ls with
  | [] => []
  | l :: rest => (u ++ l) :: rest
  end.

Lemma split_nl_cons (c : ascii) (s : string) :
  split_nl (String c s) =
  if Ascii.eqb c nl_char then EmptyString :: split_nl s
  else prepend (String c EmptyString) (split_nl s).
Proof.
  cbn [split_nl]. destruct (Ascii.eqb c nl_char); [reflexivity|].
  destruct (split_nl s) eqn:E; [|reflexivity].
  destruct s; cbn in E; [discriminate|].
  destruct (Ascii.eqb a nl_char); [discriminate|].
  destruct (split_nl s); discriminate.
Qed.

Lemma prepend_prepend (u v : string) (ls : list string) :
  prepend u (prepend v ls) = prepend (u ++ v) ls.
Proof. destruct ls; cbn; [reflexivity|]. rewrite app_assoc. reflexivity. Qed.

Lemma split_nl_nonempty (s : string) : split_nl s <> [].
Proof.
  destruct s as [|c s]; cbn [split_nl]; [discriminate|].
  destruct (Ascii.eqb c nl_char); [discriminate|].
  destruct (split_nl s); discriminate.
Qed.

Lemma prepend_empty (ls : list string) : prepend EmptyString ls = ls.
Proof. destruct ls; reflexivity. Qed.

Lemma scan_counts (md : mode) (M : string) (s u : string) (acc : nat) :
  let (n, st) := scan md M (fold_step md (Some M) u) acc s in
  n + finish st =
  acc + List.length
          (filter (matches_text md M) (prepend u (split_nl s))).
Proof.
  revert u acc. induction s as [|c s IH]; intros u acc.
  - cbn [scan split_nl prepend filter]. rewrite app_nil_r, finish_fold_step.
    destruct (matches_text md M u); reflexivity.
  - cbn [scan]. rewrite split_nl_cons.
    change "010"%char with nl_char.
    destruct (Ascii.eqb c nl_char).
    + specialize (IH EmptyString (acc + finish (fold_step md (Some M) u))).
      cbn [fold_step] in IH.
      destruct (scan md M (Some M) _ s) as [n st].
      rewrite IH, prepend_empty. cbn [prepend filter].
      rewrite app_nil_r, finish_fold_step.
      destruct (matches_text md M u); cbn [List.length]; lia.
    + specialize (IH (u ++ String c EmptyString) acc).
      rewrite fold_step_app in IH. cbn [fold_step] in IH.
      destruct (scan md M _ acc s) as [n st].
      rewrite IH, prepend_prepend. reflexivity.
Qed.

(** The scanner computes [count_lines]. *)
Theorem count_lines_scan (m : marker) (s : string) :
  count_lines m s =
  fst (scan (m_mode m) (m_text m) (Some (m_text m)) 0 s)
  + finish (snd (scan (m_mode m) (m_text m) (Some (m_text m)) 0 s)).
Proof.
  pose proof (scan_counts (m_mode m) (m_text m) s EmptyString 0) as H.
  cbn [fold_step] in H.
  destruct (scan _ _ _ 0 s) as [n st]. cbn [fst snd].
  rewrite H, prepend_empty. reflexivity.
Qed.

Lemma scan_app (md : mode) (M : string) (st : option string) (acc : nat)
    (a b : string) :
  scan md M st acc (a ++ b) =
  scan md M (snd (scan md M st acc a)) (fst (scan md M st acc a)) b.
Proof.
  revert st acc. induction a as [|c a IH]; intros st acc; [reflexivity|].
  cbn [append scan]. destruct (Ascii.eqb c "010"%char); apply IH.
Qed.

(** One piece of a text, then the rest. *)
Lemma scan_step (md : mode) (M : string) (st st' : option string)
    (acc n : nat) (a b : string) :
  scan md M st acc a = (n, st') ->
  scan md M st acc (a ++ b) = scan md M st' n b.
Proof. intros H. rewrite scan_app, H. reflexivity. Qed.

(** A piece without newline, on a line that cannot match any more. *)
Lemma scan_dead (md : mode) (M : string) (acc : nat) (h : string) :
  nonl h = true -> scan md M None acc h = (acc, None).
Proof.
  induction h as [|c h IH]; [reflexivity|].
  unfold nonl. cbn [forall_chars scan]. intros H.
  apply andb_prop in H as [Hc Hh].
  change "010"%char with nl_char.
  apply negb_true_iff in Hc. rewrite Hc. cbn [step]. apply IH, Hh.
Qed.

(** In prefix mode, a piece without newline on a line that has
    matched already. *)
Lemma scan_matched (M : string) (acc : nat) (h : string) :
  nonl h = true ->
  scan Prefix M (Some EmptyString) acc h = (acc, Some EmptyString).
Proof.
  induction h as [|c h IH]; [reflexivity|].
  unfold nonl. cbn [forall_chars scan]. intros H.
  apply andb_prop in H as [Hc Hh].
  change "010"%char with nl_char.
  apply negb_true_iff in Hc. rewrite Hc. cbn [step]. apply IH, Hh.
Qed.

(** *** Strings without newline *)

Lemma nonl_app (a b : string) : nonl (a ++ b) = nonl a && nonl b.
Proof.
  unfold nonl. induction a as [|c a IH]; [reflexivity|].
  cbn [append forall_chars]. rewrite IH. apply andb_assoc.
Qed.

Lemma nonl_map_chars (f : ascii -> ascii) (s : string) :
  (forall c, Ascii.eqb c nl_char = false -> Ascii.eqb (f c) nl_char = false) ->
  nonl s = true -> nonl (map_chars f s) = true.
Proof.
  intros Hf. unfold nonl. induction s as [|c s IH]; [reflexivity|].
  cbn [map_chars forall_chars]. intros H. apply andb_prop in H as [Hc Hs].
  apply negb_true_iff in Hc. rewrite (Hf c Hc). cbn. apply IH, Hs.
Qed.

Lemma not_nl_by_code (c : ascii) :
  nat_of_ascii c <> 10 -> Ascii.eqb c nl_char = false.
Proof.
  intros H. apply Ascii.eqb_neq. intros ->. apply H. reflexivity.
Qed.

Lemma nl_code (c : ascii) :
  Ascii.eqb c nl_char = false -> nat_of_ascii c <> 10.
Proof.
  intros H E. apply Ascii.eqb_neq in H. apply H.
  rewrite <- (ascii_nat_embedding c), E. reflexivity.
Qed.

Lemma upper_char_not_nl (c : ascii) :
  Ascii.eqb c nl_char = false -> Ascii.eqb (upper_char c) nl_char = false.
Proof.
  intros H. unfold upper_char. destruct (is_lower c) eqn:E; [|exact H].
  apply not_nl_by_code. unfold is_lower, between in E.
  apply andb_prop in E as [A B]. apply Nat.leb_le in A, B.
  rewrite nat_ascii_embedding by lia. lia.
Qed.

Lemma lower_char_not_nl (c : ascii) :
  Ascii.eqb c nl_char = false -> Ascii.eqb (lower_char c) nl_char = false.
Proof.
  intros H. unfold lower_char. destruct (is_upper c) eqn:E; [|exact H].
  apply not_nl_by_code. unfold is_upper, between in E.
  apply andb_prop in E as [A B]. apply Nat.leb_le in A, B.
  rewrite nat_ascii_embedding by lia. lia.
Qed.

Lemma nonl_toUpperCase `{CM : CaseMapping} (s : string) :
  nonl s = true -> nonl (toUpperCase s) = true.
Proof. apply toUpperCase_nonl. Qed.

Lemma nonl_toLowerCase `{CM : CaseMapping} (s : string) :
  nonl s = true -> nonl (toLowerCase s) = true.
Proof. apply toLowerCase_nonl. Qed.

Lemma nonl_replace_char (c : ascii) (r s : string) :
  nonl r = true -> nonl s = true -> nonl (replace_char c r s) = true.
Proof.
  intros Hr. induction s as [|a s IH]; [reflexivity|].
  intros H. unfold nonl in H. cbn [forall_chars] in H.
  apply andb_prop in H as [Ha Hs]. cbn [replace_char].
  rewrite nonl_app, (IH Hs), andb_true_r.
  destruct (Ascii.eqb a c); [exact Hr|].
  unfold nonl. cbn [forall_chars]. rewrite Ha. reflexivity.
Qed.

Lemma nonl_upcase_word_starts (b : bool) (s : string) :
  nonl s = true -> nonl (upcase_word_starts b s) = true.
Proof.
  revert b. unfold nonl. induction s as [|a s IH]; intros b; [reflexivity|].
  cbn [forall_chars upcase_word_starts]. intros H.
  apply andb_prop in H as [Ha Hs]. apply negb_true_iff in Ha.
  rewrite (IH _ Hs), andb_true_r.
  destruct (is_word a && negb b); [|rewrite Ha; reflexivity].
  rewrite (upper_char_not_nl _ Ha). reflexivity.
Qed.

Lemma nonl_title_of (s : string) : nonl s = true -> nonl (title_of s) = true.
Proof.
  intros H. unfold title_of.
  apply nonl_upcase_word_starts, nonl_replace_char; [reflexivity|exact H].
Qed.

Lemma nonl_underscore_capitals (s : string) :
  nonl s = true -> nonl (underscore_capitals s) = true.
Proof.
  induction s as [|a s IH]; [reflexivity|].
  intros H. unfold nonl in H. cbn [forall_chars] in H.
  apply andb_prop in H as [Ha Hs]. cbn [underscore_capitals].
  rewrite nonl_app, (IH Hs), andb_true_r.
  destruct (is_upper a); unfold nonl; cbn [forall_chars];
    rewrite Ha; reflexivity.
Qed.

Lemma slug_nonl (s : string) : SanitizeFacts.slug s = true -> nonl s = true.
Proof.
  unfold SanitizeFacts.slug, nonl.
  induction s as [|a s IH]; [reflexivity|].
  cbn [forall_chars]. intros H. apply andb_prop in H as [Ha Hs].
  rewrite (IH Hs), andb_true_r. apply negb_true_iff, not_nl_by_code.
  unfold SanitizeFacts.slug_char, is_lower, is_digit, between in Ha.
  apply orb_prop in Ha as [Ha|Ha]; [apply orb_prop in Ha as [Ha|Ha]|].
  - apply andb_prop in Ha as [A B]. apply Nat.leb_le in A, B. lia.
  - apply andb_prop in Ha as [A B]. apply Nat.leb_le in A, B. lia.
  - apply Ascii.eqb_eq in Ha. subst a. cbn. lia.
Qed.

Lemma nonl_sanitizeId `{CM : CaseMapping} (s : string) : nonl (sanitizeId s) = true.
Proof. apply slug_nonl, (SanitizeFacts.sanitizeId_shape s). Qed.

Lemma nonl_str_or (o : option string) (d : string) :
  match o with Some s => nonl s | None => true end = true ->
  nonl d = true -> nonl (str_or o d) = true.
Proof.
  intros Ho Hd. unfold str_or. destruct o as [s|]; [|exact Hd].
  destruct (String.eqb s EmptyString); assumption.
Qed.

(** *** Texts made of blocks of lines *)

Lemma prepend_app (u : string) (l1 l2 : list string) :
  l1 <> [] -> prepend u (l1 ++ l2) = (prepend u l1 ++ l2)%list.
Proof. destruct l1; [congruence|reflexivity]. Qed.

Lemma split_nl_app_nl (a b : string) :
  split_nl (a ++ String "010"%char b) = (split_nl a ++ split_nl b)%list.
Proof.
  induction a as [|c a IH].
  - cbn [append]. rewrite split_nl_cons. reflexivity.
  - cbn [append]. rewrite !split_nl_cons, IH.
    destruct (Ascii.eqb c nl_char); [reflexivity|].
    apply prepend_app, split_nl_nonempty.
Qed.

Lemma count_lines_app_nl (m : marker) (a b : string) :
  count_lines m (a ++ String "010"%char b) =
  count_lines m a + count_lines m b.
Proof.
  unfold count_lines. rewrite split_nl_app_nl, filter_app, length_app.
  reflexivity.
Qed.

Lemma split_nl_nonl (l : string) : nonl l = true -> split_nl l = [l].
Proof.
  induction l as [|c l IH]; [reflexivity|].
  unfold nonl. cbn [forall_chars]. intros H. apply andb_prop in H as [Hc Hl].
  apply negb_true_iff in Hc. rewrite split_nl_cons, Hc, (IH Hl). reflexivity.
Qed.

Lemma count_lines_single (m : marker) (l : string) :
  nonl l = true -> count_lines m l = if matches m l then 1 else 0.
Proof.
  intros H. unfold count_lines. rewrite (split_nl_nonl _ H). cbn.
  destruct (matches m l); reflexivity.
Qed.

Lemma count_lines_empty (m : marker) :
  m_text m <> EmptyString -> count_lines m EmptyString = 0.
Proof.
  intros H. unfold count_lines, matches. cbn.
  destruct m as [[] [|c t]]; cbn in *; congruence.
Qed.

(** Lines joined by newlines. *)
Lemma count_lines_join (m : marker) (lines : list string) :
  m_text m <> EmptyString ->
  Forall (fun l => nonl l = true) lines ->
  count_lines m (join nl lines) = List.length (filter (matches m) lines).
Proof.
  intros HM F. induction F as [|x rest Hx F IH].
  - apply count_lines_empty, HM.
  - destruct rest as [|y rest].
    + cbn [join filter]. rewrite (count_lines_single _ _ Hx).
      destruct (matches m x); reflexivity.
    + change (join nl (x :: y :: rest)) with (x ++ nl ++ join nl (y :: rest)).
      cbn [nl append]. rewrite count_lines_app_nl, IH.
      rewrite (count_lines_single _ _ Hx). cbn [filter].
      destruct (matches m x); reflexivity.
Qed.

(** Blocks separated by an empty line. *)
Lemma count_lines_join_blocks (m : marker) (blocks : list string) :
  m_text m <> EmptyString ->
  count_lines m (join (nl ++ nl) blocks) =
  list_sum (map (count_lines m) blocks).
Proof.
  intros HM. induction blocks as [|x rest IH].
  - apply count_lines_empty, HM.
  - destruct rest as [|y rest].
    + cbn [join map list_sum fold_right]. lia.
    + change (join (nl ++ nl) (x :: y :: rest))
        with (x ++ (nl ++ nl) ++ join (nl ++ nl) (y :: rest)).
      cbn [nl append] in *. rewrite count_lines_app_nl.
      match goal with
      | |- context [count_lines m (String "010"%char ?b)] =>
          change (String "010"%char b) with (EmptyString ++ String "010"%char b)
      end.
      rewrite (count_lines_app_nl m EmptyString), IH.
      rewrite (count_lines_empty _ HM). cbn [map list_sum fold_right]. lia.
Qed.

Lemma scan_acc (md : mode) (M : string) (st : option string) (acc : nat)
    (s : string) :
  scan md M st acc s =
  (acc + fst (scan md M st 0 s), snd (scan md M st 0 s)).
Proof.
  revert st acc. induction s as [|c s IH]; intros st acc.
  - cbn. rewrite Nat.add_0_r. reflexivity.
  - cbn [scan]. destruct (Ascii.eqb c "010"%char).
    + rewrite (IH _ (acc + finish st)), (IH _ (0 + finish st)).
      cbn [fst snd]. f_equal. lia.
    + apply IH.
Qed.

(** *** The last character of a line *)

Fixpoint last_char (s : string) : option ascii :=
  match s with
  | EmptyString => None
  | String c EmptyString => Some c
  | String _ s' => last_char s'
  end.

Lemma last_char_cons (x y : ascii) (s : string) :
  last_char (String x (String y s)) = last_char (String y s).
Proof. reflexivity. Qed.

Lemma last_char_app (a : string) (c : ascii) (b : string) :
  last_char (a ++ String c b) = last_char (String c b).
Proof.
  induction a as [|x a IH]; [reflexivity|].
  cbn [append]. destruct a as [|y a].
  - cbn [append]. apply last_char_cons.
  - cbn [append] in *. rewrite last_char_cons. exact IH.
Qed.

Lemma exact_needs_last_char (M l : string) :
  last_char l <> last_char M ->
  matches {| m_mode := Exact; m_text := M |} l = false.
Proof.
  intros H. unfold matches, matches_text. cbn [m_mode m_text].
  apply String.eqb_neq. intros ->. apply H. reflexivity.
Qed.

End Lines.

(* ================================================================= *)
(** ** The migration overview *)

Module OverviewFacts.
Import Overview.

(** The fixed plan of the local path. *)
Definition contact_support_plan : MigrationOverview :=
  {| migrationPath := "local-stdio-only";
     title := "Local STDIO Servers - Contact Support";
     description := "Your server needs local file system access or local application integration. We're actively working on improving support for local servers and would love to work with you personally to get yours set up - no migration work needed on your end!";
     prerequisites := ["Nothing! We'll handle the setup for you."];
     filesNeeded := [];
     projectStructure :=
       {| ProjectStructure.description :=
            "Keep your existing project structure - no changes needed";
          ProjectStructure.structure :=
            "No changes to your existing codebase required" |};
     deploymentSteps :=
       ["📧 Email us: contact@smithery.ai";
        "💬 Join our Discord: https://discord.gg/sKd9uycgH9";
        "We'll work with you directly to get your server set up - no work needed on your end!"];
     additionalNotes := [];
     nextSteps := [] |}.

Lemma generateLocalStdioOverview_fixed (params : CommonParams) :
  generateLocalStdioOverview params = contact_support_plan.
Proof. reflexivity. Qed.

(** C6: with the path local-stdio-only the overview generator returns
    the same fixed contact-support plan whatever the three flags and the
    existing descriptor text are, and whatever the YAML parser answers
    on that text. *)
Theorem local_stdio_overview_is_fixed
    (YAML_parse : string -> result value)
    (includeBackwardCompatibility needsFileSystemAccess needsLocalApps
       : option bool)
    (existingSmitheryYaml : option string) :
  generateMigrationOverview YAML_parse
    {| p_migrationPath := "local-stdio-only";
       p_includeBackwardCompatibility := includeBackwardCompatibility;
       p_needsFileSystemAccess := needsFileSystemAccess;
       p_needsLocalApps := needsLocalApps;
       p_existingSmitheryYaml := existingSmitheryYaml |}
  = Ok contact_support_plan.
Proof.
  unfold generateMigrationOverview. cbn [p_migrationPath String.eqb].
  reflexivity.
Qed.

End OverviewFacts.

(* ================================================================= *)
(** ** The package.json validator *)

Module PackageJsonFacts.
Import PackageJson.

(** C5: whenever the validation returns a result, its validity flag is
    exactly the emptiness of its error list; warnings and suggestions
    play no part. *)
Theorem isValid_iff_no_errors
    (packageJson : value) (migrationPath : string) (r : ValidationResult) :
  performValidation packageJson migrationPath = Ok r ->
  isValid r = Nat.eqb (List.length (errors r)) 0 /\
  (isValid r = true <-> errors r = []).
Proof.
  unfold performValidation. intros H.
  match type of H with
  | bind ?m _ = _ => destruct m as [r0|e]; cbn [bind] in H; [|discriminate]
  end.
  injection H as <-. cbn [isValid errors set_isValid]. split; [reflexivity|].
  destruct (errors r0); cbn; split; intros; congruence.
Qed.

Definition sample_package : value :=
  VObj [("name", VStr "my-server"); ("version", VStr "1.0.0");
        ("scripts", VObj [("dev", VStr "npx @smithery/cli dev")]);
        ("devDependencies", VObj [("@smithery/cli", VStr "^1.0.0")])].

Lemma isValid_iff_no_errors_witness :
  exists r,
    performValidation sample_package "ts-smithery-cli" = Ok r /\
    isValid r = Nat.eqb (List.length (errors r)) 0 /\
    (isValid r = true <-> errors r = []).
Proof.
  eexists. split; [vm_compute; reflexivity|].
  apply (isValid_iff_no_errors sample_package "ts-smithery-cli").
  vm_compute. reflexivity.
Defined.

(** ** A descriptor that misses three things *)

Definition prop_of (v : value) (k : string) : value := lookup k (own_entries v).

Lemma get_or_else_object (v : value) (k : string) :
  get (or_else v (VObj [])) k = Ok (prop_of (or_else v (VObj [])) k).
Proof.
  unfold or_else. destruct v as [| |b|z|s|l|es]; cbn; try reflexivity.
  - destruct b; reflexivity.
  - destruct (String.eqb z "0" || String.eqb z "NaN"); reflexivity.
  - destruct (String.eqb s EmptyString); reflexivity.
Qed.

Definition three_errors : list string :=
  ["Missing 'module' field required for Smithery CLI";
   "Missing required script: 'build'";
   "Missing required devDependency: tsx"].

Definition three_changes : list RequiredChange :=
  [{| field := "module"; expected := VStr "./src/index.ts";
      current := VUndefined; action := "add" |};
   {| field := "scripts.build"; expected := VStr "npx @smithery/cli build";
      current := VUndefined; action := "add" |};
   {| field := "devDependencies.tsx";
      expected := VStr "^4.0.0 (or your preferred version)";
      current := VUndefined; action := "add" |}].

(** C4: a package descriptor that has a name and a version, the dev
    script and the @smithery/cli devDependency, a start script that is
    text when there is one, and that misses module, scripts.build and
    devDependencies.tsx, is invalid in CLI mode with exactly the three
    matching errors and required changes, and valid in custom-container
    mode with no error and no required change. *)
Theorem three_missing_cli_invalid_container_valid
    (es : list (string * value)) :
  let scripts := or_else (lookup "scripts" es) (VObj []) in
  let devDeps := or_else (lookup "devDependencies" es) (VObj []) in
  truthy (lookup "name" es) = true ->
  truthy (lookup "version" es) = true ->
  lookup "module" es = VUndefined ->
  prop_of scripts "build" = VUndefined ->
  prop_of scripts "dev" = VStr "npx @smithery/cli dev" ->
  (truthy (prop_of scripts "start") = true ->
   exists s, prop_of scripts "start" = VStr s) ->
  truthy (prop_of devDeps "@smithery/cli") = true ->
  prop_of devDeps "tsx" = VUndefined ->
  (exists r,
     performValidation (VObj es) "ts-smithery-cli" = Ok r /\
     isValid r = false /\
     errors r = three_errors /\
     requiredChanges r = three_changes) /\
  (exists r,
     performValidation (VObj es) "ts-custom-container" = Ok r /\
     isValid r = true /\
     errors r = [] /\
     requiredChanges r = []).
Proof.
  intros scripts devDeps Hname Hversion Hmodule Hbuild Hdev Hstart Hcli Htsx.
  assert (Gs : forall k, get scripts k = Ok (prop_of scripts k))
    by (intros k; apply get_or_else_object).
  assert (Gd : forall k, get devDeps k = Ok (prop_of devDeps k))
    by (intros k; apply get_or_else_object).
  split.
  - unfold performValidation, validateSmitheryCliPackageJson.
    cbn [String.eqb Ascii.eqb Bool.eqb get own_entries bind].
    rewrite Hname, Hversion, Hmodule.
    cbn [negb truthy bind].
    fold scripts. fold devDeps.
    unfold validateSmitheryCliScripts, check_script,
      validateSmitheryCliDependencies.
    rewrite !Gs. cbn [bind]. rewrite Hbuild, Hdev.
    cbn [truthy negb bind strict_eq_str String.eqb Ascii.eqb Bool.eqb].
    destruct (negb (strict_eq_str (lookup "type" es) "module"));
      (destruct (truthy (prop_of scripts "start")) eqn:Et;
       [ destruct (Hstart eq_refl) as [s Hs]; rewrite Hs;
         cbn [includes_method bind]; destruct (includes "stdio" s)
       | ]);
      cbn [bind]; rewrite !Gd; cbn [bind]; rewrite Hcli, Htsx;
      cbn [negb truthy];
      (eexists; split; [reflexivity|]; repeat split; reflexivity).
  - eexists. split; [reflexivity|]. repeat split.
Qed.

Definition three_missing_package : list (string * value) :=
  [("name", VStr "my-server"); ("version", VStr "1.0.0");
   ("scripts", VObj [("dev", VStr "npx @smithery/cli dev")]);
   ("devDependencies", VObj [("@smithery/cli", VStr "^1.0.0")])].

Lemma three_missing_witness :
  (exists r,
     performValidation (VObj three_missing_package) "ts-smithery-cli" = Ok r /\
     isValid r = false /\
     errors r = three_errors /\
     requiredChanges r = three_changes) /\
  (exists r,
     performValidation (VObj three_missing_package) "ts-custom-container"
       = Ok r /\
     isValid r = true /\
     errors r = [] /\
     requiredChanges r = []).
Proof.
  apply (three_missing_cli_invalid_container_valid three_missing_package);
    try reflexivity.
  cbn. discriminate.
Defined.

End PackageJsonFacts.

(* ================================================================= *)
(** ** The smithery.yaml generator *)

Module YamlFacts.
Import SmitheryYaml StrFacts.












(** *** Rendering of the entries *)





























(** *** The order of the top-level fields *)






Lemma in_entries_keys (k : string) (v : value) (l : list (string * value)) :
  In (k, v) l -> In k (map fst l).
Proof. intros H. apply (in_map fst) in H. exact H. Qed.


End YamlFacts.

(* ================================================================= *)
(** ** The template dispatcher: errors and results *)

Module DispatchFacts.

Definition non_nullish (v : value) : bool :=
  match v with VUndefined | VNull => false | _ => true end.

Definition has_includes (v : value) : bool :=
  match v with VStr _ | VArr _ => true | _ => false end.

Definition is_string (v : value) : bool :=
  match v with VStr _ => true | _ => false end.

(** A property of a schema that the generators can read: it is not
    null; its default, when it has one, is printable; when it has none,
    the list of required names of the schema is an array or a string;
    its description, when truthy, is a string. *)
Definition wf_property (required : value) (entry : string * value) : bool :=
  let prop := snd entry in
  non_nullish prop
  && printable (lookup "default" (own_entries prop))
  && (negb (is_undefined (lookup "default" (own_entries prop)))
      || has_includes required)
  && (negb (truthy (lookup "description" (own_entries prop)))
      || is_string (lookup "description" (own_entries prop))).

Definition wf_schema (schema : value) : bool :=
  let properties :=
    or_else (lookup "properties" (own_entries schema)) (VObj []) in
  let required :=
    or_else (lookup "required" (own_entries schema)) (VArr []) in
  forallb (wf_property required) (own_entries properties).

Lemma get_non_nullish (v : value) (k : string) :
  non_nullish v = true -> get v k = Ok (lookup k (own_entries v)).
Proof. destruct v; try discriminate; reflexivity. Qed.

Lemma get_opt_non_nullish (v : value) (k : string) :
  non_nullish v = true -> get_opt v k = lookup k (own_entries v).
Proof. destruct v; try discriminate; reflexivity. Qed.

Lemma truthy_non_nullish (v : value) : truthy v = true -> non_nullish v = true.
Proof. destruct v; try discriminate; reflexivity. Qed.

Lemma entries_non_nullish (v : value) :
  non_nullish v = true -> Object_entries v = Ok (own_entries v).
Proof. destruct v; try discriminate; reflexivity. Qed.

Lemma or_else_non_nullish (a b : value) :
  non_nullish b = true -> non_nullish (or_else a b) = true.
Proof.
  intros Hb. unfold or_else. destruct (truthy a) eqn:E; [|exact Hb].
  apply truthy_non_nullish, E.
Qed.

Lemma mapM_returns {A B : Type} (f : A -> result B) (l : list A) :
  (forall x, In x l -> exists y, f x = Ok y) -> exists ys, mapM f l = Ok ys.
Proof.
  induction l as [|a l IH]; intros H.
  - exists []. reflexivity.
  - destruct (H a (or_introl eq_refl)) as [y Hy].
    destruct IH as [ys Hys]; [intros x Hx; apply H; right; exact Hx|].
    exists (y :: ys). cbn. rewrite Hy. cbn. rewrite Hys. reflexivity.
Qed.

(** The text of a default, as generateZodSchemaFromJson and the Python
    generator print it. *)
Definition default_text (dflt : value) : string :=
  match dflt with
  | VStr s => dq ++ s ++ dq
  | _ => to_string dflt
  end.

Lemma default_printed (dflt : value) :
  printable dflt = true ->
  match dflt with
  | VStr s => Ok (dq ++ s ++ dq)
  | _ => String_of dflt
  end = Ok (default_text dflt).
Proof.
  intros H. unfold String_of, default_text. rewrite H.
  destruct dflt; reflexivity.
Qed.

Lemma default_not_printed (dflt : value) :
  printable dflt = false ->
  match dflt with
  | VStr s => Ok (dq ++ s ++ dq)
  | _ => String_of dflt
  end = Throw TypeError.
Proof.
  intros H. unfold String_of. rewrite H.
  destruct dflt; try reflexivity; discriminate H.
Qed.

Lemma zod_property_returns (required : value) (indent : string)
    (entry : string * value) :
  wf_property required entry = true ->
  exists line, zod_property required indent entry = Ok line.
Proof.
  destruct entry as [key prop]. unfold wf_property. cbn [snd].
  intros H. apply andb_prop in H as [H Hdesc]. apply andb_prop in H as [Hp Hd].
  apply andb_prop in Hp as [Hp Hpr].
  unfold zod_property. rewrite !(get_non_nullish _ _ Hp). cbn [bind].
  set (dflt := lookup "default" (own_entries prop)) in *.
  set (desc := lookup "description" (own_entries prop)) in *.
  assert (Hdesc' : forall z, exists line,
             (zodType <-
                (if truthy desc then
                   match desc with
                   | VStr d =>
                       Ok (z ++ ".describe(" ++ dq
                             ++ replace_char "034"%char (bs ++ dq) d
                             ++ dq ++ ")")
                   | _ => Throw TypeError
                   end
                 else Ok z) ;;
              Ok (indent ++ key ++ ": " ++ zodType ++ ",")) = Ok line).
  { intros z. destruct (truthy desc) eqn:Et.
    - cbn in Hdesc. destruct desc; try discriminate. eexists. reflexivity.
    - eexists. reflexivity. }
  destruct (is_undefined dflt) eqn:Eu; cbn [negb] in *.
  - cbn [orb] in Hd. destruct required; try discriminate;
      cbn [includes_method bind]; apply Hdesc'.
  - rewrite (default_printed _ Hpr). cbn [bind]. apply Hdesc'.
Qed.

Lemma generateZodSchemaFromJson_returns (schema : value) (indent : string) :
  non_nullish schema = true -> wf_schema schema = true ->
  exists s, generateZodSchemaFromJson schema indent = Ok s.
Proof.
  intros Hs Hw. unfold generateZodSchemaFromJson.
  rewrite !(get_non_nullish _ _ Hs). cbn [bind].
  rewrite entries_non_nullish by (apply or_else_non_nullish; reflexivity).
  cbn [bind]. unfold wf_schema in Hw.
  destruct (mapM_returns
              (zod_property
                 (or_else (lookup "required" (own_entries schema)) (VArr []))
                 indent)
              (own_entries
                 (or_else (lookup "properties" (own_entries schema))
                    (VObj [])))) as [ls Hls].
  - intros x Hx. apply zod_property_returns.
    rewrite forallb_forall in Hw. apply Hw, Hx.
  - rewrite Hls. eexists. reflexivity.
Qed.

Lemma wf_property_non_nullish (required : value) (entry : string * value) :
  wf_property required entry = true -> non_nullish (snd entry) = true.
Proof.
  unfold wf_property. intros H.
  apply andb_prop in H as [H _]. apply andb_prop in H as [H _].
  apply andb_prop in H as [H _]. exact H.
Qed.

Lemma wf_property_printable (required : value) (entry : string * value) :
  wf_property required entry = true ->
  printable (lookup "default" (own_entries (snd entry))) = true.
Proof.
  unfold wf_property. intros H.
  apply andb_prop in H as [H _]. apply andb_prop in H as [H _].
  apply andb_prop in H as [_ H]. exact H.
Qed.

(** The properties of a well-formed schema, as the environment parser
    and the Python generator reach them. *)
Lemma wf_schema_properties (cs : value) :
  wf_schema cs = true ->
  truthy cs = true -> truthy (get_opt cs "properties") = true ->
  Forall (fun e => non_nullish (snd e) = true)
    (own_entries (get_opt cs "properties")).
Proof.
  intros Hw Hc Hp. unfold wf_schema in Hw.
  rewrite get_opt_non_nullish in * by (apply truthy_non_nullish, Hc).
  assert (E : or_else (lookup "properties" (own_entries cs)) (VObj [])
              = lookup "properties" (own_entries cs))
    by (unfold or_else; rewrite Hp; reflexivity).
  rewrite E in Hw.
  rewrite forallb_forall in Hw. apply Forall_forall. intros e He.
  eapply wf_property_non_nullish, Hw, He.
Qed.

Lemma wf_schema_printable (cs : value) :
  wf_schema cs = true ->
  truthy cs = true -> truthy (get_opt cs "properties") = true ->
  Forall (fun e => printable (lookup "default" (own_entries (snd e))) = true)
    (own_entries (get_opt cs "properties")).
Proof.
  intros Hw Hc Hp. unfold wf_schema in Hw.
  rewrite get_opt_non_nullish in * by (apply truthy_non_nullish, Hc).
  assert (E : or_else (lookup "properties" (own_entries cs)) (VObj [])
              = lookup "properties" (own_entries cs))
    by (unfold or_else; rewrite Hp; reflexivity).
  rewrite E in Hw.
  rewrite forallb_forall in Hw. apply Forall_forall. intros e He.
  eapply wf_property_printable, Hw, He.
Qed.

Lemma generateEnvConfigParsing_returns `{CM : CaseMapping} (cs : value) :
  wf_schema cs = true -> exists s, generateEnvConfigParsing cs = Ok s.
Proof.
  intros Hw. unfold generateEnvConfigParsing.
  destruct (truthy cs) eqn:Ec; cbn [negb orb]; [|eexists; reflexivity].
  destruct (truthy (get_opt cs "properties")) eqn:Ep; cbn [negb];
    [|eexists; reflexivity].
  rewrite entries_non_nullish by (apply truthy_non_nullish, Ep). cbn [bind].
  destruct (mapM_returns env_config_line
              (own_entries (get_opt cs "properties"))) as [ls Hls].
  - intros [key prop] Hx.
    pose proof (wf_schema_properties cs Hw Ec Ep) as F.
    rewrite Forall_forall in F. specialize (F _ Hx). cbn [snd] in F.
    unfold env_config_line. rewrite (get_non_nullish _ _ F). cbn [bind].
    destruct (strict_eq_str _ "boolean"); [eexists; reflexivity|].
    destruct (strict_eq_str _ "number" || strict_eq_str _ "integer");
      eexists; reflexivity.
  - rewrite Hls. eexists. reflexivity.
Qed.

Lemma has_keys_non_nullish (cs : value) :
  has_keys cs = true -> non_nullish cs = true.
Proof.
  unfold has_keys. intros H. apply andb_prop in H as [H _].
  apply truthy_non_nullish, H.
Qed.

(** Runs the first computation of a bind that is known to return. *)
Ltac run_bind H :=
  let x := fresh "x" in
  let Hx := fresh "Hx" in
  destruct H as [x Hx]; rewrite Hx; cbn [bind]; clear Hx.

Lemma schema_string_returns (schema : value) (indent : string)
    (k : string -> string) :
  wf_schema schema = true ->
  exists s,
    (if truthy schema then
       schemaString <- generateZodSchemaFromJson schema indent ;;
       Ok (k schemaString)
     else Ok (k EmptyString)) = Ok s.
Proof.
  intros Hw. destruct (truthy schema) eqn:E; [|eexists; reflexivity].
  run_bind (generateZodSchemaFromJson_returns schema indent
              (truthy_non_nullish _ E) Hw).
  eexists. reflexivity.
Qed.

Lemma generatePromptsCode_returns (prompts : list McpPrompt.t) :
  forallb (fun q => wf_schema (McpPrompt.argsSchema q)) prompts = true ->
  exists s, generatePromptsCode prompts = Ok s.
Proof.
  destruct prompts as [|q rest]; [eexists; reflexivity|].
  cbn [forallb]. intros H. apply andb_prop in H as [Hq _].
  unfold generatePromptsCode.
  destruct (truthy (McpPrompt.argsSchema q)) eqn:E.
  - run_bind (generateZodSchemaFromJson_returns (McpPrompt.argsSchema q)
                "        " (truthy_non_nullish _ E) Hq).
    eexists. reflexivity.
  - eexists. reflexivity.
Qed.

Lemma Cli_generateToolsCode_returns (tools : list McpTool.t) (hc : bool) :
  forallb (fun t => wf_schema (McpTool.inputSchema t)) tools = true ->
  exists s, Cli.generateToolsCode tools hc = Ok s.
Proof.
  destruct tools as [|t rest]; [eexists; reflexivity|].
  cbn [forallb]. intros H. apply andb_prop in H as [Ht _].
  unfold Cli.generateToolsCode.
  destruct (truthy (McpTool.inputSchema t)) eqn:E.
  - run_bind (generateZodSchemaFromJson_returns (McpTool.inputSchema t)
                "        " (truthy_non_nullish _ E) Ht).
    eexists. reflexivity.
  - eexists. reflexivity.
Qed.

Lemma Cli_template_returns `{CM : CaseMapping}
    (tools : list McpTool.t) (prompts : list McpPrompt.t)
    (resources : list McpResource.t) (serverName serverVersion : string)
    (ibc : bool) (cs : value) :
  forallb (fun t => wf_schema (McpTool.inputSchema t)) tools = true ->
  forallb (fun q => wf_schema (McpPrompt.argsSchema q)) prompts = true ->
  wf_schema cs = true ->
  exists s,
    Cli.generateIndexTsTemplate tools prompts resources serverName
      serverVersion ibc cs = Ok s.
Proof.
  intros Ht Hp Hc. unfold Cli.generateIndexTsTemplate.
  assert (H1 : exists s,
             (if has_keys cs then Cli.generateConfigSchema cs
              else Ok EmptyString) = Ok s).
  { destruct (has_keys cs) eqn:E; [|eexists; reflexivity].
    unfold Cli.generateConfigSchema. rewrite E.
    run_bind (generateZodSchemaFromJson_returns cs "  "
                (has_keys_non_nullish _ E) Hc).
    eexists. reflexivity. }
  run_bind H1.
  run_bind (Cli_generateToolsCode_returns tools (has_keys cs) Ht).
  run_bind (generatePromptsCode_returns prompts Hp).
  destruct ibc.
  - unfold Cli.generateBackwardsCompatibilityCode.
    run_bind (generateEnvConfigParsing_returns cs Hc).
    eexists. reflexivity.
  - eexists. reflexivity.
Qed.

Lemma Container_tools_returns (tools : list McpTool.t) (hc : bool) :
  forallb (fun t => wf_schema (McpTool.inputSchema t)) tools = true ->
  exists s, Container.generateCustomContainerToolsCode tools hc = Ok s.
Proof.
  intros H. destruct tools as [|t rest]; [eexists; reflexivity|].
  unfold Container.generateCustomContainerToolsCode. lazy beta iota.
  match goal with
  | |- context [mapM ?f ?l] =>
      destruct (mapM_returns f l) as [bs Hbs]
  end.
  - intros x Hx. rewrite forallb_forall in H. specialize (H _ Hx).
    unfold Container.tool_registration.
    destruct (truthy (McpTool.inputSchema x)) eqn:E.
    + run_bind (generateZodSchemaFromJson_returns (McpTool.inputSchema x)
                  "        " (truthy_non_nullish _ E) H).
      eexists. reflexivity.
    + eexists. reflexivity.
  - rewrite Hbs. eexists. reflexivity.
Qed.

Lemma Container_template_returns `{CM : CaseMapping}
    (tools : list McpTool.t) (prompts : list McpPrompt.t)
    (resources : list McpResource.t) (serverName serverVersion : string)
    (ibc : bool) (cs : value) :
  forallb (fun t => wf_schema (McpTool.inputSchema t)) tools = true ->
  forallb (fun q => wf_schema (McpPrompt.argsSchema q)) prompts = true ->
  wf_schema cs = true ->
  exists s,
    Container.generateCustomContainerTemplate tools prompts resources
      serverName serverVersion ibc cs = Ok s.
Proof.
  intros Ht Hp Hc. unfold Container.generateCustomContainerTemplate.
  assert (H1 : exists s,
             (if has_keys cs
              then Container.generateCustomContainerConfigSchema cs
              else Ok EmptyString) = Ok s).
  { destruct (has_keys cs) eqn:E; [|eexists; reflexivity].
    unfold Container.generateCustomContainerConfigSchema. rewrite E.
    run_bind (generateZodSchemaFromJson_returns cs "  "
                (has_keys_non_nullish _ E) Hc).
    eexists. reflexivity. }
  run_bind H1.
  run_bind (Container_tools_returns tools (has_keys cs) Ht).
  run_bind (generatePromptsCode_returns prompts Hp).
  unfold Container.generateCustomContainerMainFunction.
  destruct ibc; cbn [negb]; [|eexists; reflexivity].
  destruct (negb (String.eqb x EmptyString)).
  - run_bind (generateEnvConfigParsing_returns cs Hc).
    eexists. reflexivity.
  - eexists. reflexivity.
Qed.

Lemma lookup_in (k : string) (es : list (string * value)) :
  In k (map fst es) -> In (k, lookup k es) es.
Proof.
  induction es as [|[k' v] es IH]; cbn; [intros []|].
  destruct (String.eqb_spec k k') as [->|Hne].
  - intros _. left. reflexivity.
  - intros [H|H]; [congruence|]. right. apply IH, H.
Qed.

Lemma python_default_returns (propSchema : value) :
  non_nullish propSchema = true ->
  printable (lookup "default" (own_entries propSchema)) = true ->
  exists s, Python.python_default propSchema = Ok s.
Proof.
  intros H P. unfold Python.python_default.
  rewrite (get_non_nullish _ _ H). cbn [bind].
  rewrite (default_printed _ P).
  destruct (negb (is_undefined _)); eexists; reflexivity.
Qed.

Lemma Python_tools_returns `{CM : CaseMapping} (tools : list McpTool.t) (cs : value) :
  wf_schema cs = true ->
  exists s, Python.generatePythonToolsCode tools cs = Ok s.
Proof.
  intros Hc. destruct tools as [|t rest]; [eexists; reflexivity|].
  unfold Python.generatePythonToolsCode. lazy beta iota.
  match goal with
  | |- context [mapM ?f ?l] =>
      destruct (mapM_returns f l) as [bs Hbs]
  end.
  - intros x _. unfold Python.python_tool.
    destruct (truthy cs && truthy (get_opt cs "properties")) eqn:E;
      [|eexists; reflexivity].
    apply andb_prop in E as [Ec Ep].
    pose proof (wf_schema_properties cs Hc Ec Ep) as F.
    pose proof (wf_schema_printable cs Hc Ec Ep) as G.
    rewrite Forall_forall in F, G.
    unfold Object_keys.
    rewrite entries_non_nullish by (apply truthy_non_nullish, Ep).
    cbn [bind].
    assert (Hprop : forall prop,
               In prop (map fst (own_entries (get_opt cs "properties"))) ->
               non_nullish
                 (lookup prop (own_entries (get_opt cs "properties"))) = true).
    { intros prop Hin. apply (F (prop, _)), lookup_in, Hin. }
    assert (Hprint : forall prop,
               In prop (map fst (own_entries (get_opt cs "properties"))) ->
               printable
                 (lookup "default"
                    (own_entries
                       (lookup prop (own_entries (get_opt cs "properties")))))
               = true).
    { intros prop Hin. apply (G (prop, _)), lookup_in, Hin. }
    match goal with
    | |- context [mapM (Python.http_config_line ?props) ?keys] =>
        destruct (mapM_returns (Python.http_config_line props) keys)
          as [hs Hhs];
        [ intros prop Hin; unfold Python.http_config_line;
          run_bind (python_default_returns _ (Hprop prop Hin)
                      (Hprint prop Hin));
          eexists; reflexivity
        | rewrite Hhs; cbn [bind] ];
        destruct (mapM_returns (Python.env_var_line props) keys)
          as [vs Hvs];
        [ intros prop Hin; unfold Python.env_var_line;
          run_bind (python_default_returns _ (Hprop prop Hin)
                      (Hprint prop Hin));
          eexists; reflexivity
        | rewrite Hvs; cbn [bind] ]
    end.
    eexists. reflexivity.
  - rewrite Hbs. eexists. reflexivity.
Qed.

Lemma Python_template_returns `{CM : CaseMapping}
    (tools : list McpTool.t) (prompts : list McpPrompt.t)
    (resources : list McpResource.t) (serverName serverVersion : string)
    (ibc : bool) (cs : value) :
  wf_schema cs = true ->
  exists s,
    Python.generatePythonTemplate tools prompts resources serverName
      serverVersion ibc cs = Ok s.
Proof.
  intros Hc. unfold Python.generatePythonTemplate.
  run_bind (Python_tools_returns tools cs Hc).
  eexists. reflexivity.
Qed.

Definition supported_modes : list string :=
  ["ts-smithery-cli"; "ts-custom-container"; "py-custom-container"].

Definition supported (migrationMode : string) : bool :=
  existsb (String.eqb migrationMode) supported_modes.

(** The schemas that a request carries are well formed: those of the
    tools, those of the prompts, and the configuration schema found in
    the descriptor text. *)
Definition wf_params (YAML_parse : string -> result value)
    (params : SmitheryMigrationParams) : bool :=
  forallb (fun t => wf_schema (McpTool.inputSchema t)) (tools params)
  && forallb (fun q => wf_schema (McpPrompt.argsSchema q)) (prompts params)
  && wf_schema (extractedConfigSchema YAML_parse (smitheryYaml params)).

Definition null_property_tool : McpTool.t :=
  McpTool.mk "lookup" "Looks a record up"
    (VObj [("type", VStr "object");
           ("properties", VObj [("id", VNull)])])
    None.

Definition null_property_request : SmitheryMigrationParams :=
  {| tools := [null_property_tool];
     prompts := [];
     resources := [];
     serverName := "My MCP Server";
     serverVersion := "1.0.0";
     includeBackwardCompatibility := false;
     smitheryYaml := None |}.

Section With_supported_mode_can_throw.
#[local] Existing Instance ascii_mapping.

(** C9, counterexample: a supported mode and a tool whose input schema
    has a null property; the TypeScript generators throw a TypeError. *)
Lemma supported_mode_can_throw :
  supported "ts-smithery-cli" = true /\
  generateMigrationTemplate (fun _ => Ok VNull) "ts-smithery-cli"
    null_property_request = Throw TypeError /\
  generateMigrationTemplate (fun _ => Ok VNull) "ts-custom-container"
    null_property_request = Throw TypeError.
Proof. repeat split. Qed.

End With_supported_mode_can_throw.

(** C9, amended: a migration mode outside the three supported ones makes
    the dispatcher throw the error that names the mode; a supported mode
    makes it return a text whenever the schemas are well formed: in
    each tool inputSchema, each prompt argsSchema and the configuration
    schema read from the descriptor, every property is neither null nor
    undefined, its default (when it has one) can be printed, the list
    of required names is an array or a string when a property has no
    default, and a truthy description is a string. *)
Theorem dispatcher_errors_and_results `{CM : CaseMapping}
    (YAML_parse : string -> result value) (migrationMode : string)
    (params : SmitheryMigrationParams) :
  (supported migrationMode = false ->
   generateMigrationTemplate YAML_parse migrationMode params =
   Throw (Error ("Unsupported migration mode: " ++ migrationMode))) /\
  (supported migrationMode = true ->
   wf_params YAML_parse params = true ->
   exists code,
     generateMigrationTemplate YAML_parse migrationMode params = Ok code).
Proof.
  unfold supported, supported_modes, generateMigrationTemplate.
  cbn [existsb]. split.
  - intros H.
    destruct (String.eqb migrationMode "ts-smithery-cli"); [discriminate|].
    destruct (String.eqb migrationMode "ts-custom-container"); [discriminate|].
    destruct (String.eqb migrationMode "py-custom-container"); [discriminate|].
    reflexivity.
  - intros H Hw. unfold wf_params in Hw.
    apply andb_prop in Hw as [Hw Hc]. apply andb_prop in Hw as [Ht Hp].
    destruct (String.eqb migrationMode "ts-smithery-cli").
    { apply Cli_template_returns; assumption. }
    destruct (String.eqb migrationMode "ts-custom-container").
    { apply Container_template_returns; assumption. }
    destruct (String.eqb migrationMode "py-custom-container").
    { apply Python_template_returns; assumption. }
    discriminate.
Qed.

Definition sample_yaml_value : value :=
  VObj [("startCommand",
         VObj [("type", VStr "stdio");
               ("configSchema",
                VObj [("type", VStr "object");
                      ("required", VArr [VStr "apiKey"]);
                      ("properties",
                       VObj [("apiKey",
                              VObj [("type", VStr "string");
                                    ("description",
                                     VStr "API key for the service")]);
                             ("timeout",
                              VObj [("type", VStr "number");
                                    ("default", VNum "5000")])])])])].

Definition sample_tool : McpTool.t :=
  McpTool.mk "get_weather" "Current weather of a city"
    (VObj [("type", VStr "object");
           ("properties", VObj [("city", VObj [("type", VStr "string")])]);
           ("required", VArr [VStr "city"])])
    None.

Definition sample_request : SmitheryMigrationParams :=
  {| tools := [sample_tool];
     prompts := [];
     resources := [];
     serverName := "Weather";
     serverVersion := "1.0.0";
     includeBackwardCompatibility := true;
     smitheryYaml := Some "startCommand: ..." |}.

Section With_dispatcher_witness.
#[local] Existing Instance ascii_mapping.

Lemma dispatcher_witness :
  generateMigrationTemplate (fun _ => Ok sample_yaml_value) "rust"
    sample_request = Throw (Error "Unsupported migration mode: rust") /\
  exists code,
    generateMigrationTemplate (fun _ => Ok sample_yaml_value)
      "ts-custom-container" sample_request = Ok code.
Proof.
  split.
  - apply (dispatcher_errors_and_results (fun _ => Ok sample_yaml_value)
             "rust" sample_request). reflexivity.
  - apply (dispatcher_errors_and_results (fun _ => Ok sample_yaml_value)
             "ts-custom-container" sample_request); reflexivity.
Defined.

End With_dispatcher_witness.

End DispatchFacts.

(* ================================================================= *)
(** ** Scanning the generated templates *)

Module ScanFacts.
Import StrFacts Lines DispatchFacts.

Lemma nonl_app_intro (a b : string) :
  nonl a = true -> nonl b = true -> nonl (a ++ b) = true.
Proof. intros Ha Hb. rewrite nonl_app, Ha, Hb. reflexivity. Qed.

Lemma nonl_if (c : bool) (a b : string) :
  nonl a = true -> nonl b = true -> nonl (if c then a else b) = true.
Proof. destruct c; auto. Qed.

Create HintDb nonl.
#[export] Hint Resolve nonl_app_intro nonl_if nonl_title_of nonl_sanitizeId
  nonl_toUpperCase nonl_toLowerCase nonl_underscore_capitals
  nonl_replace_char nonl_str_or : nonl.
#[export] Hint Extern 1 (nonl _ = true) => reflexivity : nonl.
#[export] Hint Extern 1 (nonl _ = true) => assumption : nonl.

(** The pieces of a text, from left to right: a piece is a closed
    literal, or a piece without newline on a dead line. *)
Ltac scan_piece :=
  first [ solve [apply scan_dead; auto 20 with nonl]
        | solve [apply scan_matched; auto 20 with nonl]
        | solve [vm_compute; reflexivity] ].

Ltac scan_go :=
  repeat (erewrite scan_step; [|scan_piece]).

(** *** Lines that all start in a way that rules the marker out *)

Definition killed_by (md : mode) (M : string) (indent : string) : Prop :=
  forall acc, scan md M (Some M) acc indent = (acc, None).

Definition line_of (indent : string) (l : string) : Prop :=
  exists r, l = indent ++ r /\ nonl r = true.

Lemma scan_killed_line (md : mode) (M indent l : string) (acc : nat) :
  killed_by md M indent -> line_of indent l ->
  scan md M (Some M) acc l = (acc, None).
Proof.
  intros K (r & -> & Hr).
  rewrite (scan_step _ _ _ _ _ _ _ _ (K acc)). apply scan_dead, Hr.
Qed.

Lemma scan_newline (md : mode) (M : string) (st : option string)
    (acc : nat) (s : string) :
  scan md M st acc (String "010"%char s) =
  scan md M (Some M) (acc + finish st) s.
Proof. reflexivity. Qed.

(** A run of such lines and the newline that ends it add nothing and
    leave the scanner at the start of a line. *)
Lemma scan_killed_lines (md : mode) (M indent : string)
    (lines : list string) (acc : nat) (l b : string) :
  M <> EmptyString -> killed_by md M indent ->
  Forall (line_of indent) lines ->
  scan md M (Some M) acc (join nl lines ++ String "010"%char l ++ b) =
  scan md M (Some M) acc (l ++ b).
Proof.
  intros HM K F. revert acc.
  induction F as [|x rest Hx F IH]; intros acc.
  - cbn [join append]. rewrite scan_newline.
    destruct M; [congruence|]. cbn [finish]. rewrite Nat.add_0_r. reflexivity.
  - destruct rest as [|y rest].
    + cbn [join].
      rewrite (scan_step _ _ _ _ _ _ _ _ (scan_killed_line _ _ _ _ acc K Hx)).
      cbn [append]. rewrite scan_newline. cbn [finish].
      rewrite Nat.add_0_r. reflexivity.
    + change (join nl (x :: y :: rest)) with (x ++ nl ++ join nl (y :: rest)).
      rewrite !app_assoc.
      rewrite (scan_step _ _ _ _ _ _ _ _ (scan_killed_line _ _ _ _ acc K Hx)).
      cbn [nl append]. rewrite scan_newline. cbn [finish].
      rewrite Nat.add_0_r. apply IH.
Qed.

(** *** The lines of a schema rendered for zod *)

Definition single_line_property (entry : string * value) : bool :=
  nonl (fst entry)
  && nonl (to_string (lookup "default" (own_entries (snd entry))))
  && nonl (to_string (lookup "description" (own_entries (snd entry)))).

(** The keys, the defaults and the descriptions of the properties of a
    schema hold no newline. *)
Definition single_line_schema (schema : value) : bool :=
  forallb single_line_property
    (own_entries
       (or_else (lookup "properties" (own_entries schema)) (VObj []))).

(** A line that is indented by [indent] and ends with a comma. *)
Definition comma_line (indent : string) (l : string) : Prop :=
  exists r, l = indent ++ r ++ "," /\ nonl r = true.

Lemma comma_line_of (indent l : string) : comma_line indent l -> line_of indent l.
Proof.
  intros (r & -> & Hr). exists (r ++ ","). split; [reflexivity|].
  rewrite nonl_app, Hr. reflexivity.
Qed.

Lemma comma_line_last (indent l : string) :
  comma_line indent l -> last_char l = Some ","%char.
Proof.
  intros (r & -> & _). rewrite <- app_assoc. apply last_char_app.
Qed.

Lemma comma_line_nonl (indent l : string) :
  nonl indent = true -> comma_line indent l -> nonl l = true.
Proof.
  intros Hi (r & -> & Hr). rewrite !nonl_app, Hi, Hr. reflexivity.
Qed.

Lemma zod_property_line (required : value) (indent : string)
    (entry : string * value) :
  wf_property required entry = true ->
  single_line_property entry = true ->
  exists r, zod_property required indent entry = Ok (indent ++ r ++ ",")
            /\ nonl r = true.
Proof.
  destruct entry as [key prop]. unfold wf_property, single_line_property.
  cbn [fst snd]. intros H S.
  apply andb_prop in H as [H Hdesc]. apply andb_prop in H as [Hp Hd].
  apply andb_prop in Hp as [Hp Hpr].
  apply andb_prop in S as [S Sdesc]. apply andb_prop in S as [Skey Sd].
  unfold zod_property. rewrite !(get_non_nullish _ _ Hp). cbn [bind].
  set (dflt := lookup "default" (own_entries prop)) in *.
  set (desc := lookup "description" (own_entries prop)) in *.
  set (ty := lookup "type" (own_entries prop)).
  set (zt := if strict_eq_str ty "string" then _ else _).
  assert (Hzt : nonl zt = true) by (subst zt; auto 20 with nonl).
  clearbody zt.
  assert (Hdesc' : forall z, nonl z = true -> exists r,
             (zodType <-
                (if truthy desc then
                   match desc with
                   | VStr d =>
                       Ok (z ++ ".describe(" ++ dq
                             ++ replace_char "034"%char (bs ++ dq) d
                             ++ dq ++ ")")
                   | _ => Throw TypeError
                   end
                 else Ok z) ;;
              Ok (indent ++ key ++ ": " ++ zodType ++ ","))
             = Ok (indent ++ r ++ ",")
             /\ nonl r = true).
  { intros z Hz. destruct (truthy desc) eqn:Et.
    - cbn in Hdesc. destruct desc; try discriminate. cbn [to_string] in Sdesc.
      cbn [bind].
      exists (key ++ ": " ++ z ++ ".describe(" ++ dq
                ++ replace_char "034"%char (bs ++ dq) s ++ dq ++ ")").
      split; [rewrite !app_assoc; reflexivity|]. auto 20 with nonl.
    - cbn [bind]. exists (key ++ ": " ++ z).
      split; [rewrite !app_assoc; reflexivity|]. auto 20 with nonl. }
  destruct (is_undefined dflt) eqn:Eu; cbn [negb] in *.
  - cbn [orb] in Hd. destruct required; try discriminate;
      cbn [includes_method bind]; apply Hdesc'; auto 20 with nonl.
  - rewrite (default_printed _ Hpr). cbn [bind]. apply Hdesc'.
    unfold default_text.
    destruct dflt; cbn [to_string] in Sd; auto 20 with nonl.
Qed.

Lemma mapM_lines {A : Type} (f : A -> result string) (P : string -> Prop)
    (l : list A) :
  (forall x, In x l -> exists y, f x = Ok y /\ P y) ->
  exists ys, mapM f l = Ok ys /\ Forall P ys.
Proof.
  induction l as [|a l IH]; intros H.
  - exists []. split; [reflexivity|constructor].
  - destruct (H a (or_introl eq_refl)) as (y & Hy & Py).
    destruct IH as (ys & Hys & F); [intros x Hx; apply H; right; exact Hx|].
    exists (y :: ys). split.
    + cbn. rewrite Hy. cbn. rewrite Hys. reflexivity.
    + constructor; assumption.
Qed.

Lemma generateZodSchemaFromJson_comma_lines (schema : value)
    (indent : string) :
  non_nullish schema = true -> wf_schema schema = true ->
  single_line_schema schema = true ->
  exists lines,
    generateZodSchemaFromJson schema indent = Ok (join nl lines)
    /\ Forall (comma_line indent) lines.
Proof.
  intros Hs Hw Hl. unfold generateZodSchemaFromJson.
  rewrite !(get_non_nullish _ _ Hs). cbn [bind].
  rewrite entries_non_nullish by (apply or_else_non_nullish; reflexivity).
  cbn [bind]. unfold wf_schema in Hw. unfold single_line_schema in Hl.
  rewrite forallb_forall in Hw, Hl.
  destruct (mapM_lines
              (zod_property
                 (or_else (lookup "required" (own_entries schema)) (VArr []))
                 indent)
              (comma_line indent)
              (own_entries
                 (or_else (lookup "properties" (own_entries schema))
                    (VObj [])))) as (ls & Hls & F).
  - intros x Hx. destruct (zod_property_line _ indent x (Hw _ Hx) (Hl _ Hx))
      as (r & Hr & Hn).
    eexists. split; [exact Hr|]. exists r. split; [reflexivity|exact Hn].
  - rewrite Hls. exists ls. split; [reflexivity|exact F].
Qed.

Lemma generateZodSchemaFromJson_lines (schema : value) (indent : string) :
  non_nullish schema = true -> wf_schema schema = true ->
  single_line_schema schema = true ->
  exists lines,
    generateZodSchemaFromJson schema indent = Ok (join nl lines)
    /\ Forall (line_of indent) lines.
Proof.
  intros Hs Hw Hl.
  destruct (generateZodSchemaFromJson_comma_lines schema indent Hs Hw Hl)
    as (lines & H & F).
  exists lines. split; [exact H|].
  eapply Forall_impl; [|exact F]. apply comma_line_of.
Qed.

(** *** The count of matching lines, piece by piece *)

Definition total (md : mode) (M : string) (st : option string) (acc : nat)
    (s : string) : nat :=
  fst (scan md M st acc s) + finish (snd (scan md M st acc s)).

Lemma count_lines_total (m : marker) (s : string) :
  count_lines m s = total (m_mode m) (m_text m) (Some (m_text m)) 0 s.
Proof. apply count_lines_scan. Qed.

Lemma total_step (md : mode) (M : string) (st st' : option string)
    (acc n : nat) (a b : string) :
  scan md M st acc a = (n, st') ->
  total md M st acc (a ++ b) = total md M st' n b.
Proof. intros H. unfold total. rewrite (scan_step _ _ _ _ _ _ _ _ H). reflexivity. Qed.

Lemma total_last (md : mode) (M : string) (st st' : option string)
    (acc n : nat) (a : string) :
  scan md M st acc a = (n, st') -> total md M st acc a = n + finish st'.
Proof. intros H. unfold total. rewrite H. reflexivity. Qed.

Lemma total_killed_lines (md : mode) (M indent : string)
    (lines : list string) (acc : nat) (l b : string) :
  M <> EmptyString -> killed_by md M indent ->
  Forall (line_of indent) lines ->
  total md M (Some M) acc (join nl lines ++ String "010"%char l ++ b) =
  total md M (Some M) acc (l ++ b).
Proof.
  intros HM K F. unfold total.
  rewrite (scan_killed_lines md M indent lines acc l b HM K F). reflexivity.
Qed.

(** A block at the start of a line and followed by a newline adds its
    own count and leaves the scanner at the start of a line. *)
Lemma total_block (md : mode) (M : string) (acc : nat) (G l b : string) :
  total md M (Some M) acc (G ++ String "010"%char l ++ b) =
  total md M (Some M)
    (acc + count_lines {| m_mode := md; m_text := M |} G) (l ++ b).
Proof.
  unfold total. rewrite !(scan_app md M (Some M) acc G).
  cbn [append]. rewrite !scan_newline.
  rewrite (count_lines_scan {| m_mode := md; m_text := M |} G).
  cbn [m_mode m_text].
  rewrite (scan_acc md M (Some M) acc G). cbn [fst snd].
  rewrite Nat.add_assoc. reflexivity.
Qed.

Lemma total_block_last (md : mode) (M : string) (acc : nat) (G : string) :
  total md M (Some M) acc G =
  acc + count_lines {| m_mode := md; m_text := M |} G.
Proof.
  unfold total. rewrite (count_lines_scan {| m_mode := md; m_text := M |} G).
  cbn [m_mode m_text].
  rewrite (scan_acc md M (Some M) acc G). cbn [fst snd]. lia.
Qed.

(** Lines that start in a way that rules the marker out. *)
Lemma killed_line_quiet (md : mode) (M indent l : string) :
  nonl indent = true -> killed_by md M indent -> line_of indent l ->
  matches {| m_mode := md; m_text := M |} l = false.
Proof.
  intros Hi K L.
  pose proof (scan_killed_line md M indent l 0 K L) as H.
  destruct L as (r & -> & Hr).
  pose proof (count_lines_scan {| m_mode := md; m_text := M |} (indent ++ r))
    as C.
  cbn [m_mode m_text] in C. rewrite H in C. cbn in C.
  rewrite count_lines_single in C
    by (rewrite nonl_app, Hi, Hr; reflexivity).
  destruct (matches _ (indent ++ r)); [discriminate|reflexivity].
Qed.

Lemma count_lines_killed (md : mode) (M indent : string)
    (lines : list string) :
  M <> EmptyString -> nonl indent = true -> killed_by md M indent ->
  Forall (line_of indent) lines ->
  count_lines {| m_mode := md; m_text := M |} (join nl lines) = 0.
Proof.
  intros HM Hi K F. rewrite count_lines_join.
  - induction F as [|x rest Hx F IH]; [reflexivity|].
    cbn [filter]. rewrite (killed_line_quiet md M indent x Hi K Hx). exact IH.
  - exact HM.
  - eapply Forall_impl; [|exact F]. intros l (r & -> & Hr).
    rewrite nonl_app, Hi, Hr. reflexivity.
Qed.

Ltac total_lines :=
  match goal with
  | F : Forall (line_of ?i) ?ls |- context [join nl ?ls] =>
      rewrite (total_killed_lines _ _ i ls);
      [|discriminate|intros ?; reflexivity|exact F]
  end.

(** A block whose count is known from a hypothesis. *)
Ltac total_known :=
  match goal with
  | H : count_lines {| m_mode := ?md; m_text := ?M |} ?G = _
    |- context [total ?md ?M (Some ?M) ?acc (?G ++ _)] =>
      rewrite (total_block md M acc G), H; cbn [Nat.add]
  | H : count_lines {| m_mode := ?md; m_text := ?M |} ?G = _
    |- context [total ?md ?M (Some ?M) ?acc ?G] =>
      rewrite (total_block_last md M acc G), H; cbn [Nat.add]
  end.

Ltac total_go :=
  repeat first
    [ erewrite total_step; [|scan_piece] | total_lines | total_known ];
  try (erewrite total_last; [|scan_piece]).

End ScanFacts.

(* ================================================================= *)
(** ** How many tools each generator registers *)

Module ToolsFacts.
Import StrFacts Lines DispatchFacts ScanFacts.

(** The line that opens a registration in the TypeScript templates. *)
Definition registration_line : marker :=
  {| m_mode := Exact; m_text := "  server.registerTool(" |}.

(** The comment that stands for a tool left to the developer: the line
    [// TODO: Register tool "<name>" - <description>].  (The handler of
    a registered tool holds another comment, [// TODO: Implement tool
    handler for <name>], in the CLI and in the container template; it
    is not the one counted here.) *)
Definition todo_text : string :=
  Eval cbv in ("  // TODO: Register tool " ++ dq).

Definition todo_line : marker := {| m_mode := Prefix; m_text := todo_text |}.

(** The decorator that registers a handler in the Python template. *)
Definition decorator_line : marker :=
  {| m_mode := Exact; m_text := "@mcp.tool()" |}.

(** A tool whose name and description are one line each and whose input
    schema is well formed with one-line keys, defaults and
    descriptions. *)
Definition plain_tool (t : McpTool.t) : bool :=
  nonl (McpTool.name t) && nonl (McpTool.description t)
  && wf_schema (McpTool.inputSchema t)
  && single_line_schema (McpTool.inputSchema t).

Lemma plain_tool_parts (t : McpTool.t) :
  plain_tool t = true ->
  nonl (McpTool.name t) = true /\ nonl (McpTool.description t) = true /\
  wf_schema (McpTool.inputSchema t) = true /\
  single_line_schema (McpTool.inputSchema t) = true.
Proof.
  unfold plain_tool. intros H.
  apply andb_prop in H as [H H4]. apply andb_prop in H as [H H3].
  apply andb_prop in H as [H1 H2]. auto.
Qed.


(** The registrations of the custom-container template: one block per
    tool. *)
Lemma Container_block (cc cl : string) (t : McpTool.t) :
  plain_tool t = true ->
  (cc = EmptyString \/
   cc = "
      // TODO: Use the config parameter for API calls, timeout settings, etc.") ->
  (cl = EmptyString \/
   cl = "
      console.log('Available config:', config);") ->
  exists block,
    Container.tool_registration cc cl t = Ok block /\
    count_lines registration_line block = 1 /\
    count_lines todo_line block = 0.
Proof.
  intros P Hcc Hcl.
  destruct (plain_tool_parts _ P) as (N & D & W & S).
  unfold Container.tool_registration.
  destruct (truthy (McpTool.inputSchema t)) eqn:E.
  - destruct (generateZodSchemaFromJson_lines (McpTool.inputSchema t)
                "        " (truthy_non_nullish _ E) W S)
      as (lines & Hz & F).
    rewrite Hz. cbn [bind].
    eexists. split; [reflexivity|].
    rewrite !count_lines_total.
    cbn [m_mode m_text registration_line todo_line]. unfold todo_text.
    destruct Hcc as [-> | ->]; destruct Hcl as [-> | ->];
      rewrite ?app_assoc; split; total_go; reflexivity.
  - cbn [bind]. eexists. split; [reflexivity|].
    rewrite !count_lines_total.
    cbn [m_mode m_text registration_line todo_line]. unfold todo_text.
    destruct Hcc as [-> | ->]; destruct Hcl as [-> | ->];
      rewrite ?app_assoc; split; total_go; reflexivity.
Qed.

Lemma list_sum_const (k : nat) (l : list nat) :
  Forall (fun n => n = k) l -> list_sum l = k * List.length l.
Proof.
  induction 1 as [|x l Hx F IH]; [cbn; lia|].
  cbn [list_sum fold_right List.length]. fold (list_sum l).
  rewrite IH, Hx. lia.
Qed.

Lemma mapM_length {A B : Type} (f : A -> result B) (l : list A)
    (ys : list B) :
  mapM f l = Ok ys -> List.length ys = List.length l.
Proof.
  revert ys. induction l as [|a l IH]; intros ys; cbn [mapM].
  - intros H. injection H as <-. reflexivity.
  - destruct (f a); cbn [bind]; [|discriminate].
    destruct (mapM f l); cbn [bind]; [|discriminate].
    intros H. injection H as <-. cbn. f_equal. apply IH. reflexivity.
Qed.

(** The custom-container template registers every tool and writes no
    to-do comment. *)
Lemma Container_tools_count (tools : list McpTool.t) (hasConfig : bool) :
  tools <> [] ->
  forallb plain_tool tools = true ->
  exists out,
    Container.generateCustomContainerToolsCode tools hasConfig = Ok out /\
    count_lines registration_line out = List.length tools /\
    count_lines todo_line out = 0.
Proof.
  intros Hne Hp. rewrite forallb_forall in Hp.
  destruct tools as [|t0 rest]; [congruence|].
  unfold Container.generateCustomContainerToolsCode. lazy beta iota zeta.
  match goal with
  | |- context [mapM ?f ?l] =>
      destruct (mapM_lines f
                  (fun b => count_lines registration_line b = 1
                            /\ count_lines todo_line b = 0) l)
        as (bs & Hbs & F)
  end.
  { intros t Ht. apply Container_block; [apply Hp, Ht| |];
      destruct hasConfig; auto. }
  rewrite Hbs. cbn [bind]. eexists. split; [reflexivity|].
  pose proof (mapM_length _ _ _ Hbs) as Hlen.
  assert (R : count_lines registration_line (join (nl ++ nl) bs)
              = List.length (t0 :: rest)).
  { rewrite count_lines_join_blocks by discriminate.
    rewrite (list_sum_const 1).
    - rewrite length_map, Hlen. lia.
    - apply Forall_map. eapply Forall_impl; [|exact F]. intros b [H _].
      exact H. }
  assert (T : count_lines todo_line (join (nl ++ nl) bs) = 0).
  { rewrite count_lines_join_blocks by discriminate.
    rewrite (list_sum_const 0).
    - lia.
    - apply Forall_map. eapply Forall_impl; [|exact F]. intros b [_ H].
      exact H. }
  unfold registration_line, todo_line, todo_text in *.
  rewrite !count_lines_total. cbn [m_mode m_text].
  split; total_go; reflexivity.
Qed.

(** *** The Python template *)

Lemma single_line_properties (cs : value) :
  single_line_schema cs = true ->
  truthy cs = true -> truthy (get_opt cs "properties") = true ->
  Forall (fun e => single_line_property e = true)
    (own_entries (get_opt cs "properties")).
Proof.
  intros Hw Hc Hp. unfold single_line_schema in Hw.
  rewrite get_opt_non_nullish in * by (apply truthy_non_nullish, Hc).
  assert (E : or_else (lookup "properties" (own_entries cs)) (VObj [])
              = lookup "properties" (own_entries cs))
    by (unfold or_else; rewrite Hp; reflexivity).
  rewrite E in Hw. rewrite forallb_forall in Hw.
  apply Forall_forall. exact Hw.
Qed.

Lemma python_default_line (propSchema : value) :
  non_nullish propSchema = true ->
  printable (lookup "default" (own_entries propSchema)) = true ->
  nonl (to_string (lookup "default" (own_entries propSchema))) = true ->
  exists d, Python.python_default propSchema = Ok d /\ nonl d = true.
Proof.
  intros H P N. unfold Python.python_default.
  rewrite (get_non_nullish _ _ H). cbn [bind].
  rewrite (default_printed _ P). unfold default_text.
  destruct (lookup "default" (own_entries propSchema));
    cbn [is_undefined negb to_string] in *;
    (eexists; split; [reflexivity|]); auto 20 with nonl.
Qed.

Lemma python_config_lines `{CM : CaseMapping} (cs : value) :
  wf_schema cs = true -> single_line_schema cs = true ->
  truthy cs = true -> truthy (get_opt cs "properties") = true ->
  exists hs vs,
    mapM (Python.http_config_line (get_opt cs "properties"))
      (map fst (own_entries (get_opt cs "properties"))) = Ok hs /\
    Forall (line_of "    ") hs /\
    mapM (Python.env_var_line (get_opt cs "properties"))
      (map fst (own_entries (get_opt cs "properties"))) = Ok vs /\
    Forall (line_of "    ") vs.
Proof.
  intros W S Hc Hp.
  pose proof (wf_schema_properties cs W Hc Hp) as FW.
  pose proof (wf_schema_printable cs W Hc Hp) as FP.
  pose proof (single_line_properties cs S Hc Hp) as FS.
  rewrite Forall_forall in FW, FP, FS.
  set (props := get_opt cs "properties") in *.
  assert (Hprop : forall prop,
             In prop (map fst (own_entries props)) ->
             nonl prop = true /\
             exists d,
               Python.python_default (lookup prop (own_entries props)) = Ok d
               /\ nonl d = true).
  { intros prop Hin. apply lookup_in in Hin.
    pose proof (FW _ Hin) as H1. pose proof (FS _ Hin) as H2.
    pose proof (FP _ Hin) as H3. cbn [snd] in H3.
    cbn [snd] in H1. unfold single_line_property in H2. cbn [fst snd] in H2.
    apply andb_prop in H2 as [H2 _]. apply andb_prop in H2 as [Hk Hd].
    split; [exact Hk|]. apply python_default_line; assumption. }
  destruct (mapM_lines (Python.http_config_line props) (line_of "    ")
              (map fst (own_entries props))) as (hs & Hhs & Fh).
  { intros prop Hin. destruct (Hprop prop Hin) as (Hk & d & Hd & Nd).
    unfold Python.http_config_line. rewrite Hd. cbn [bind].
    eexists. split; [reflexivity|].
    eexists. split; [reflexivity|]. auto 20 with nonl. }
  destruct (mapM_lines (Python.env_var_line props) (line_of "    ")
              (map fst (own_entries props))) as (vs & Hvs & Fv).
  { intros prop Hin. destruct (Hprop prop Hin) as (Hk & d & Hd & Nd).
    unfold Python.env_var_line. rewrite Hd. cbn [bind].
    eexists. split; [reflexivity|].
    match goal with
    | |- line_of _ ("    # " ++ ?x) => exists ("# " ++ x)
    end.
    split; [reflexivity|]. auto 20 with nonl. }
  exists hs, vs. auto.
Qed.

(** A tool as the Python template reads it: a one-line name and a
    one-line description. *)
Definition plain_python_tool (t : McpTool.t) : bool :=
  nonl (McpTool.name t) && nonl (McpTool.description t).

Lemma Python_block `{CM : CaseMapping} (cs : value) (t : McpTool.t) :
  wf_schema cs = true -> single_line_schema cs = true ->
  plain_python_tool t = true ->
  exists block,
    Python.python_tool cs t = Ok block /\
    count_lines decorator_line block = 1.
Proof.
  intros W S P. unfold plain_python_tool in P.
  apply andb_prop in P as [N D].
  unfold Python.python_tool.
  destruct (truthy cs && truthy (get_opt cs "properties")) eqn:E.
  - apply andb_prop in E as [Ec Ep].
    destruct (python_config_lines cs W S Ec Ep) as (hs & vs & Hh & Fh & Hv & Fv).
    unfold Object_keys.
    rewrite entries_non_nullish by (apply truthy_non_nullish, Ep).
    cbn [bind]. rewrite Hh. cbn [bind]. rewrite Hv. cbn [bind].
    eexists. split; [reflexivity|].
    rewrite count_lines_total. cbn [m_mode m_text decorator_line].
    destruct (negb (String.eqb (join nl hs) EmptyString));
      rewrite ?app_assoc; total_go; reflexivity.
  - cbn [bind]. eexists. split; [reflexivity|].
    rewrite count_lines_total. cbn [m_mode m_text decorator_line].
    rewrite ?app_assoc. total_go. reflexivity.
Qed.

(** The Python template registers every tool. *)
Lemma Python_tools_count `{CM : CaseMapping} (tools : list McpTool.t) (cs : value) :
  tools <> [] ->
  wf_schema cs = true -> single_line_schema cs = true ->
  forallb plain_python_tool tools = true ->
  exists out,
    Python.generatePythonToolsCode tools cs = Ok out /\
    count_lines decorator_line out = List.length tools.
Proof.
  intros Hne W S Hp. rewrite forallb_forall in Hp.
  destruct tools as [|t0 rest]; [congruence|].
  unfold Python.generatePythonToolsCode. lazy beta iota zeta.
  destruct (mapM_lines (Python.python_tool cs)
              (fun b => count_lines decorator_line b = 1) (t0 :: rest))
    as (bs & Hbs & F).
  { intros t Ht. apply Python_block; [exact W|exact S|apply Hp, Ht]. }
  rewrite Hbs. cbn [bind]. eexists. split; [reflexivity|].
  pose proof (mapM_length _ _ _ Hbs) as Hlen.
  assert (R : count_lines decorator_line (join (nl ++ nl) bs)
              = List.length (t0 :: rest)).
  { rewrite count_lines_join_blocks by discriminate.
    rewrite (list_sum_const 1).
    - rewrite length_map, Hlen. lia.
    - apply Forall_map. exact F. }
  unfold decorator_line in *.
  rewrite !count_lines_total. cbn [m_mode m_text].
  total_go. reflexivity.
Qed.

(** *** Three tools *)

Definition search_tool : McpTool.t :=
  McpTool.mk "search_docs" "Search the documentation"
    (VObj [("type", VStr "object");
           ("properties",
            VObj [("query", VObj [("type", VStr "string");
                                  ("description", VStr "Search text")]);
                  ("limit", VObj [("type", VStr "integer");
                                  ("default", VNum "10")])]);
           ("required", VArr [VStr "query"])])
    None.

Definition fetch_tool : McpTool.t :=
  McpTool.mk "fetch_page" "Fetch one page" VUndefined None.

Definition ping_tool : McpTool.t :=
  McpTool.mk "ping" "Check that the server answers" (VObj []) None.

Definition three_tools : list McpTool.t :=
  [search_tool; fetch_tool; ping_tool].


Lemma plain_tool_python (t : McpTool.t) :
  plain_tool t = true -> plain_python_tool t = true.
Proof.
  intros H. destruct (plain_tool_parts _ H) as (N & D & _).
  unfold plain_python_tool. rewrite N, D. reflexivity.
Qed.



Section With_three_tools_registration_witness.
#[local] Existing Instance ascii_mapping.


End With_three_tools_registration_witness.

End ToolsFacts.

(* ================================================================= *)
(** ** Counting the lines of a text given in pieces

    A generated text is a sequence of pieces: literal text of the
    template, holes filled with a string of the input that holds no
    newline, and blocks (the text of another generator, standing on
    lines of its own) whose count is known.  [sym_count] counts the
    lines that match a marker without looking into holes and blocks; it
    gives up where the answer would depend on them. *)

Module Pieces.
Import StrFacts Lines ScanFacts.

Inductive piece : Type :=
| Lit (s : string)
| Hole (h : string)
| Block (G : string) (k : nat).

Definition body (p : piece) : string :=
  match p with Lit s => s | Hole h => h | Block G _ => G end.

Fixpoint text (ps : list piece) : string :=
  match ps with
  | [] => EmptyString
  | p :: ps' =>
      match ps' with
      | [] => body p
      | _ :: _ => body p ++ text ps'
      end
  end.

(** A text as it is written: pieces put together with [++], in any
    nesting. *)
Inductive tree : Type :=
| Leaf (p : piece)
| Node (a b : tree).

Fixpoint text_tree (t : tree) : string :=
  match t with
  | Leaf p => body p
  | Node a b => text_tree a ++ text_tree b
  end.

Fixpoint flatten (t : tree) : list piece :=
  match t with
  | Leaf p => [p]
  | Node a b => (flatten a ++ flatten b)%list
  end.

Fixpoint rev (s : string) : string :=
  match s with
  | EmptyString => EmptyString
  | String c s' => rev s' ++ String c EmptyString
  end.

(** What is known of the current line: the state of the scanner; or
    that the line equals the marker only if what follows the part read
    before a hole is [rest], together with the characters read since
    the last hole, the latest first; or that a block has just ended. *)
Inductive state : Type :=
| Real (st : option string)
| Pending (rest : string) (since : string)
| AfterBlock.

(** [rest] cannot end with the characters read since the last hole. *)
Definition differs (rest since : string) : bool :=
  negb (startsWith since (rev rest)).

Definition sym_char (m : marker) (s : state) (acc : nat) (c : ascii)
  : option (state * nat) :=
  match s with
  | Real st =>
      if Ascii.eqb c "010"%char
      then Some (Real (Some (m_text m)), acc + finish st)
      else Some (Real (step (m_mode m) st c), acc)
  | Pending rest since =>
      if Ascii.eqb c "010"%char then
        if differs rest since
        then Some (Real (Some (m_text m)), acc)
        else None
      else Some (Pending rest (String c since), acc)
  | AfterBlock =>
      if Ascii.eqb c "010"%char
      then Some (Real (Some (m_text m)), acc)
      else None
  end.

Fixpoint sym_lit (m : marker) (s : state) (acc : nat) (u : string)
  : option (state * nat) :=
  match u with
  | EmptyString => Some (s, acc)
  | String c u' =>
      match sym_char m s acc c with
      | Some (s', acc') => sym_lit m s' acc' u'
      | None => None
      end
  end.

Definition sym_hole (m : marker) (s : state) : option state :=
  match s with
  | Real None => Some (Real None)
  | Real (Some r) =>
      match m_mode m with
      | Prefix =>
          match r with
          | EmptyString => Some (Real (Some EmptyString))
          | String _ _ => None
          end
      | Exact => Some (Pending r EmptyString)
      end
  | Pending r _ => Some (Pending r EmptyString)
  | AfterBlock => None
  end.

Definition sym_block (m : marker) (s : state) (acc k : nat)
  : option (state * nat) :=
  match s with
  | Real (Some r) =>
      if String.eqb r (m_text m) then Some (AfterBlock, acc + k) else None
  | _ => None
  end.

Definition sym_piece (m : marker) (s : state) (acc : nat) (p : piece)
  : option (state * nat) :=
  match p with
  | Lit u => sym_lit m s acc u
  | Hole _ =>
      match sym_hole m s with
      | Some s' => Some (s', acc)
      | None => None
      end
  | Block _ k => sym_block m s acc k
  end.

Fixpoint sym_run (m : marker) (s : state) (acc : nat) (ps : list piece)
  : option (state * nat) :=
  match ps with
  | [] => Some (s, acc)
  | p :: ps' =>
      match sym_piece m s acc p with
      | Some (s', acc') => sym_run m s' acc' ps'
      | None => None
      end
  end.

Definition outcome (s : state) (acc : nat) : option nat :=
  match s with
  | Real st => Some (acc + finish st)
  | Pending rest since => if differs rest since then Some acc else None
  | AfterBlock => Some acc
  end.

Definition sym_count (m : marker) (ps : list piece) : option nat :=
  match sym_run m (Real (Some (m_text m))) 0 ps with
  | Some (s, acc) => outcome s acc
  | None => None
  end.

(** What a piece must satisfy for the count to be right. *)
Definition piece_ok (m : marker) (p : piece) : Prop :=
  match p with
  | Lit _ => True
  | Hole h => nonl h = true
  | Block G k => count_lines m G = k
  end.

Fixpoint pieces_ok (m : marker) (ps : list piece) : Prop :=
  match ps with
  | [] => True
  | p :: ps' => piece_ok m p /\ pieces_ok m ps'
  end.

(** The symbolic state describes the state of the scanner. *)
Definition sim (m : marker) (s : state) (acc : nat)
    (real : nat * option string) : Prop :=
  match s with
  | Real st => real = (acc, st)
  | Pending rest since =>
      m_mode m = Exact /\
      exists u h, real = (acc, fold_step Exact (Some rest) u) /\
                  u = h ++ rev since
  | AfterBlock => acc = fst real + finish (snd real)
  end.

Definition scan_from (m : marker) (real : nat * option string) (s : string)
  : nat * option string :=
  scan (m_mode m) (m_text m) (snd real) (fst real) s.

Lemma text_cons (p : piece) (ps : list piece) :
  text (p :: ps) = body p ++ text ps.
Proof.
  destruct ps; [cbn [text]; rewrite app_nil_r; reflexivity|reflexivity].
Qed.

Lemma scan_nonl (md : mode) (M : string) (st : option string) (acc : nat)
    (h : string) :
  nonl h = true -> scan md M st acc h = (acc, fold_step md st h).
Proof.
  revert st. induction h as [|c h IH]; intros st; [reflexivity|].
  unfold nonl. cbn [forall_chars scan fold_step]. intros H.
  apply andb_prop in H as [Hc Hh].
  change "010"%char with nl_char.
  apply negb_true_iff in Hc. rewrite Hc. apply IH, Hh.
Qed.

Lemma fold_step_prefix_done (h : string) :
  fold_step Prefix (Some EmptyString) h = Some EmptyString.
Proof. induction h as [|c h IH]; [reflexivity|exact IH]. Qed.

Lemma rev_app (a b : string) : rev (a ++ b) = rev b ++ rev a.
Proof.
  induction a as [|c a IH]; cbn [append rev].
  - rewrite app_nil_r. reflexivity.
  - rewrite IH, app_assoc. reflexivity.
Qed.

Lemma rev_involutive (s : string) : rev (rev s) = s.
Proof.
  induction s as [|c s IH]; [reflexivity|].
  cbn [rev]. rewrite rev_app, IH. reflexivity.
Qed.

Lemma differs_neq (rest h since : string) :
  differs rest since = true -> String.eqb rest (h ++ rev since) = false.
Proof.
  unfold differs. intros Hd. apply String.eqb_neq. intros ->.
  rewrite rev_app, rev_involutive, startsWith_refl_app in Hd. discriminate.
Qed.

Lemma scan_from_app (m : marker) (real : nat * option string)
    (a b : string) :
  scan_from m real (a ++ b) = scan_from m (scan_from m real a) b.
Proof. unfold scan_from. apply scan_app. Qed.

Lemma sim_char (m : marker) (s s' : state) (acc acc' : nat) (c : ascii)
    (real : nat * option string) :
  sim m s acc real -> sym_char m s acc c = Some (s', acc') ->
  sim m s' acc' (scan_from m real (String c EmptyString)).
Proof.
  destruct real as [n st]. unfold scan_from. cbn [fst snd scan].
  destruct s as [st0|rest since|]; cbn [sim sym_char].
  - intros E. inversion E; subst.
    destruct (Ascii.eqb c "010"%char); intros H; inversion H; subst;
      reflexivity.
  - intros (Hm & u & h & E & Hu). inversion E; subst.
    destruct (Ascii.eqb c "010"%char) eqn:Ec.
    + destruct (differs rest since) eqn:Hd; [|discriminate].
      intros H. inversion H; subst. cbn [sim].
      rewrite finish_fold_step. cbn [matches_text].
      rewrite (differs_neq rest h since Hd).
      rewrite Nat.add_0_r. reflexivity.
    + intros H. inversion H; subst. cbn [sim]. split; [exact Hm|].
      exists ((h ++ rev since) ++ String c EmptyString), h. split.
      * rewrite Hm, !fold_step_app. reflexivity.
      * cbn [rev]. rewrite app_assoc. reflexivity.
  - cbn [fst snd]. intros E.
    destruct (Ascii.eqb c "010"%char); [|discriminate].
    intros H. inversion H; subst. reflexivity.
Qed.

Lemma sim_lit (m : marker) (u : string) (s s' : state) (acc acc' : nat)
    (real : nat * option string) :
  sim m s acc real -> sym_lit m s acc u = Some (s', acc') ->
  sim m s' acc' (scan_from m real u).
Proof.
  revert s acc real. induction u as [|c u IH]; intros s acc real Hs.
  - cbn [sym_lit]. intros H. inversion H; subst.
    destruct real. exact Hs.
  - cbn [sym_lit]. destruct (sym_char m s acc c) as [[s1 a1]|] eqn:E;
      [|discriminate].
    intros H.
    change (String c u) with (String c EmptyString ++ u).
    rewrite scan_from_app. eapply IH; [|exact H].
    eapply sim_char; eassumption.
Qed.

Lemma sim_hole (m : marker) (h : string) (s s' : state) (acc : nat)
    (real : nat * option string) :
  nonl h = true -> sim m s acc real -> sym_hole m s = Some s' ->
  sim m s' acc (scan_from m real h).
Proof.
  intros Hh. destruct real as [n st]. unfold scan_from. cbn [fst snd].
  rewrite (scan_nonl _ _ _ _ _ Hh).
  destruct s as [st0|rest since|]; cbn [sim sym_hole].
  - intros E. inversion E; subst. destruct st0 as [r|].
    + destruct (m_mode m) eqn:Hm.
      * intros H. inversion H; subst. cbn [sim]. split; [exact Hm|].
        exists h, h. split; [reflexivity|].
        cbn [rev]. rewrite app_nil_r. reflexivity.
      * destruct r; [|discriminate]. intros H. inversion H; subst.
        cbn [sim]. rewrite fold_step_prefix_done. reflexivity.
    + intros H. inversion H; subst. cbn [sim].
      rewrite fold_step_none. reflexivity.
  - intros (Hm & u & h0 & E & _) H. inversion E; inversion H; subst.
    cbn [sim]. split; [exact Hm|]. exists (u ++ h), (u ++ h). split.
    + rewrite Hm, !fold_step_app. reflexivity.
    + cbn [rev]. rewrite app_nil_r. reflexivity.
  - discriminate.
Qed.

Lemma sim_block (m : marker) (G : string) (k : nat) (s s' : state)
    (acc acc' : nat) (real : nat * option string) :
  count_lines m G = k -> sim m s acc real ->
  sym_block m s acc k = Some (s', acc') ->
  sim m s' acc' (scan_from m real G).
Proof.
  intros HG. destruct real as [n st]. unfold scan_from. cbn [fst snd].
  destruct s as [[r|]|rest last|]; cbn [sim sym_block]; try discriminate.
  intros E. inversion E; subst.
  destruct (String.eqb r (m_text m)) eqn:Er; [|discriminate].
  apply String.eqb_eq in Er. subst r.
  intros H. inversion H; subst. cbn [sim].
  rewrite (scan_acc _ _ _ acc G). cbn [fst snd].
  rewrite (count_lines_scan m G). lia.
Qed.

Lemma sim_run (m : marker) (ps : list piece) (s s' : state)
    (acc acc' : nat) (real : nat * option string) :
  pieces_ok m ps -> sim m s acc real ->
  sym_run m s acc ps = Some (s', acc') ->
  sim m s' acc' (scan_from m real (text ps)).
Proof.
  revert s acc real. induction ps as [|p ps IH]; intros s acc real Ok Hs.
  - cbn [sym_run text]. intros H. inversion H; subst.
    destruct real. exact Hs.
  - cbn [sym_run]. destruct Ok as [Hp Ok].
    destruct (sym_piece m s acc p) as [[s1 a1]|] eqn:E; [|discriminate].
    intros H. rewrite text_cons, scan_from_app.
    eapply IH; [exact Ok| |exact H].
    destruct p as [u|h|G k]; cbn [sym_piece body piece_ok] in *.
    + eapply sim_lit; eassumption.
    + destruct (sym_hole m s) as [s2|] eqn:E2; [|discriminate].
      inversion E; subst. eapply sim_hole; eassumption.
    + eapply sim_block; eassumption.
Qed.

Lemma sim_outcome (m : marker) (s : state) (acc v : nat)
    (real : nat * option string) :
  sim m s acc real -> outcome s acc = Some v ->
  fst real + finish (snd real) = v.
Proof.
  destruct real as [n st]. cbn [fst snd].
  destruct s as [st0|rest since|]; cbn [sim outcome].
  - intros E H. inversion E; inversion H; subst. reflexivity.
  - intros (Hm & u & h & E & Hu).
    destruct (differs rest since) eqn:Hd; [|discriminate].
    intros H. inversion E; inversion H; subst.
    rewrite finish_fold_step. cbn [matches_text].
    rewrite (differs_neq rest h since Hd). lia.
  - cbn [fst snd]. intros E H. inversion H; subst. reflexivity.
Qed.

(** The count found piece by piece is the count of the text. *)
Theorem sym_count_sound (m : marker) (ps : list piece) (v : nat) :
  sym_count m ps = Some v -> pieces_ok m ps ->
  count_lines m (text ps) = v.
Proof.
  unfold sym_count. intros H Ok.
  destruct (sym_run m (Real (Some (m_text m))) 0 ps) as [[s acc]|] eqn:E;
    [|discriminate].
  assert (S0 : sim m (Real (Some (m_text m))) 0 (0, Some (m_text m)))
    by reflexivity.
  pose proof (sim_run m ps _ _ _ _ _ Ok S0 E) as S.
  rewrite count_lines_scan.
  exact (sim_outcome m s acc v _ S H).
Qed.

Lemma text_app (l1 l2 : list piece) :
  text (l1 ++ l2)%list = text l1 ++ text l2.
Proof.
  induction l1 as [|p l1 IH]; [reflexivity|].
  cbn [List.app]. rewrite !text_cons, IH, app_assoc. reflexivity.
Qed.

Lemma text_flatten (t : tree) : text (flatten t) = text_tree t.
Proof.
  induction t as [p|a IHa b IHb]; [reflexivity|].
  cbn [flatten text_tree]. rewrite text_app, IHa, IHb. reflexivity.
Qed.

Theorem sym_count_tree (m : marker) (t : tree) (v : nat) :
  sym_count m (flatten t) = Some v -> pieces_ok m (flatten t) ->
  count_lines m (text_tree t) = v.
Proof.
  intros H Ok. rewrite <- text_flatten. apply sym_count_sound; assumption.
Qed.

End Pieces.

(* ================================================================= *)
(** ** What the templates declare: the configuration schema, the
       factory's parameter and the stdio transport *)

Module TemplateFacts.
Import StrFacts Lines DispatchFacts ScanFacts ToolsFacts Pieces.

(** The lines looked for in a generated TypeScript file. *)
Definition schema_declaration : marker :=
  {| m_mode := Prefix; m_text := "export const configSchema" |}.
Definition empty_schema_declaration : marker :=
  {| m_mode := Exact; m_text := "export const configSchema = z.object({});" |}.
Definition factory_without_config : marker :=
  {| m_mode := Exact; m_text := "export default function createServer() {" |}.
Definition factory_with_config : marker :=
  {| m_mode := Exact; m_text := "export default function createServer({" |}.
Definition config_parameter : marker :=
  {| m_mode := Exact; m_text := "  config: z.infer<typeof configSchema>;" |}.
Definition stdio_import : marker :=
  {| m_mode := Prefix; m_text := "import { StdioServerTransport }" |}.
Definition cli_stdio_bootstrap : marker :=
  {| m_mode := Exact;
     m_text := "  const transport = new StdioServerTransport();" |}.
Definition container_stdio_bootstrap : marker :=
  {| m_mode := Exact;
     m_text := "    const stdioTransport = new StdioServerTransport();" |}.

Definition ts_markers : list marker :=
  [ schema_declaration; factory_without_config; factory_with_config;
    config_parameter; stdio_import; cli_stdio_bootstrap;
    container_stdio_bootstrap; empty_schema_declaration ].

(** Prompts and resources whose strings are one line each. *)
Definition plain_prompt (p : McpPrompt.t) : bool :=
  nonl (McpPrompt.name p) && nonl (McpPrompt.description p)
  && match McpPrompt.template p with Some s => nonl s | None => true end
  && wf_schema (McpPrompt.argsSchema p)
  && single_line_schema (McpPrompt.argsSchema p).

Definition plain_resource (r : McpResource.t) : bool :=
  nonl (McpResource.name r) && nonl (McpResource.uri r)
  && nonl (McpResource.description r)
  && match McpResource.mimeType r with Some s => nonl s | None => true end.

Lemma plain_prompt_parts (p : McpPrompt.t) :
  plain_prompt p = true ->
  nonl (McpPrompt.name p) = true /\ nonl (McpPrompt.description p) = true /\
  match McpPrompt.template p with Some s => nonl s | None => true end = true /\
  wf_schema (McpPrompt.argsSchema p) = true /\
  single_line_schema (McpPrompt.argsSchema p) = true.
Proof.
  unfold plain_prompt. intros H.
  apply andb_prop in H as [H H5]. apply andb_prop in H as [H H4].
  apply andb_prop in H as [H H3]. apply andb_prop in H as [H1 H2]. auto.
Qed.

Lemma plain_resource_parts (r : McpResource.t) :
  plain_resource r = true ->
  nonl (McpResource.name r) = true /\ nonl (McpResource.uri r) = true /\
  nonl (McpResource.description r) = true /\
  match McpResource.mimeType r with Some s => nonl s | None => true end = true.
Proof.
  unfold plain_resource. intros H.
  apply andb_prop in H as [H H4]. apply andb_prop in H as [H H3].
  apply andb_prop in H as [H1 H2]. auto.
Qed.

(** Lines that end with a comma are none of the whole-line markers,
    which end otherwise. *)
Lemma count_lines_comma_lines (m : marker) (indent : string)
    (lines : list string) :
  m_text m <> EmptyString -> nonl indent = true ->
  killed_by (m_mode m) (m_text m) indent
  \/ (m_mode m = Exact /\ last_char (m_text m) <> Some ","%char) ->
  Forall (comma_line indent) lines ->
  count_lines m (join nl lines) = 0.
Proof.
  destruct m as [md M]. cbn [m_mode m_text]. intros HM Hi [K|[-> HL]] F.
  - apply (count_lines_killed md M indent); auto.
    eapply Forall_impl; [|exact F]. apply comma_line_of.
  - rewrite count_lines_join.
    + induction F as [|x rest Hx F IH]; [reflexivity|].
      cbn [filter]. rewrite exact_needs_last_char; [exact IH|].
      rewrite (comma_line_last _ _ Hx). congruence.
    + exact HM.
    + eapply Forall_impl; [|exact F]. intros l. apply comma_line_nonl, Hi.
Qed.

Lemma count_lines_killed_lines (m : marker) (indent : string)
    (lines : list string) :
  m_text m <> EmptyString -> nonl indent = true ->
  killed_by (m_mode m) (m_text m) indent ->
  Forall (line_of indent) lines ->
  count_lines m (join nl lines) = 0.
Proof. destruct m as [md M]. apply count_lines_killed. Qed.

(** The counts of the runs of lines in the context, for the marker of
    the goal. *)
Ltac lines_known :=
  repeat match goal with
  | F : Forall (comma_line ?i) ?ls |- count_lines ?m _ = _ =>
      lazymatch goal with
      | _ : count_lines m (join nl ls) = 0 |- _ => fail
      | _ =>
          assert (count_lines m (join nl ls) = 0)
            by (apply (count_lines_comma_lines m i ls);
                [ cbv; discriminate | reflexivity
                | first [ left; intros ?; reflexivity
                        | right; split; [reflexivity|cbv; discriminate] ]
                | exact F ])
      end
  | F : Forall (line_of ?i) ?ls |- count_lines ?m _ = _ =>
      lazymatch goal with
      | _ : count_lines m (join nl ls) = 0 |- _ => fail
      | _ =>
          assert (count_lines m (join nl ls) = 0)
            by (apply (count_lines_killed_lines m i ls);
                [ cbv; discriminate | reflexivity | intros ?; reflexivity
                | exact F ])
      end
  end.

(** Reading a text as pieces: literals, blocks whose count is in the
    context, and holes. *)
Ltac reify_piece m a :=
  lazymatch a with
  | String _ _ => constr:(Lit a)
  | EmptyString => constr:(Lit a)
  | dq => constr:(Lit a)
  | nl => constr:(Lit a)
  | _ =>
      lazymatch goal with
      | H : count_lines m a = ?k |- _ => constr:(Block a k)
      | _ => constr:(Hole a)
      end
  end.

Ltac reify m t :=
  lazymatch t with
  | ?a ++ ?b =>
      let ta := reify m a in
      let tb := reify m b in
      constr:(Node ta tb)
  | _ => let p := reify_piece m t in constr:(Leaf p)
  end.

Ltac pieces_side :=
  cbn [flatten List.app pieces_ok piece_ok];
  repeat match goal with |- _ /\ _ => split end;
  first [ exact I | assumption | solve [auto 20 with nonl] ].

Ltac count_pieces :=
  lines_known; cbv beta iota zeta;
  lazymatch goal with
  | |- count_lines ?m ?t = ?v =>
      let tr := reify m t in
      change (count_lines m (text_tree tr) = v);
      apply sym_count_tree; [vm_compute; reflexivity|pieces_side]
  end.

(** The lines looked for in a generated Python file. *)
Definition factory_line : marker :=
  {| m_mode := Prefix; m_text := "export default function createServer" |}.
Definition py_entry : marker :=
  {| m_mode := Exact; m_text := "def main():" |}.
Definition py_config_reader : marker :=
  {| m_mode := Exact; m_text := "def get_request_config() -> dict:" |}.
Definition py_middleware : marker :=
  {| m_mode := Exact; m_text := "class SmitheryConfigMiddleware:" |}.

Definition py_markers : list marker :=
  [ schema_declaration; factory_line; py_entry; py_config_reader;
    py_middleware ].

Ltac conjuncts :=
  repeat match goal with |- _ /\ _ => split end.

Ltac each_marker Hm :=
  cbn [ts_markers py_markers In] in Hm;
  repeat (destruct Hm as [<-|Hm]; [count_pieces|]);
  contradiction.

(** The comment lines for what is left to register start with two
    spaces and two slashes. *)
Lemma todo_resource_lines (l : list McpResource.t) :
  Forall (fun r => plain_resource r = true) l ->
  Forall (line_of "  //")
    (map (fun resource =>
            "  // TODO: Register resource " ++ dq
              ++ McpResource.name resource ++ dq ++ " - "
              ++ McpResource.description resource ++ " ("
              ++ McpResource.uri resource ++ ")") l).
Proof.
  intros F. apply Forall_map. eapply Forall_impl; [|exact F].
  intros r Hr. destruct (plain_resource_parts _ Hr) as (N & U & D & _).
  eexists (" TODO: Register resource " ++ _). split; [reflexivity|].
  auto 20 with nonl.
Qed.

Lemma resources_quiet `{CM : CaseMapping} (resources : list McpResource.t) (m : marker) :
  Forall (fun r => plain_resource r = true) resources ->
  In m ts_markers ->
  count_lines m (generateResourcesCode resources) = 0.
Proof.
  intros F Hm. unfold generateResourcesCode.
  destruct resources as [|r1 rest].
  - each_marker Hm.
  - inversion F as [|? ? P1 F']; subst.
    destruct (plain_resource_parts _ P1) as (N & U & D & T).
    pose proof (todo_resource_lines _ F') as L.
    cbn [List.length Nat.ltb Nat.leb tl].
    destruct rest as [|r2 rest]; cbn [List.length Nat.leb];
      destruct (startsWith "https://" (McpResource.uri r1));
      each_marker Hm.
Qed.

Definition quiet (out : string) : Prop :=
  forall m, In m ts_markers -> count_lines m out = 0.

Lemma todo_prompt_lines (l : list McpPrompt.t) :
  Forall (fun p => plain_prompt p = true) l ->
  Forall (line_of "  //")
    (map (fun prompt =>
            "  // TODO: Register prompt " ++ dq ++ McpPrompt.name prompt
              ++ dq ++ " - " ++ McpPrompt.description prompt) l).
Proof.
  intros F. apply Forall_map. eapply Forall_impl; [|exact F].
  intros q Hq. destruct (plain_prompt_parts _ Hq) as (N & D & _).
  eexists (" TODO: Register prompt " ++ _). split; [reflexivity|].
  auto 20 with nonl.
Qed.

Lemma todo_tool_lines (l : list McpTool.t) :
  Forall (fun t => plain_tool t = true) l ->
  Forall (line_of "  //")
    (map (fun tool =>
            "  // TODO: Register tool " ++ dq ++ McpTool.name tool
              ++ dq ++ " - " ++ McpTool.description tool) l).
Proof.
  intros F. apply Forall_map. eapply Forall_impl; [|exact F].
  intros t Ht. destruct (plain_tool_parts _ Ht) as (N & D & _).
  eexists (" TODO: Register tool " ++ _). split; [reflexivity|].
  auto 20 with nonl.
Qed.

Lemma prompts_quiet (prompts : list McpPrompt.t) :
  Forall (fun p => plain_prompt p = true) prompts ->
  exists out, generatePromptsCode prompts = Ok out /\ quiet out.
Proof.
  intros F. unfold generatePromptsCode, quiet.
  destruct prompts as [|p1 rest].
  - eexists. split; [reflexivity|]. intros m Hm. each_marker Hm.
  - inversion F as [|? ? P1 F']; subst.
    destruct (plain_prompt_parts _ P1) as (N & D & T & W & S).
    pose proof (todo_prompt_lines _ F') as L.
    cbn [List.length Nat.ltb Nat.leb tl].
    destruct (truthy (McpPrompt.argsSchema p1)) eqn:E.
    + destruct (generateZodSchemaFromJson_comma_lines
                  (McpPrompt.argsSchema p1) "        "
                  (truthy_non_nullish _ E) W S) as (lines & Hz & Fz).
      rewrite Hz. cbn [bind]. eexists. split; [reflexivity|].
      intros m Hm.
      destruct rest as [|p2 rest]; cbn [List.length Nat.leb];
        each_marker Hm.
    + cbn [bind]. eexists. split; [reflexivity|]. intros m Hm.
      destruct rest as [|p2 rest]; cbn [List.length Nat.leb];
        each_marker Hm.
Qed.

Lemma Cli_tools_quiet (tools : list McpTool.t) (hasConfig : bool) :
  Forall (fun t => plain_tool t = true) tools ->
  exists out, Cli.generateToolsCode tools hasConfig = Ok out /\ quiet out.
Proof.
  intros F. unfold Cli.generateToolsCode, quiet.
  destruct tools as [|t1 rest].
  - eexists. split; [reflexivity|]. intros m Hm. each_marker Hm.
  - inversion F as [|? ? P1 F']; subst.
    destruct (plain_tool_parts _ P1) as (N & D & W & S).
    pose proof (todo_tool_lines _ F') as L.
    cbn [List.length Nat.ltb Nat.leb tl].
    destruct (truthy (McpTool.inputSchema t1)) eqn:E.
    + destruct (generateZodSchemaFromJson_comma_lines
                  (McpTool.inputSchema t1) "        "
                  (truthy_non_nullish _ E) W S) as (lines & Hz & Fz).
      rewrite Hz. cbn [bind]. eexists. split; [reflexivity|].
      intros m Hm.
      destruct rest as [|t2 rest]; cbn [List.length Nat.leb];
        destruct hasConfig; each_marker Hm.
    + cbn [bind]. eexists. split; [reflexivity|]. intros m Hm.
      destruct rest as [|t2 rest]; cbn [List.length Nat.leb];
        destruct hasConfig; each_marker Hm.
Qed.

Lemma Container_block_quiet (hasConfig : bool) (t : McpTool.t) :
  plain_tool t = true ->
  exists block,
    Container.tool_registration
      (if hasConfig then "
      // TODO: Use the config parameter for API calls, timeout settings, etc." else EmptyString)
      (if hasConfig then "
      console.log('Available config:', config);" else EmptyString) t
    = Ok block /\ quiet block.
Proof.
  intros P. destruct (plain_tool_parts _ P) as (N & D & W & S).
  unfold Container.tool_registration, quiet.
  destruct (truthy (McpTool.inputSchema t)) eqn:E.
  - destruct (generateZodSchemaFromJson_comma_lines
                (McpTool.inputSchema t) "        "
                (truthy_non_nullish _ E) W S) as (lines & Hz & Fz).
    rewrite Hz. cbn [bind]. eexists. split; [reflexivity|].
    intros m Hm. destruct hasConfig; each_marker Hm.
  - cbn [bind]. eexists. split; [reflexivity|]. intros m Hm.
    destruct hasConfig; each_marker Hm.
Qed.

Lemma list_sum_zero (l : list nat) :
  Forall (fun n => n = 0) l -> list_sum l = 0.
Proof. intros F. rewrite (list_sum_const 0 l F). reflexivity. Qed.

Lemma blocks_quiet (blocks : list string) (m : marker) :
  In m ts_markers -> Forall quiet blocks ->
  count_lines m (join (nl ++ nl) blocks) = 0.
Proof.
  intros Hm F. rewrite count_lines_join_blocks.
  - apply list_sum_zero, Forall_map. eapply Forall_impl; [|exact F].
    intros b Hb. apply Hb, Hm.
  - cbn [ts_markers In] in Hm.
    repeat (destruct Hm as [<-|Hm]; [cbv; discriminate|]). contradiction.
Qed.

Lemma Container_tools_quiet (tools : list McpTool.t) (hasConfig : bool) :
  Forall (fun t => plain_tool t = true) tools ->
  exists out,
    Container.generateCustomContainerToolsCode tools hasConfig = Ok out
    /\ quiet out.
Proof.
  intros F. unfold Container.generateCustomContainerToolsCode.
  destruct tools as [|t1 rest].
  - eexists. split; [reflexivity|]. intros m Hm. each_marker Hm.
  - destruct (mapM_lines
                (Container.tool_registration
                   (if hasConfig then "
      // TODO: Use the config parameter for API calls, timeout settings, etc." else EmptyString)
                   (if hasConfig then "
      console.log('Available config:', config);" else EmptyString))
                quiet (t1 :: rest)) as (blocks & Hb & Fb).
    + intros t Ht. apply Container_block_quiet.
      rewrite Forall_forall in F. apply F, Ht.
    + rewrite Hb. cbn [bind]. eexists. split; [reflexivity|].
      intros m Hm. pose proof (blocks_quiet blocks m Hm Fb) as B.
      each_marker Hm.
Qed.

Lemma quiet_all (out : string) :
  quiet out ->
  count_lines schema_declaration out = 0 /\
  count_lines factory_without_config out = 0 /\
  count_lines factory_with_config out = 0 /\
  count_lines config_parameter out = 0 /\
  count_lines stdio_import out = 0 /\
  count_lines cli_stdio_bootstrap out = 0 /\
  count_lines container_stdio_bootstrap out = 0 /\
  count_lines empty_schema_declaration out = 0.
Proof.
  intros Q. repeat split; apply Q; cbn [ts_markers In]; tauto.
Qed.

Ltac use_quiet Q :=
  let H1 := fresh "Q" in let H2 := fresh "Q" in let H3 := fresh "Q" in
  let H4 := fresh "Q" in let H5 := fresh "Q" in let H6 := fresh "Q" in
  let H7 := fresh "Q" in let H8 := fresh "Q" in
  destruct (quiet_all _ Q) as (H1 & H2 & H3 & H4 & H5 & H6 & H7 & H8).

(** *** The parser of the configuration from the environment *)

(** How a property is read from its environment variable: a boolean is
    compared with ['true'], a number or integer goes through [Number]
    when set, anything else is passed as it is. *)
Definition env_reading (prop : value) (envVar : string) : string :=
  let ty := lookup "type" (own_entries prop) in
  if strict_eq_str ty "boolean" then envVar ++ " === 'true'"
  else if strict_eq_str ty "number" || strict_eq_str ty "integer"
       then envVar ++ " ? Number(" ++ envVar ++ ") : undefined"
       else envVar.

Definition env_parser_line `{CM : CaseMapping} (entry : string * value) : string :=
  "    " ++ fst entry ++ ": "
    ++ env_reading (snd entry) ("process.env." ++ toUpperCase (fst entry))
    ++ ",".

(** One line per property of the schema, in the order of the schema. *)
Definition env_parser `{CM : CaseMapping} (configSchema : value) : string :=
  "const config = configSchema.parse({
" ++ join nl (map env_parser_line
                (own_entries (get_opt configSchema "properties"))) ++ "
  });".

Definition has_properties (configSchema : value) : bool :=
  truthy configSchema && truthy (get_opt configSchema "properties").

Lemma mapM_map {A B : Type} (f : A -> result B) (g : A -> B) (l : list A) :
  (forall x, In x l -> f x = Ok (g x)) -> mapM f l = Ok (map g l).
Proof.
  induction l as [|a l IH]; intros H; [reflexivity|].
  cbn [mapM map]. rewrite (H a (or_introl eq_refl)). cbn [bind].
  rewrite IH by (intros x Hx; apply H; right; exact Hx). reflexivity.
Qed.

Lemma has_properties_parts (cs : value) :
  has_properties cs = true ->
  truthy cs = true /\ truthy (get_opt cs "properties") = true.
Proof. unfold has_properties. intros H. apply andb_prop in H. exact H. Qed.

Lemma generateEnvConfigParsing_parser `{CM : CaseMapping} (cs : value) :
  wf_schema cs = true -> has_properties cs = true ->
  generateEnvConfigParsing cs = Ok (env_parser cs).
Proof.
  intros Hw Hp. destruct (has_properties_parts _ Hp) as [Ec Ep].
  unfold generateEnvConfigParsing, env_parser.
  rewrite Ec, Ep. cbn [negb orb].
  rewrite entries_non_nullish by (apply truthy_non_nullish, Ep). cbn [bind].
  rewrite (mapM_map env_config_line env_parser_line); [reflexivity|].
  intros [key prop] Hx.
  pose proof (wf_schema_properties cs Hw Ec Ep) as F.
  rewrite Forall_forall in F. specialize (F _ Hx). cbn [snd] in F.
  unfold env_config_line, env_parser_line, env_reading. cbn [fst snd].
  rewrite (get_non_nullish _ _ F). cbn [bind].
  destruct (strict_eq_str _ "boolean");
    [rewrite ?app_assoc; reflexivity|].
  destruct (strict_eq_str _ "number" || strict_eq_str _ "integer");
    rewrite ?app_assoc; reflexivity.
Qed.

Lemma generateEnvConfigParsing_empty `{CM : CaseMapping} (cs : value) :
  has_properties cs = false ->
  generateEnvConfigParsing cs = Ok "const config = {};".
Proof.
  unfold has_properties, generateEnvConfigParsing. intros H.
  destruct (truthy cs); cbn [negb orb andb] in *; [|reflexivity].
  rewrite H. reflexivity.
Qed.

Lemma env_parser_lines `{CM : CaseMapping} (cs : value) :
  single_line_schema cs = true -> has_properties cs = true ->
  Forall (comma_line "    ")
    (map env_parser_line (own_entries (get_opt cs "properties"))).
Proof.
  intros Hs Hp. destruct (has_properties_parts _ Hp) as [Ec Ep].
  apply Forall_map.
  eapply Forall_impl; [|exact (single_line_properties cs Hs Ec Ep)].
  intros [key prop]. unfold single_line_property, env_parser_line.
  cbn [fst snd]. intros H.
  apply andb_prop in H as [H _]. apply andb_prop in H as [Hk _].
  exists (key ++ ": "
            ++ env_reading prop ("process.env." ++ toUpperCase key)).
  split; [rewrite ?app_assoc; reflexivity|]. unfold env_reading.
  destruct (strict_eq_str _ "boolean"); [auto 20 with nonl|].
  destruct (strict_eq_str _ "number" || strict_eq_str _ "integer");
    auto 20 with nonl.
Qed.

Lemma config_schema_lines (cs : value) :
  has_keys cs = true -> wf_schema cs = true ->
  single_line_schema cs = true ->
  exists lines,
    generateZodSchemaFromJson cs "  " = Ok (join nl lines)
    /\ Forall (comma_line "  ") lines.
Proof.
  intros HK. apply generateZodSchemaFromJson_comma_lines.
  apply has_keys_non_nullish, HK.
Qed.

Lemma eqb_literal_app (c : ascii) (s x : string) :
  String.eqb (String c s ++ x) EmptyString = false.
Proof. reflexivity. Qed.

(** *** Inputs whose strings are one line each *)

Definition plain_inputs (tools : list McpTool.t) (prompts : list McpPrompt.t)
    (resources : list McpResource.t) (serverName serverVersion : string)
    (configSchema : value) : bool :=
  forallb plain_tool tools && forallb plain_prompt prompts
  && forallb plain_resource resources
  && nonl serverName && nonl serverVersion
  && wf_schema configSchema && single_line_schema configSchema.

Lemma forallb_Forall {A : Type} (f : A -> bool) (l : list A) :
  forallb f l = true -> Forall (fun x => f x = true) l.
Proof. intros H. apply Forall_forall. apply forallb_forall, H. Qed.

Lemma plain_inputs_parts (tools : list McpTool.t)
    (prompts : list McpPrompt.t) (resources : list McpResource.t)
    (serverName serverVersion : string) (configSchema : value) :
  plain_inputs tools prompts resources serverName serverVersion configSchema
  = true ->
  Forall (fun t => plain_tool t = true) tools /\
  Forall (fun p => plain_prompt p = true) prompts /\
  Forall (fun r => plain_resource r = true) resources /\
  nonl serverName = true /\ nonl serverVersion = true /\
  wf_schema configSchema = true /\ single_line_schema configSchema = true.
Proof.
  unfold plain_inputs. intros H.
  apply andb_prop in H as [H H7]. apply andb_prop in H as [H H6].
  apply andb_prop in H as [H H5]. apply andb_prop in H as [H H4].
  apply andb_prop in H as [H H3]. apply andb_prop in H as [H1 H2].
  auto 10 using forallb_Forall.
Qed.

(** *** The Smithery CLI template *)

Lemma Cli_template_counts `{CM : CaseMapping} (tools : list McpTool.t)
    (prompts : list McpPrompt.t) (resources : list McpResource.t)
    (serverName serverVersion : string)
    (includeBackwardCompatibility : bool) (configSchema : value) :
  plain_inputs tools prompts resources serverName serverVersion configSchema
  = true ->
  exists out,
    Cli.generateIndexTsTemplate tools prompts resources serverName
      serverVersion includeBackwardCompatibility configSchema = Ok out /\
    count_lines schema_declaration out = 1 /\
    count_lines factory_with_config out = 1 /\
    count_lines config_parameter out = 1 /\
    count_lines factory_without_config out = 0 /\
    count_lines stdio_import out
    = (if includeBackwardCompatibility then 1 else 0) /\
    count_lines cli_stdio_bootstrap out
    = (if includeBackwardCompatibility then 1 else 0) /\
    count_lines empty_schema_declaration out
    = (if has_keys configSchema then 0 else 1).
Proof.
  intros P.
  destruct (plain_inputs_parts _ _ _ _ _ _ P)
    as (Ft & Fp & Fr & Nn & Nv & W & S).
  unfold Cli.generateIndexTsTemplate, Cli.generateConfigSchema,
    Cli.generateBackwardsCompatibilityCode, Cli.generateImports,
    Cli.generateServerCreation, generateServerReturn.
  destruct (Cli_tools_quiet tools (has_keys configSchema) Ft)
    as (toolsCode & Ht & Qt).
  destruct (prompts_quiet prompts Fp) as (promptsCode & Hp & Qp).
  pose proof (fun m Hm => resources_quiet resources m Fr Hm) as Qr.
  use_quiet Qt. use_quiet Qp. use_quiet Qr.
  rewrite Ht, Hp.
  destruct (has_keys configSchema) eqn:HK.
  - destruct (config_schema_lines configSchema HK W S) as (lines & Hz & Fz).
    rewrite Hz. cbn [bind]. rewrite eqb_literal_app. cbn [negb].
    destruct includeBackwardCompatibility.
    + destruct (has_properties configSchema) eqn:HP.
      * rewrite (generateEnvConfigParsing_parser _ W HP).
        pose proof (env_parser_lines _ S HP) as Fe.
        cbn [bind]. unfold env_parser.
        eexists. split; [reflexivity|]. conjuncts; count_pieces.
      * rewrite (generateEnvConfigParsing_empty _ HP). cbn [bind].
        eexists. split; [reflexivity|]. conjuncts; count_pieces.
    + cbn [bind]. eexists. split; [reflexivity|].
      conjuncts; count_pieces.
  - cbn [bind String.eqb negb].
    destruct includeBackwardCompatibility.
    + destruct (has_properties configSchema) eqn:HP.
      * rewrite (generateEnvConfigParsing_parser _ W HP).
        pose proof (env_parser_lines _ S HP) as Fe.
        cbn [bind]. unfold env_parser.
        eexists. split; [reflexivity|]. conjuncts; count_pieces.
      * rewrite (generateEnvConfigParsing_empty _ HP). cbn [bind].
        eexists. split; [reflexivity|]. conjuncts; count_pieces.
    + cbn [bind]. eexists. split; [reflexivity|].
      conjuncts; count_pieces.
Qed.

(** *** The custom-container template *)

Lemma Container_template_counts `{CM : CaseMapping} (tools : list McpTool.t)
    (prompts : list McpPrompt.t) (resources : list McpResource.t)
    (serverName serverVersion : string)
    (includeBackwardCompatibility : bool) (configSchema : value) :
  plain_inputs tools prompts resources serverName serverVersion configSchema
  = true ->
  exists out,
    Container.generateCustomContainerTemplate tools prompts resources
      serverName serverVersion includeBackwardCompatibility configSchema
    = Ok out /\
    count_lines schema_declaration out
    = (if has_keys configSchema then 1 else 0) /\
    count_lines factory_with_config out
    = (if has_keys configSchema then 1 else 0) /\
    count_lines config_parameter out
    = (if has_keys configSchema then 1 else 0) /\
    count_lines factory_without_config out
    = (if has_keys configSchema then 0 else 1) /\
    count_lines stdio_import out
    = (if includeBackwardCompatibility then 1 else 0) /\
    count_lines container_stdio_bootstrap out
    = (if includeBackwardCompatibility then 1 else 0).
Proof.
  intros P.
  destruct (plain_inputs_parts _ _ _ _ _ _ P)
    as (Ft & Fp & Fr & Nn & Nv & W & S).
  unfold Container.generateCustomContainerTemplate,
    Container.generateCustomContainerConfigSchema,
    Container.generateCustomContainerMainFunction,
    Container.generateCustomContainerImports,
    Container.generateCustomContainerServerCreation,
    Container.generateExpressSetup, Container.generateConfigFunctions,
    Container.generateMcpRequestHandler, generateServerReturn.
  destruct (Container_tools_quiet tools (has_keys configSchema) Ft)
    as (toolsCode & Ht & Qt).
  destruct (prompts_quiet prompts Fp) as (promptsCode & Hp & Qp).
  pose proof (fun m Hm => resources_quiet resources m Fr Hm) as Qr.
  use_quiet Qt. use_quiet Qp. use_quiet Qr.
  rewrite Ht, Hp.
  destruct (has_keys configSchema) eqn:HK.
  - destruct (config_schema_lines configSchema HK W S) as (lines & Hz & Fz).
    rewrite Hz. cbn [bind]. rewrite !eqb_literal_app. cbn [negb].
    destruct includeBackwardCompatibility; cbn [negb].
    + destruct (has_properties configSchema) eqn:HP.
      * rewrite (generateEnvConfigParsing_parser _ W HP).
        pose proof (env_parser_lines _ S HP) as Fe.
        cbn [bind]. unfold env_parser.
        eexists. split; [reflexivity|]. conjuncts; count_pieces.
      * rewrite (generateEnvConfigParsing_empty _ HP). cbn [bind].
        eexists. split; [reflexivity|]. conjuncts; count_pieces.
    + cbn [bind]. eexists. split; [reflexivity|].
      conjuncts; count_pieces.
  - cbn [bind String.eqb negb].
    destruct includeBackwardCompatibility; cbn [bind negb];
      (eexists; split; [reflexivity|]); conjuncts; count_pieces.
Qed.

(** *** The Python template *)

Definition py_quiet (out : string) : Prop :=
  forall m, In m py_markers -> count_lines m out = 0.

Lemma py_quiet_all (out : string) :
  py_quiet out ->
  count_lines schema_declaration out = 0 /\
  count_lines factory_line out = 0 /\
  count_lines py_entry out = 0 /\
  count_lines py_config_reader out = 0 /\
  count_lines py_middleware out = 0.
Proof.
  intros Q. repeat split; apply Q; cbn [py_markers In]; tauto.
Qed.

Ltac use_py_quiet Q :=
  let H1 := fresh "Q" in let H2 := fresh "Q" in let H3 := fresh "Q" in
  let H4 := fresh "Q" in let H5 := fresh "Q" in
  destruct (py_quiet_all _ Q) as (H1 & H2 & H3 & H4 & H5).

Lemma py_blocks_quiet (blocks : list string) (m : marker) :
  In m py_markers -> Forall py_quiet blocks ->
  count_lines m (join (nl ++ nl) blocks) = 0.
Proof.
  intros Hm F. rewrite count_lines_join_blocks.
  - apply list_sum_zero, Forall_map. eapply Forall_impl; [|exact F].
    intros b Hb. apply Hb, Hm.
  - cbn [py_markers In] in Hm.
    repeat (destruct Hm as [<-|Hm]; [cbv; discriminate|]). contradiction.
Qed.

Lemma Python_block_quiet `{CM : CaseMapping} (cs : value) (t : McpTool.t) :
  wf_schema cs = true -> single_line_schema cs = true ->
  plain_python_tool t = true ->
  exists block, Python.python_tool cs t = Ok block /\ py_quiet block.
Proof.
  intros W S P. unfold plain_python_tool in P.
  apply andb_prop in P as [N D].
  unfold Python.python_tool, py_quiet.
  destruct (truthy cs && truthy (get_opt cs "properties")) eqn:E.
  - apply andb_prop in E as [Ec Ep].
    destruct (python_config_lines cs W S Ec Ep)
      as (hs & vs & Hh & Fh & Hv & Fv).
    unfold Object_keys.
    rewrite entries_non_nullish by (apply truthy_non_nullish, Ep).
    cbn [bind]. rewrite Hh. cbn [bind]. rewrite Hv. cbn [bind].
    eexists. split; [reflexivity|]. intros m Hm.
    destruct (negb (String.eqb (join nl hs) EmptyString));
      each_marker Hm.
  - cbn [bind]. eexists. split; [reflexivity|]. intros m Hm.
    each_marker Hm.
Qed.

Lemma Python_tools_quiet `{CM : CaseMapping} (tools : list McpTool.t) (cs : value) :
  wf_schema cs = true -> single_line_schema cs = true ->
  Forall (fun t => plain_python_tool t = true) tools ->
  exists out,
    Python.generatePythonToolsCode tools cs = Ok out /\ py_quiet out.
Proof.
  intros W S F. unfold Python.generatePythonToolsCode.
  destruct tools as [|t1 rest].
  - eexists. split; [reflexivity|]. intros m Hm. each_marker Hm.
  - destruct (mapM_lines (Python.python_tool cs) py_quiet (t1 :: rest))
      as (blocks & Hb & Fb).
    + intros t Ht. apply Python_block_quiet; [exact W|exact S|].
      rewrite Forall_forall in F. apply F, Ht.
    + rewrite Hb. cbn [bind]. eexists. split; [reflexivity|].
      intros m Hm. pose proof (py_blocks_quiet blocks m Hm Fb) as B.
      each_marker Hm.
Qed.

Lemma Python_prompts_quiet `{CM : CaseMapping} (prompts : list McpPrompt.t) :
  Forall (fun p => plain_prompt p = true) prompts ->
  py_quiet (Python.generatePythonPromptsCode prompts).
Proof.
  intros F. unfold Python.generatePythonPromptsCode.
  destruct prompts as [|p1 rest]; [intros m Hm; each_marker Hm|].
  intros m Hm.
  match goal with
  | |- context [join (nl ++ nl) (map ?f ?l)] =>
      assert (B : count_lines m (join (nl ++ nl) (map f l)) = 0)
  end.
  { apply py_blocks_quiet; [exact Hm|]. apply Forall_map.
    eapply Forall_impl; [|exact F]. intros q Hq.
    destruct (plain_prompt_parts _ Hq) as (N & D & T & _).
    intros m' Hm'. each_marker Hm'. }
  each_marker Hm.
Qed.

Lemma Python_resources_quiet `{CM : CaseMapping} (resources : list McpResource.t) :
  Forall (fun r => plain_resource r = true) resources ->
  py_quiet (Python.generatePythonResourcesCode resources).
Proof.
  intros F. unfold Python.generatePythonResourcesCode.
  destruct resources as [|r1 rest]; [intros m Hm; each_marker Hm|].
  intros m Hm.
  match goal with
  | |- context [join (nl ++ nl) (map ?f ?l)] =>
      assert (B : count_lines m (join (nl ++ nl) (map f l)) = 0)
  end.
  { apply py_blocks_quiet; [exact Hm|]. apply Forall_map.
    eapply Forall_impl; [|exact F]. intros r Hr.
    destruct (plain_resource_parts _ Hr) as (N & U & D & _).
    intros m' Hm'.
    destruct (startsWith "https://" (McpResource.uri r));
      each_marker Hm'. }
  each_marker Hm.
Qed.

Lemma plain_tool_is_python (tools : list McpTool.t) :
  Forall (fun t => plain_tool t = true) tools ->
  Forall (fun t => plain_python_tool t = true) tools.
Proof.
  intros F. eapply Forall_impl; [|exact F]. intros t Ht.
  destruct (plain_tool_parts _ Ht) as (N & D & _).
  unfold plain_python_tool. rewrite N, D. reflexivity.
Qed.

Lemma Python_template_counts `{CM : CaseMapping} (tools : list McpTool.t)
    (prompts : list McpPrompt.t) (resources : list McpResource.t)
    (serverName serverVersion : string)
    (includeBackwardCompatibility : bool) (configSchema : value) :
  plain_inputs tools prompts resources serverName serverVersion configSchema
  = true ->
  exists out,
    Python.generatePythonTemplate tools prompts resources serverName
      serverVersion includeBackwardCompatibility configSchema = Ok out /\
    count_lines schema_declaration out = 0 /\
    count_lines factory_line out = 0 /\
    count_lines py_entry out = 1 /\
    count_lines py_config_reader out
    = (if has_keys configSchema then 1 else 0) /\
    count_lines py_middleware out
    = (if has_keys configSchema then 1 else 0).
Proof.
  intros P.
  destruct (plain_inputs_parts _ _ _ _ _ _ P)
    as (Ft & Fp & Fr & Nn & Nv & W & S).
  unfold Python.generatePythonTemplate, Python.generatePythonImports,
    Python.generateServerInit, Python.generatePythonMainFunction.
  destruct (Python_tools_quiet tools configSchema W S
              (plain_tool_is_python _ Ft)) as (toolsCode & Ht & Qt).
  pose proof (Python_prompts_quiet prompts Fp) as Qp.
  pose proof (Python_resources_quiet resources Fr) as Qr.
  use_py_quiet Qt. use_py_quiet Qp. use_py_quiet Qr.
  rewrite Ht. cbn [bind].
  destruct (has_keys configSchema) eqn:HK.
  - unfold Python.generateConfigFunctions, Python.generateMiddleware.
    rewrite !eqb_literal_app. cbn [negb].
    destruct includeBackwardCompatibility;
      (eexists; split; [reflexivity|]); conjuncts; count_pieces.
  - cbn [String.eqb negb].
    destruct includeBackwardCompatibility;
      (eexists; split; [reflexivity|]); conjuncts; count_pieces.
Qed.

(** *** Where the parser of the environment stands *)

Definition contains (part whole : string) : Prop :=
  exists pre post, whole = pre ++ part ++ post.

Lemma contains_refl (x : string) : contains x x.
Proof. exists EmptyString, EmptyString. rewrite app_nil_r. reflexivity. Qed.

Lemma contains_here (x b : string) : contains x (x ++ b).
Proof. exists EmptyString, b. reflexivity. Qed.

Lemma contains_app_r (x a b : string) : contains x b -> contains x (a ++ b).
Proof.
  intros (pre & post & ->). exists (a ++ pre), post.
  rewrite !app_assoc. reflexivity.
Qed.

Lemma contains_app_l (x a b : string) : contains x a -> contains x (a ++ b).
Proof.
  intros (pre & post & ->). exists pre, (post ++ b).
  rewrite !app_assoc. reflexivity.
Qed.

Ltac find_part :=
  lazymatch goal with
  | |- contains ?x ?x => apply contains_refl
  | |- contains ?x (?x ++ _) => apply contains_here
  | |- contains ?x (?a ++ ?b) =>
      first [ apply contains_app_r; find_part
            | apply contains_app_l; find_part ]
  end.






(** *** Sample inputs *)

Definition summarize_prompt : McpPrompt.t :=
  McpPrompt.mk "summarize" "Summarize a document"
    (VObj [("type", VStr "object");
           ("required", VArr [VStr "topic"]);
           ("properties",
            VObj [("topic", VObj [("type", VStr "string")])])])
    (Some "Summarize {{topic}}").

Definition readme_resource : McpResource.t :=
  McpResource.mk "readme" "https://example.com/readme.md" "The readme"
    (Some "text/markdown") None.

Definition flags_schema : value :=
  VObj [("type", VStr "object");
        ("required", VArr [VStr "apiKey"]);
        ("properties",
         VObj [("apiKey", VObj [("type", VStr "string")]);
               ("verbose", VObj [("type", VStr "boolean");
                                 ("default", VBool false)]);
               ("maxRetries", VObj [("type", VStr "integer");
                                    ("default", VNum "3")])])].

Section With_cli_and_python_are_not_gated.
#[local] Existing Instance ascii_mapping.

(** C2, counterexample: without any configuration schema the CLI
    template still declares [configSchema] and its factory still takes
    the [config] parameter; with a configuration schema the text of
    the Python template nowhere holds [configSchema] nor [Schema], and
    its entry point [def main():] takes no parameter. *)
Lemma cli_and_python_are_not_gated :
  (has_keys VUndefined = false /\
   exists out,
     Cli.generateIndexTsTemplate [] [] [] "demo" "1.0.0" false VUndefined
     = Ok out /\
     count_lines schema_declaration out = 1 /\
     count_lines factory_with_config out = 1 /\
     count_lines config_parameter out = 1 /\
     count_lines factory_without_config out = 0) /\
  (has_keys flags_schema = true /\
   exists out,
     Python.generatePythonTemplate [] [] [] "demo" "1.0.0" false flags_schema
     = Ok out /\
     includes "configSchema" out = false /\
     includes "Schema" out = false /\
     count_lines py_entry out = 1).
Proof.
  split; (split; [reflexivity|]); eexists; (split; [reflexivity|]);
    conjuncts; vm_compute; reflexivity.
Qed.

End With_cli_and_python_are_not_gated.

(** C2, amended: for inputs whose strings are one line each and whose
    schemas are well formed (every default can be printed), the three
    templates are returned and
    (1) the CLI template has one line that begins with
    [export const configSchema], which is the empty declaration
    [export const configSchema = z.object({});] exactly when the
    configuration schema has no keys, and its factory always opens with
    [export default function createServer({] and takes the parameter
    [config: z.infer<typeof configSchema>;];
    (2) the custom-container template has the line that begins with
    [export const configSchema], the factory that opens with
    [createServer({] and the [config] parameter exactly when the
    configuration schema has keys, and otherwise the factory
    [export default function createServer() {] without parameter;
    (3) the Python template has no line that begins with
    [export const configSchema] or with
    [export default function createServer], its entry point is the one
    line [def main():], without parameter, and it has the line
    [def get_request_config() -> dict:] and the line
    [class SmitheryConfigMiddleware:] exactly when the configuration
    schema has keys. *)
Theorem config_gating `{CM : CaseMapping}
    (tools : list McpTool.t) (prompts : list McpPrompt.t)
    (resources : list McpResource.t) (serverName serverVersion : string)
    (includeBackwardCompatibility : bool) (configSchema : value) :
  plain_inputs tools prompts resources serverName serverVersion configSchema
  = true ->
  (exists out,
     Cli.generateIndexTsTemplate tools prompts resources serverName
       serverVersion includeBackwardCompatibility configSchema = Ok out /\
     count_lines schema_declaration out = 1 /\
     count_lines factory_with_config out = 1 /\
     count_lines config_parameter out = 1 /\
     count_lines factory_without_config out = 0 /\
     count_lines empty_schema_declaration out
     = (if has_keys configSchema then 0 else 1)) /\
  (exists out,
     Container.generateCustomContainerTemplate tools prompts resources
       serverName serverVersion includeBackwardCompatibility configSchema
     = Ok out /\
     count_lines schema_declaration out
     = (if has_keys configSchema then 1 else 0) /\
     count_lines factory_with_config out
     = (if has_keys configSchema then 1 else 0) /\
     count_lines config_parameter out
     = (if has_keys configSchema then 1 else 0) /\
     count_lines factory_without_config out
     = (if has_keys configSchema then 0 else 1)) /\
  (exists out,
     Python.generatePythonTemplate tools prompts resources serverName
       serverVersion includeBackwardCompatibility configSchema = Ok out /\
     count_lines schema_declaration out = 0 /\
     count_lines factory_line out = 0 /\
     count_lines py_entry out = 1 /\
     count_lines py_config_reader out
     = (if has_keys configSchema then 1 else 0) /\
     count_lines py_middleware out
     = (if has_keys configSchema then 1 else 0)).
Proof.
  intros P. split; [|split].
  - destruct (Cli_template_counts _ _ _ _ _ includeBackwardCompatibility _ P)
      as (out & H & C1 & C2 & C3 & C4 & _ & _ & C7).
    exists out. auto 10.
  - destruct (Container_template_counts _ _ _ _ _
                includeBackwardCompatibility _ P)
      as (out & H & C1 & C2 & C3 & C4 & _).
    exists out. auto.
  - apply Python_template_counts, P.
Qed.

Section With_config_gating_witness.
#[local] Existing Instance ascii_mapping.

Lemma config_gating_witness :
  plain_inputs three_tools [summarize_prompt] [readme_resource]
    "demo" "1.0.0" flags_schema = true /\
  exists out,
    Container.generateCustomContainerTemplate three_tools [summarize_prompt]
      [readme_resource] "demo" "1.0.0" true flags_schema = Ok out /\
    count_lines schema_declaration out = 1 /\
    count_lines config_parameter out = 1.
Proof.
  split; [reflexivity|].
  destruct (config_gating three_tools [summarize_prompt] [readme_resource]
              "demo" "1.0.0" true flags_schema eq_refl)
    as (_ & (out & H & C1 & _ & C3 & _) & _).
  exists out. exact (conj H (conj C1 C3)).
Defined.

End With_config_gating_witness.



Section With_typescript_inputs_without_one_line_per_property.
#[local] Existing Instance ascii_mapping.


End With_typescript_inputs_without_one_line_per_property.


Section With_stdio_gating_and_env_parser_witness.
#[local] Existing Instance ascii_mapping.


End With_stdio_gating_and_env_parser_witness.

End TemplateFacts.

(* ================================================================= *)
(** ** The Dockerfile generator (dockerfile-generator.ts) *)

Module Docker.

Record DockerfileParams : Type := {
  containerType : string;
  serverName : option string;
  nodeVersion : option string;
  pythonVersion : option string;
  buildCommand : option string;
  startCommand : option string;
  sourceDir : option string;
  outputDir : option string;
  packageManager : option string;
  pythonMainFile : option string;
  requirementsFile : option string;
  useUv : option bool;
  workingDir : option string;
  additionalPackages : option (list string);
  (* the entries of the record, in enumeration order *)
  environmentVars : option (list (string * string));
  includeBackwardCompatibility : option bool
}.

(** A default of a destructuring pattern: it stands in for [undefined]
    only. *)
Definition or_default {A : Type} (o : option A) (d : A) : A :=
  match o with Some x => x | None => d end.

(** [s.split(c)] for a one-character separator. *)
Fixpoint split_on (c : ascii) (s : string) : list string :=
  match s with
  | EmptyString => [EmptyString]
  | String x s' =>
      if Ascii.eqb x c then EmptyString :: split_on c s'
      else match split_on c s' with
           | l :: ls => String x l :: ls
           | [] => [String x EmptyString]
           end
  end.

(** The callback of [Object.entries(environmentVars).map]. *)
Definition env_line (entry : string * string) : string :=
  "ENV " ++ fst entry ++ "=" ++ dq ++ snd entry ++ dq.

Definition generateTypeScriptDockerfile (params : DockerfileParams) : string :=
  let nodeVersion := or_default (nodeVersion params) "22" in
  let packageManager := or_default (packageManager params) "npm" in
  let buildCommand := or_default (buildCommand params) "npm run build" in
  let startCommand := startCommand params in
  let sourceDir := or_default (sourceDir params) "." in
  let outputDir := or_default (outputDir params) "dist" in
  let additionalPackages := or_default (additionalPackages params) [] in
  let environmentVars := or_default (environmentVars params) [] in
  let includeBackwardCompatibility :=
    or_default (includeBackwardCompatibility params) false in
  let installCmd :=
    if String.eqb packageManager "npm" then "npm ci --only=production"
    else if String.eqb packageManager "yarn"
         then "yarn install --production --frozen-lockfile"
         else "pnpm install --prod --frozen-lockfile" in
  let packageFiles :=
    if String.eqb packageManager "npm" then "package*.json"
    else if String.eqb packageManager "yarn" then "package.json yarn.lock"
         else "package.json pnpm-lock.yaml" in
  let defaultStartCmd := str_or startCommand ("node " ++ outputDir ++ "/index.js") in
  let systemPackages :=
    if (0 <? List.length additionalPackages)%nat
    then "
# Install additional system packages
RUN apt-get update && apt-get install -y " ++ join " " additionalPackages ++ " && rm -rf /var/lib/apt/lists/*
"
    else EmptyString in
  let envVars :=
    if (0 <? List.length environmentVars)%nat
    then join nl (map env_line environmentVars) ++ nl ++ nl
    else EmptyString in
  "# Dockerfile for TypeScript Custom Container
FROM node:" ++ nodeVersion ++ "-slim

WORKDIR /app" ++ systemPackages ++ "
# Copy package files
COPY " ++ packageFiles ++ " ./

# Install dependencies
RUN " ++ installCmd ++ "

# Copy source code
COPY " ++ sourceDir ++ " .

# Build TypeScript code
RUN " ++ buildCommand ++ "

" ++ envVars ++ "
" ++ (if includeBackwardCompatibility then "# Force HTTP transport mode for Smithery deployment
ENV TRANSPORT=http

" else EmptyString) ++ "# Start the HTTP server
CMD [" ++ dq ++ join (dq ++ ", " ++ dq) (split_on " "%char defaultStartCmd) ++ dq ++ "]".

Definition generatePythonDockerfile (params : DockerfileParams) : string :=
  let pythonVersion := or_default (pythonVersion params) "3.12" in
  let pythonMainFile := or_default (pythonMainFile params) "src/main.py" in
  let requirementsFile := requirementsFile params in
  let useUv := or_default (useUv params) true in
  let workingDir := or_default (workingDir params) "/app" in
  let additionalPackages := or_default (additionalPackages params) [] in
  let environmentVars := or_default (environmentVars params) [] in
  let includeBackwardCompatibility :=
    or_default (includeBackwardCompatibility params) false in
  let systemPackages :=
    if (0 <? List.length additionalPackages)%nat
    then "
# Install additional system packages
RUN apk add --no-cache " ++ join " " additionalPackages ++ "
"
    else EmptyString in
  let envVars :=
    if (0 <? List.length environmentVars)%nat
    then join nl (map env_line environmentVars) ++ nl ++ nl
    else EmptyString in
  if useUv then
    "# Dockerfile for Python Custom Container (using uv)
# Use a Python image with uv pre-installed
FROM ghcr.io/astral-sh/uv:python" ++ pythonVersion ++ "-alpine

# Install the project into " ++ workingDir ++ "
WORKDIR " ++ workingDir ++ systemPackages ++ "
# Enable bytecode compilation
ENV UV_COMPILE_BYTECODE=1

# Copy from the cache instead of linking since it's a mounted volume
ENV UV_LINK_MODE=copy

# Install the project's dependencies using the lockfile and settings
RUN --mount=type=cache,target=/root/.cache/uv \
    --mount=type=bind,source=uv.lock,target=uv.lock \
    --mount=type=bind,source=pyproject.toml,target=pyproject.toml \
    uv sync --locked --no-install-project --no-dev

# Then, add the rest of the project source code and install it
COPY . " ++ workingDir ++ "
RUN --mount=type=cache,target=/root/.cache/uv \
    uv sync --locked --no-dev

# Place executables in the environment at the front of the path
ENV PATH=" ++ dq ++ workingDir ++ "/.venv/bin:$PATH" ++ dq ++ "

# Reset the entrypoint, don't invoke `uv`
ENTRYPOINT []

" ++ envVars ++ "
" ++ (if includeBackwardCompatibility then "# Force HTTP transport mode for Smithery deployment
ENV TRANSPORT=http

" else EmptyString) ++ "# Start the HTTP server
CMD [" ++ dq ++ "python" ++ dq ++ ", " ++ dq ++ pythonMainFile ++ dq ++ "]"
  else
    let reqFile := str_or requirementsFile "requirements.txt" in
    "# Dockerfile for Python Custom Container (using pip)
FROM python:" ++ pythonVersion ++ "-alpine

WORKDIR " ++ workingDir ++ systemPackages ++ "
# Copy requirements file
COPY " ++ reqFile ++ " .

# Install Python dependencies
RUN pip install --no-cache-dir -r " ++ reqFile ++ "

# Copy source code
COPY . .

" ++ envVars ++ "
" ++ (if includeBackwardCompatibility then "# Force HTTP transport mode for Smithery deployment
ENV TRANSPORT=http

" else EmptyString) ++ "# Start the HTTP server
CMD [" ++ dq ++ "python" ++ dq ++ ", " ++ dq ++ pythonMainFile ++ dq ++ "]".

Definition generateDockerfile (params : DockerfileParams) : result string :=
  if String.eqb (containerType params) "ts-custom-container" then
    Ok (generateTypeScriptDockerfile params)
  else if String.eqb (containerType params) "py-custom-container" then
    Ok (generatePythonDockerfile params)
  else Throw (Error ("Unsupported container type: " ++ containerType params)).

Definition getContainerTypeDescription (containerType : string) : string :=
  if String.eqb containerType "ts-custom-container" then
    "TypeScript Custom Container with Node.js and Express"
  else if String.eqb containerType "py-custom-container" then
    "Python Custom Container with FastMCP and uv"
  else "Unknown container type".

End Docker.

(* ================================================================= *)
(** ** The Dockerfile generator: instructions and defaults *)

Module DockerFacts.
Import StrFacts Lines DispatchFacts ScanFacts ToolsFacts Pieces TemplateFacts.
Import Docker.

Definition nonl_opt (o : option string) : bool :=
  match o with Some s => nonl s | None => true end.

(** Parameters whose strings are one line each. *)
Definition plain_params (p : DockerfileParams) : bool :=
  nonl_opt (nodeVersion p) && nonl_opt (pythonVersion p)
  && nonl_opt (buildCommand p) && nonl_opt (startCommand p)
  && nonl_opt (sourceDir p) && nonl_opt (outputDir p)
  && nonl_opt (pythonMainFile p) && nonl_opt (requirementsFile p)
  && nonl_opt (workingDir p)
  && forallb nonl (or_default (additionalPackages p) [])
  && forallb (fun e => nonl (fst e) && nonl (snd e))
       (or_default (environmentVars p) []).

Lemma nonl_or_default (o : option string) (d : string) :
  nonl_opt o = true -> nonl d = true -> nonl (or_default o d) = true.
Proof. destruct o; auto. Qed.

Lemma nonl_join (sep : string) (l : list string) :
  nonl sep = true -> Forall (fun s => nonl s = true) l ->
  nonl (join sep l) = true.
Proof.
  intros Hs F. induction F as [|x rest Hx F IH]; [reflexivity|].
  destruct rest as [|y rest]; [exact Hx|].
  change (join sep (x :: y :: rest)) with (x ++ sep ++ join sep (y :: rest)).
  rewrite !nonl_app, Hx, Hs, IH. reflexivity.
Qed.

Lemma split_on_nonempty (c : ascii) (s : string) : split_on c s <> [].
Proof.
  destruct s as [|x s]; cbn [split_on]; [discriminate|].
  destruct (Ascii.eqb x c); [discriminate|].
  destruct (split_on c s); discriminate.
Qed.

Lemma nonl_split_on (c : ascii) (s : string) :
  nonl s = true -> Forall (fun x => nonl x = true) (split_on c s).
Proof.
  induction s as [|x s IH]; intros H.
  - repeat constructor.
  - unfold nonl in H. cbn [forall_chars] in H.
    apply andb_prop in H as [Hx Hs]. specialize (IH Hs).
    cbn [split_on]. destruct (Ascii.eqb x c).
    + constructor; [reflexivity|exact IH].
    + destruct (split_on c s) as [|l ls] eqn:E.
      * constructor; [|constructor]. unfold nonl. cbn [forall_chars].
        rewrite Hx. reflexivity.
      * inversion IH; subst. constructor; [|assumption].
        unfold nonl in *. cbn [forall_chars]. rewrite Hx. assumption.
Qed.

Definition from_line : marker := {| m_mode := Prefix; m_text := "FROM " |}.
Definition workdir_line : marker :=
  {| m_mode := Prefix; m_text := "WORKDIR " |}.
Definition cmd_line : marker := {| m_mode := Prefix; m_text := "CMD " |}.
Definition entrypoint_line : marker :=
  {| m_mode := Prefix; m_text := "ENTRYPOINT " |}.
Definition transport_line : marker :=
  {| m_mode := Exact; m_text := "ENV TRANSPORT=http" |}.
Definition env_instruction : marker :=
  {| m_mode := Prefix; m_text := "ENV " |}.

Lemma plain_params_parts (p : DockerfileParams) :
  plain_params p = true ->
  nonl (or_default (nodeVersion p) "22") = true /\
  nonl (or_default (pythonVersion p) "3.12") = true /\
  nonl (or_default (buildCommand p) "npm run build") = true /\
  nonl_opt (startCommand p) = true /\
  nonl (or_default (sourceDir p) ".") = true /\
  nonl (or_default (outputDir p) "dist") = true /\
  nonl (or_default (pythonMainFile p) "src/main.py") = true /\
  nonl (str_or (requirementsFile p) "requirements.txt") = true /\
  nonl (or_default (workingDir p) "/app") = true /\
  Forall (fun s => nonl s = true) (or_default (additionalPackages p) []) /\
  Forall (fun e => nonl (fst e) = true /\ nonl (snd e) = true)
    (or_default (environmentVars p) []).
Proof.
  unfold plain_params. intros H.
  repeat match type of H with
         | _ && _ = true =>
             let H' := fresh "H" in apply andb_prop in H as [H H']
         end.
  repeat split; try (apply nonl_or_default; [assumption|reflexivity]);
    try assumption.
  - apply nonl_str_or; [assumption|reflexivity].
  - apply forallb_Forall. assumption.
  - apply Forall_forall. intros e He.
    rewrite forallb_forall in H0. specialize (H0 e He).
    apply andb_prop in H0. exact H0.
Qed.

Lemma env_lines_of (env : list (string * string)) :
  Forall (fun e => nonl (fst e) = true /\ nonl (snd e) = true) env ->
  Forall (line_of "ENV ") (map env_line env).
Proof.
  intros F. apply Forall_map. eapply Forall_impl; [|exact F].
  intros e [Hk Hv]. unfold env_line.
  eexists. split; [reflexivity|]. auto 20 with nonl.
Qed.

Lemma env_lines_nonl (env : list (string * string)) :
  Forall (fun e => nonl (fst e) = true /\ nonl (snd e) = true) env ->
  Forall (fun l => nonl l = true) (map env_line env).
Proof.
  intros F. apply Forall_map. eapply Forall_impl; [|exact F].
  intros e [Hk Hv]. unfold env_line. auto 20 with nonl.
Qed.

(** A variable of the environment is written with its value between
    quotes: its line is never the bare [ENV TRANSPORT=http]. *)
Lemma env_lines_not_transport (env : list (string * string)) :
  Forall (fun e => nonl (fst e) = true /\ nonl (snd e) = true) env ->
  count_lines transport_line (join nl (map env_line env)) = 0.
Proof.
  intros F. rewrite count_lines_join;
    [|discriminate|apply env_lines_nonl, F].
  clear F. induction env as [|e env IH]; [reflexivity|].
  cbn [map filter]. unfold transport_line at 1.
  rewrite exact_needs_last_char; [exact IH|].
  unfold env_line.
  replace ("ENV " ++ fst e ++ "=" ++ dq ++ snd e ++ dq)
    with (("ENV " ++ fst e ++ "=" ++ dq ++ snd e)
            ++ String "034"%char EmptyString)
    by (rewrite !app_assoc; reflexivity).
  rewrite last_char_app. discriminate.
Qed.

Lemma env_lines_count (env : list (string * string)) :
  Forall (fun e => nonl (fst e) = true /\ nonl (snd e) = true) env ->
  count_lines env_instruction (join nl (map env_line env))
  = List.length env.
Proof.
  intros F. rewrite count_lines_join;
    [|discriminate|apply env_lines_nonl, F].
  clear F. induction env as [|e env IH]; [reflexivity|].
  cbn [map filter].
  replace (matches env_instruction (env_line e)) with true by reflexivity.
  cbn [List.length]. rewrite IH. reflexivity.
Qed.

Lemma sym_count_tree_eq (m : marker) (t : tree) (v v' : nat) :
  sym_count m (flatten t) = Some v' -> pieces_ok m (flatten t) ->
  v' = v -> count_lines m (text_tree t) = v.
Proof. intros H Ok <-. apply sym_count_tree; assumption. Qed.

(** As [count_pieces], for a count that depends on the counts of the
    blocks. *)
Ltac count_pieces_upto tac :=
  lines_known; cbv beta iota zeta;
  lazymatch goal with
  | |- count_lines ?m ?t = ?v =>
      let tr := reify m t in
      change (count_lines m (text_tree tr) = v);
      eapply sym_count_tree_eq; [vm_compute; reflexivity|pieces_side|tac]
  end.

Lemma ts_dockerfile_counts (p : DockerfileParams) :
  plain_params p = true ->
  count_lines from_line (generateTypeScriptDockerfile p) = 1 /\
  count_lines workdir_line (generateTypeScriptDockerfile p) = 1 /\
  count_lines cmd_line (generateTypeScriptDockerfile p) = 1 /\
  count_lines entrypoint_line (generateTypeScriptDockerfile p) = 0 /\
  count_lines transport_line (generateTypeScriptDockerfile p)
  = (if or_default (includeBackwardCompatibility p) false then 1 else 0) /\
  count_lines env_instruction (generateTypeScriptDockerfile p)
  = List.length (or_default (environmentVars p) [])
    + (if or_default (includeBackwardCompatibility p) false then 1 else 0).
Proof.
  intros P.
  destruct (plain_params_parts p P)
    as (N1 & N2 & N3 & N4 & N5 & N6 & N7 & N8 & N9 & Fp & Fe).
  unfold generateTypeScriptDockerfile.
  assert (Ncmd : nonl (join (dq ++ ", " ++ dq)
                         (split_on " "%char
                            (str_or (startCommand p)
                               ("node " ++ or_default (outputDir p) "dist"
                                  ++ "/index.js")))) = true).
  { apply nonl_join; [reflexivity|]. apply nonl_split_on.
    apply nonl_str_or; [exact N4|auto 20 with nonl]. }
  pose proof (nonl_join " " _ eq_refl Fp) as Npk.
  pose proof (env_lines_of _ Fe) as Le.
  pose proof (env_lines_not_transport _ Fe) as Te.
  pose proof (env_lines_count _ Fe) as Ce.
  destruct (or_default (additionalPackages p) []) as [|a pk];
    destruct (or_default (environmentVars p) []) as [|e env];
    destruct (or_default (includeBackwardCompatibility p) false);
    cbn [List.length Nat.ltb Nat.leb] in *;
    repeat split; try count_pieces.
  all: remember (S (List.length env)) as k eqn:Hk; clear Hk.
  all: count_pieces_upto
         ltac:(clear; induction k as [|k IH];
               [reflexivity|cbn in *; rewrite IH; reflexivity]).
Qed.

Lemma py_dockerfile_counts (p : DockerfileParams) :
  plain_params p = true ->
  count_lines from_line (generatePythonDockerfile p) = 1 /\
  count_lines workdir_line (generatePythonDockerfile p) = 1 /\
  count_lines cmd_line (generatePythonDockerfile p) = 1 /\
  count_lines entrypoint_line (generatePythonDockerfile p)
  = (if or_default (useUv p) true then 1 else 0) /\
  count_lines transport_line (generatePythonDockerfile p)
  = (if or_default (includeBackwardCompatibility p) false then 1 else 0) /\
  count_lines env_instruction (generatePythonDockerfile p)
  = List.length (or_default (environmentVars p) [])
    + (if or_default (includeBackwardCompatibility p) false then 1 else 0)
    + (if or_default (useUv p) true then 3 else 0).
Proof.
  intros P.
  destruct (plain_params_parts p P)
    as (N1 & N2 & N3 & N4 & N5 & N6 & N7 & N8 & N9 & Fp & Fe).
  unfold generatePythonDockerfile.
  pose proof (nonl_join " " _ eq_refl Fp) as Npk.
  pose proof (env_lines_of _ Fe) as Le.
  pose proof (env_lines_not_transport _ Fe) as Te.
  pose proof (env_lines_count _ Fe) as Ce.
  destruct (or_default (additionalPackages p) []) as [|a pk];
    destruct (or_default (environmentVars p) []) as [|e env];
    destruct (or_default (includeBackwardCompatibility p) false);
    destruct (or_default (useUv p) true);
    cbn [List.length Nat.ltb Nat.leb] in *;
    repeat split; try count_pieces.
  all: remember (S (List.length env)) as k eqn:Hk; clear Hk.
  all: count_pieces_upto
         ltac:(clear; induction k as [|k IH];
               [reflexivity|cbn in *; rewrite IH; reflexivity]).
Qed.

(** *** The last line *)

Definition last_line (s : string) : string := last (split_nl s) EmptyString.

Lemma last_of_app {A : Type} (l1 l2 : list A) (d : A) :
  l2 <> [] -> last (l1 ++ l2)%list d = last l2 d.
Proof.
  intros H. induction l1 as [|x l1 IH]; [reflexivity|].
  cbn [List.app]. destruct (l1 ++ l2)%list eqn:E.
  - destruct l1; [cbn in E; congruence|discriminate].
  - rewrite <- IH. reflexivity.
Qed.

Lemma last_line_app_nl (a b : string) :
  last_line (a ++ String "010"%char b) = last_line b.
Proof.
  unfold last_line. rewrite split_nl_app_nl.
  apply last_of_app, split_nl_nonempty.
Qed.

Lemma last_line_nonl (l : string) : nonl l = true -> last_line l = l.
Proof. intros H. unfold last_line. rewrite (split_nl_nonl _ H). reflexivity. Qed.

Definition ends_with_line (l whole : string) : Prop :=
  exists pre, whole = pre ++ String "010"%char l.

Lemma ends_app_r (l a b : string) :
  ends_with_line l b -> ends_with_line l (a ++ b).
Proof. intros (pre & ->). exists (a ++ pre). rewrite app_assoc. reflexivity. Qed.

Lemma ends_with_last_line (l whole : string) :
  nonl l = true -> ends_with_line l whole -> last_line whole = l.
Proof.
  intros Hl (pre & ->). rewrite last_line_app_nl. apply last_line_nonl, Hl.
Qed.

(** The start command of the TypeScript container, and the last line
    of each Dockerfile. *)
Definition start_command (p : DockerfileParams) : string :=
  str_or (startCommand p)
    ("node " ++ or_default (outputDir p) "dist" ++ "/index.js").

Definition cmd_text (p : DockerfileParams) : string :=
  if String.eqb (containerType p) "ts-custom-container" then
    "CMD [" ++ dq
      ++ join (dq ++ ", " ++ dq) (split_on " "%char (start_command p))
      ++ dq ++ "]"
  else
    "CMD [" ++ dq ++ "python" ++ dq ++ ", " ++ dq
      ++ or_default (pythonMainFile p) "src/main.py" ++ dq ++ "]".

Ltac find_last_line :=
  first [ solve [exists "# Start the HTTP server"; reflexivity]
        | apply ends_app_r; find_last_line ].

Lemma ts_dockerfile_last_line (p : DockerfileParams) :
  ends_with_line
    ("CMD [" ++ dq
       ++ join (dq ++ ", " ++ dq) (split_on " "%char (start_command p))
       ++ dq ++ "]")
    (generateTypeScriptDockerfile p).
Proof.
  unfold generateTypeScriptDockerfile, start_command. cbv beta iota zeta.
  find_last_line.
Qed.

Lemma py_dockerfile_last_line (p : DockerfileParams) :
  ends_with_line
    ("CMD [" ++ dq ++ "python" ++ dq ++ ", " ++ dq
       ++ or_default (pythonMainFile p) "src/main.py" ++ dq ++ "]")
    (generatePythonDockerfile p).
Proof.
  unfold generatePythonDockerfile. cbv beta iota zeta.
  destruct (or_default (useUv p) true); find_last_line.
Qed.

Lemma nonl_ts_cmd (p : DockerfileParams) :
  plain_params p = true ->
  nonl ("CMD [" ++ dq
          ++ join (dq ++ ", " ++ dq) (split_on " "%char (start_command p))
          ++ dq ++ "]") = true.
Proof.
  intros P.
  destruct (plain_params_parts p P)
    as (N1 & N2 & N3 & N4 & N5 & N6 & N7 & N8 & N9 & Fp & Fe).
  assert (nonl (join (dq ++ ", " ++ dq)
                  (split_on " "%char (start_command p))) = true).
  { apply nonl_join; [reflexivity|]. apply nonl_split_on.
    apply nonl_str_or; [exact N4|auto 20 with nonl]. }
  auto 20 with nonl.
Qed.

Lemma nonl_py_cmd (p : DockerfileParams) :
  plain_params p = true ->
  nonl ("CMD [" ++ dq ++ "python" ++ dq ++ ", " ++ dq
          ++ or_default (pythonMainFile p) "src/main.py" ++ dq ++ "]") = true.
Proof.
  intros P.
  destruct (plain_params_parts p P)
    as (N1 & N2 & N3 & N4 & N5 & N6 & N7 & N8 & N9 & Fp & Fe).
  auto 20 with nonl.
Qed.

Definition sample_params : DockerfileParams :=
  {| containerType := "ts-custom-container";
     serverName := Some "demo";
     nodeVersion := Some "20";
     pythonVersion := None;
     buildCommand := None;
     startCommand := Some "node dist/server.js --port 8081";
     sourceDir := None;
     outputDir := None;
     packageManager := Some "pnpm";
     pythonMainFile := None;
     requirementsFile := None;
     useUv := None;
     workingDir := None;
     additionalPackages := Some ["git"; "curl"];
     environmentVars := Some [("NODE_ENV", "production"); ("LOG", "info")];
     includeBackwardCompatibility := Some true |}.

Lemma dockerfile_last_line (p : DockerfileParams) (out : string) :
  plain_params p = true ->
  generateDockerfile p = Ok out -> last_line out = cmd_text p.
Proof.
  intros P. unfold generateDockerfile, cmd_text.
  destruct (String.eqb (containerType p) "ts-custom-container").
  - intros H. injection H as <-.
    apply ends_with_last_line;
      [apply nonl_ts_cmd, P|apply ts_dockerfile_last_line].
  - destruct (String.eqb (containerType p) "py-custom-container");
      [|discriminate].
    intros H. injection H as <-.
    apply ends_with_last_line;
      [apply nonl_py_cmd, P|apply py_dockerfile_last_line].
Qed.

(** X1: every Dockerfile has one base image, one working directory and one
    command, and the command is its last line. *)
Theorem dockerfile_one_stage_cmd_last (p : DockerfileParams) (out : string) :
  plain_params p = true ->
  generateDockerfile p = Ok out ->
  count_lines from_line out = 1 /\
  count_lines workdir_line out = 1 /\
  count_lines cmd_line out = 1 /\
  last_line out = cmd_text p.
Proof.
  intros P H. pose proof (dockerfile_last_line p out P H) as L.
  revert H. unfold generateDockerfile.
  destruct (String.eqb (containerType p) "ts-custom-container").
  - intros H. injection H as <-.
    destruct (ts_dockerfile_counts p P) as (C1 & C2 & C3 & _). auto.
  - destruct (String.eqb (containerType p) "py-custom-container");
      [|discriminate].
    intros H. injection H as <-.
    destruct (py_dockerfile_counts p P) as (C1 & C2 & C3 & _). auto.
Qed.

Lemma dockerfile_one_stage_cmd_last_witness :
  exists out,
    generateDockerfile sample_params = Ok out /\
    count_lines from_line out = 1 /\
    last_line out
    = "CMD [" ++ dq ++ "node" ++ dq ++ ", " ++ dq ++ "dist/server.js" ++ dq
        ++ ", " ++ dq ++ "--port" ++ dq ++ ", " ++ dq ++ "8081" ++ dq ++ "]".
Proof.
  eexists. split; [reflexivity|].
  destruct (dockerfile_one_stage_cmd_last sample_params _ eq_refl eq_refl)
    as (C1 & _ & _ & L).
  split; [exact C1|exact L].
Defined.

(** X2: the line that forces the HTTP transport is written exactly when
    backward compatibility is asked for, whatever the variables of the
    environment are. *)
Theorem dockerfile_transport_gating (p : DockerfileParams) (out : string) :
  plain_params p = true ->
  generateDockerfile p = Ok out ->
  count_lines transport_line out
  = (if or_default (includeBackwardCompatibility p) false then 1 else 0).
Proof.
  intros P. unfold generateDockerfile.
  destruct (String.eqb (containerType p) "ts-custom-container").
  - intros H. injection H as <-. apply (ts_dockerfile_counts p P).
  - destruct (String.eqb (containerType p) "py-custom-container");
      [|discriminate].
    intros H. injection H as <-. apply (py_dockerfile_counts p P).
Qed.

Lemma dockerfile_transport_gating_witness :
  exists out,
    generateDockerfile sample_params = Ok out /\
    count_lines transport_line out = 1.
Proof.
  eexists. split; [reflexivity|].
  exact (dockerfile_transport_gating sample_params _ eq_refl eq_refl).
Defined.

(** The fixed ENV instructions of a Dockerfile of the
    (three of the uv image, one for the transport). *)
Definition fixed_env_instructions (p : DockerfileParams) : nat :=
  (if or_default (includeBackwardCompatibility p) false then 1 else 0)
  + (if String.eqb (containerType p) "ts-custom-container" then 0
     else if or_default (useUv p) true then 3 else 0).

Lemma ts_dockerfile_env_block (p : DockerfileParams) :
  or_default (environmentVars p) [] <> [] ->
  contains (join nl (map env_line (or_default (environmentVars p) [])))
    (generateTypeScriptDockerfile p).
Proof.
  unfold generateTypeScriptDockerfile. cbv beta iota zeta.
  destruct (or_default (environmentVars p) []) as [|e env]; [congruence|].
  intros _. cbn [List.length Nat.ltb Nat.leb]. find_part.
Qed.

Lemma py_dockerfile_env_block (p : DockerfileParams) :
  or_default (environmentVars p) [] <> [] ->
  contains (join nl (map env_line (or_default (environmentVars p) [])))
    (generatePythonDockerfile p).
Proof.
  unfold generatePythonDockerfile. cbv beta iota zeta.
  destruct (or_default (environmentVars p) []) as [|e env]; [congruence|].
  intros _. cbn [List.length Nat.ltb Nat.leb].
  destruct (or_default (useUv p) true); find_part.
Qed.

(** X3: a Dockerfile has one ENV instruction per variable of the
    environment, next to the fixed ones, and the instructions of the
    variables stand together in the order of the variables. *)
Theorem dockerfile_env_instructions (p : DockerfileParams) (out : string) :
  plain_params p = true ->
  generateDockerfile p = Ok out ->
  count_lines env_instruction out
  = List.length (or_default (environmentVars p) [])
    + fixed_env_instructions p
  /\ (or_default (environmentVars p) [] <> [] ->
      contains (join nl (map env_line (or_default (environmentVars p) [])))
        out).
Proof.
  intros P. unfold generateDockerfile, fixed_env_instructions.
  destruct (String.eqb (containerType p) "ts-custom-container").
  - intros H. injection H as <-.
    destruct (ts_dockerfile_counts p P) as (_ & _ & _ & _ & _ & C).
    split; [rewrite C; lia|apply ts_dockerfile_env_block].
  - destruct (String.eqb (containerType p) "py-custom-container");
      [|discriminate].
    intros H. injection H as <-.
    destruct (py_dockerfile_counts p P) as (_ & _ & _ & _ & _ & C).
    split; [rewrite C; lia|apply py_dockerfile_env_block].
Qed.

Lemma dockerfile_env_instructions_witness :
  exists out,
    generateDockerfile sample_params = Ok out /\
    count_lines env_instruction out = 3 /\
    contains ("ENV NODE_ENV=" ++ dq ++ "production" ++ dq ++ nl
                ++ "ENV LOG=" ++ dq ++ "info" ++ dq) out.
Proof.
  eexists. split; [reflexivity|].
  destruct (dockerfile_env_instructions sample_params _ eq_refl eq_refl)
    as (C & B).
  split; [exact C|]. apply B. discriminate.
Defined.

(** X4: generateDockerfile throws for exactly the container types that
    getContainerTypeDescription does not know, and names the type in
    the error. *)
Theorem dockerfile_unsupported_type (p : DockerfileParams) :
  (getContainerTypeDescription (containerType p) = "Unknown container type"
   /\ generateDockerfile p
      = Throw (Error ("Unsupported container type: " ++ containerType p)))
  \/ (getContainerTypeDescription (containerType p)
      <> "Unknown container type"
      /\ (containerType p = "ts-custom-container"
          \/ containerType p = "py-custom-container")
      /\ exists out, generateDockerfile p = Ok out).
Proof.
  unfold generateDockerfile, getContainerTypeDescription.
  destruct (String.eqb (containerType p) "ts-custom-container") eqn:E1.
  - right. apply String.eqb_eq in E1.
    split; [discriminate|]. split; [left; exact E1|]. eexists. reflexivity.
  - destruct (String.eqb (containerType p) "py-custom-container") eqn:E2.
    + right. apply String.eqb_eq in E2.
      split; [discriminate|]. split; [right; exact E2|]. eexists. reflexivity.
    + left. split; reflexivity.
Qed.

(** *** The words of the start command *)

Definition no_sep (c : ascii) (s : string) : bool :=
  forall_chars (fun x => negb (Ascii.eqb x c)) s.

Lemma split_on_app_sep (c : ascii) (a b : string) :
  split_on c (a ++ String c b) = (split_on c a ++ split_on c b)%list.
Proof.
  induction a as [|x a IH]; cbn [append split_on].
  - rewrite Ascii.eqb_refl. reflexivity.
  - rewrite IH. destruct (Ascii.eqb x c); [reflexivity|].
    destruct (split_on c a) as [|l ls] eqn:E;
      [exfalso; exact (split_on_nonempty c a E)|reflexivity].
Qed.

Lemma split_on_no_sep (c : ascii) (s : string) :
  no_sep c s = true -> split_on c s = [s].
Proof.
  induction s as [|x s IH]; [reflexivity|].
  unfold no_sep. cbn [forall_chars split_on]. intros H.
  apply andb_prop in H as [Hx Hs]. apply negb_true_iff in Hx.
  rewrite Hx, (IH Hs). reflexivity.
Qed.

Lemma join_cons_char (sep : string) (x : ascii) (l : string)
    (ls : list string) :
  join sep (String x l :: ls) = String x (join sep (l :: ls)).
Proof. destruct ls; reflexivity. Qed.

Lemma join_split_on (c : ascii) (s : string) :
  join (String c EmptyString) (split_on c s) = s.
Proof.
  induction s as [|x s IH]; [reflexivity|].
  cbn [split_on]. destruct (Ascii.eqb x c) eqn:E.
  - apply Ascii.eqb_eq in E. subst x.
    destruct (split_on c s) as [|l ls] eqn:Es;
      [exfalso; exact (split_on_nonempty c s Es)|].
    change (join (String c EmptyString) (EmptyString :: l :: ls))
      with (String c (join (String c EmptyString) (l :: ls))).
    rewrite IH. reflexivity.
  - destruct (split_on c s) as [|l ls] eqn:Es;
      [exfalso; exact (split_on_nonempty c s Es)|].
    rewrite join_cons_char, IH. reflexivity.
Qed.

Lemma split_on_tokens (c : ascii) (s : string) :
  Forall (fun t => no_sep c t = true) (split_on c s).
Proof.
  induction s as [|x s IH]; [repeat constructor|].
  cbn [split_on]. destruct (Ascii.eqb x c) eqn:E.
  - constructor; [reflexivity|exact IH].
  - destruct (split_on c s) as [|l ls] eqn:Es;
      [exfalso; exact (split_on_nonempty c s Es)|].
    inversion IH; subst. constructor; [|assumption].
    unfold no_sep in *. cbn [forall_chars]. rewrite E. assumption.
Qed.

(** X5: the elements of the CMD array of the TypeScript container are the
    words of the start command: none holds a space, and put together
    with single spaces they give the start command back. *)
Theorem cmd_array_is_the_start_command (p : DockerfileParams)
    (out : string) :
  plain_params p = true ->
  containerType p = "ts-custom-container" ->
  generateDockerfile p = Ok out ->
  exists args,
    last_line out
    = "CMD [" ++ dq ++ join (dq ++ ", " ++ dq) args ++ dq ++ "]" /\
    Forall (fun a => no_sep " "%char a = true) args /\
    join " " args = start_command p.
Proof.
  intros P E H.
  pose proof (dockerfile_last_line p out P H) as L.
  exists (split_on " "%char (start_command p)).
  unfold cmd_text in L. rewrite E in L. cbn [String.eqb Ascii.eqb Bool.eqb] in L.
  split; [exact L|]. split; [apply split_on_tokens|apply join_split_on].
Qed.

Lemma cmd_array_is_the_start_command_witness :
  exists out args,
    generateDockerfile sample_params = Ok out /\
    last_line out
    = "CMD [" ++ dq ++ join (dq ++ ", " ++ dq) args ++ dq ++ "]" /\
    join " " args = "node dist/server.js --port 8081".
Proof.
  eexists.
  destruct (cmd_array_is_the_start_command sample_params _ eq_refl eq_refl
              eq_refl) as (args & L & _ & J).
  exists args. split; [reflexivity|]. split; [exact L|exact J].
Defined.

(** X6: without a start command (or with the empty one) the container runs
    the index of the output directory with node. *)
Theorem default_start_command (p : DockerfileParams) (out : string) :
  plain_params p = true ->
  containerType p = "ts-custom-container" ->
  opt_truthy (startCommand p) = false ->
  no_sep " "%char (or_default (outputDir p) "dist") = true ->
  generateDockerfile p = Ok out ->
  last_line out
  = "CMD [" ++ dq ++ "node" ++ dq ++ ", " ++ dq
      ++ or_default (outputDir p) "dist" ++ "/index.js" ++ dq ++ "]".
Proof.
  intros P E T S H.
  pose proof (dockerfile_last_line p out P H) as L.
  unfold cmd_text in L. rewrite E in L.
  cbn [String.eqb Ascii.eqb Bool.eqb] in L. rewrite L.
  unfold start_command.
  assert (R : str_or (startCommand p)
                ("node " ++ or_default (outputDir p) "dist" ++ "/index.js")
              = "node " ++ or_default (outputDir p) "dist" ++ "/index.js").
  { unfold str_or, opt_truthy in *. destruct (startCommand p) as [s|];
      [|reflexivity].
    destruct (String.eqb s EmptyString); [reflexivity|discriminate]. }
  rewrite R.
  change ("node " ++ or_default (outputDir p) "dist" ++ "/index.js")
    with ("node" ++ String " "%char
                      (or_default (outputDir p) "dist" ++ "/index.js")).
  rewrite split_on_app_sep.
  rewrite (split_on_no_sep " "%char "node") by reflexivity.
  rewrite (split_on_no_sep " "%char
             (or_default (outputDir p) "dist" ++ "/index.js")).
  - cbn [List.app join]. rewrite !app_assoc. reflexivity.
  - unfold no_sep in *. clear -S.
    induction (or_default (outputDir p) "dist") as [|x s IH];
      [reflexivity|].
    cbn [append forall_chars] in *. apply andb_prop in S as [Hx Hs].
    rewrite Hx, (IH Hs). reflexivity.
Qed.

Definition bare_params : DockerfileParams :=
  {| containerType := "ts-custom-container";
     serverName := None; nodeVersion := None; pythonVersion := None;
     buildCommand := None; startCommand := Some EmptyString;
     sourceDir := None; outputDir := Some "build";
     packageManager := None; pythonMainFile := None;
     requirementsFile := None; useUv := None; workingDir := None;
     additionalPackages := None; environmentVars := None;
     includeBackwardCompatibility := None |}.

Lemma default_start_command_witness :
  exists out,
    generateDockerfile bare_params = Ok out /\
    last_line out
    = "CMD [" ++ dq ++ "node" ++ dq ++ ", " ++ dq ++ "build/index.js" ++ dq
        ++ "]".
Proof.
  eexists. split; [reflexivity|].
  exact (default_start_command bare_params _ eq_refl eq_refl eq_refl eq_refl
           eq_refl).
Defined.

End DockerFacts.

(* ================================================================= *)
(** ** What the generators register, for lists of any length *)

Module EmissionFacts.
Import StrFacts Lines DispatchFacts ScanFacts ToolsFacts Pieces TemplateFacts.
Import DockerFacts.

(** The lines that register a prompt or a resource, and the comments
    that stand for the ones left to the developer. *)
Definition prompt_registration : marker :=
  {| m_mode := Exact; m_text := "  server.registerPrompt(" |}.
Definition resource_registration : marker :=
  {| m_mode := Exact; m_text := "  server.registerResource(" |}.
Definition prompt_todo_text : string :=
  Eval cbv in ("  // TODO: Register prompt " ++ dq).
Definition resource_todo_text : string :=
  Eval cbv in ("  // TODO: Register resource " ++ dq).
Definition prompt_todo : marker :=
  {| m_mode := Prefix; m_text := prompt_todo_text |}.
Definition resource_todo : marker :=
  {| m_mode := Prefix; m_text := resource_todo_text |}.

Lemma count_lines_all_match (m : marker) (lines : list string) :
  m_text m <> EmptyString ->
  Forall (fun l => nonl l = true /\ matches m l = true) lines ->
  count_lines m (join nl lines) = List.length lines.
Proof.
  intros HM F. rewrite count_lines_join; [|exact HM|].
  - induction F as [|x rest [_ Hx] F IH]; [reflexivity|].
    cbn [filter]. rewrite Hx. cbn [List.length]. rewrite IH. reflexivity.
  - eapply Forall_impl; [|exact F]. intros l [H _]. exact H.
Qed.

Lemma todo_tools_count (l : list McpTool.t) :
  Forall (fun t => plain_tool t = true) l ->
  count_lines todo_line
    (join nl
       (map (fun tool =>
               "  // TODO: Register tool " ++ dq ++ McpTool.name tool
                 ++ dq ++ " - " ++ McpTool.description tool) l))
  = List.length l.
Proof.
  intros F. rewrite count_lines_all_match; [apply length_map|discriminate|].
  apply Forall_map. eapply Forall_impl; [|exact F].
  intros t Ht. destruct (plain_tool_parts _ Ht) as (N & D & _).
  split; [auto 20 with nonl|].
  exact (startsWith_refl_app todo_text
           (McpTool.name t ++ dq ++ " - " ++ McpTool.description t)).
Qed.

Lemma todo_prompts_count (l : list McpPrompt.t) :
  Forall (fun p => plain_prompt p = true) l ->
  count_lines prompt_todo
    (join nl
       (map (fun prompt =>
               "  // TODO: Register prompt " ++ dq ++ McpPrompt.name prompt
                 ++ dq ++ " - " ++ McpPrompt.description prompt) l))
  = List.length l.
Proof.
  intros F. rewrite count_lines_all_match; [apply length_map|discriminate|].
  apply Forall_map. eapply Forall_impl; [|exact F].
  intros q Hq. destruct (plain_prompt_parts _ Hq) as (N & D & _).
  split; [auto 20 with nonl|].
  exact (startsWith_refl_app prompt_todo_text
           (McpPrompt.name q ++ dq ++ " - " ++ McpPrompt.description q)).
Qed.

Lemma todo_resources_count (l : list McpResource.t) :
  Forall (fun r => plain_resource r = true) l ->
  count_lines resource_todo
    (join nl
       (map (fun resource =>
               "  // TODO: Register resource " ++ dq
                 ++ McpResource.name resource ++ dq ++ " - "
                 ++ McpResource.description resource ++ " ("
                 ++ McpResource.uri resource ++ ")") l))
  = List.length l.
Proof.
  intros F. rewrite count_lines_all_match; [apply length_map|discriminate|].
  apply Forall_map. eapply Forall_impl; [|exact F].
  intros r Hr. destruct (plain_resource_parts _ Hr) as (N & U & D & _).
  split; [auto 20 with nonl|].
  exact (startsWith_refl_app resource_todo_text
           (McpResource.name r ++ dq ++ " - " ++ McpResource.description r
              ++ " (" ++ McpResource.uri r ++ ")")).
Qed.

(** The sum that a run over pieces leaves, for a block of [k] lines. *)
Ltac sum_of k :=
  first [ reflexivity
        | clear; induction k as [|k IH];
          [reflexivity|cbn in *; rewrite IH; reflexivity] ].

Lemma resources_first_only `{CM : CaseMapping} (resources : list McpResource.t) :
  Forall (fun r => plain_resource r = true) resources ->
  count_lines resource_registration (generateResourcesCode resources)
  = Nat.min 1 (List.length resources) /\
  count_lines resource_todo (generateResourcesCode resources)
  = List.length resources - 1.
Proof.
  intros F. unfold generateResourcesCode.
  destruct resources as [|r1 rest]; [split; vm_compute; reflexivity|].
  inversion F as [|? ? P1 F']; subst.
  destruct (plain_resource_parts _ P1) as (N & U & D & T).
  pose proof (todo_resource_lines _ F') as L.
  pose proof (todo_resources_count _ F') as C.
  destruct rest as [|r2 rest];
    cbn [List.length Nat.ltb Nat.leb tl Nat.sub Nat.min] in *;
    destruct (startsWith "https://" (McpResource.uri r1));
    split; try count_pieces.
  all: remember (List.length rest) as k eqn:Hk; clear Hk.
  all: unfold resource_todo_text in *.
  all: count_pieces_upto ltac:(sum_of k).
Qed.

Lemma prompts_first_only (prompts : list McpPrompt.t) :
  Forall (fun p => plain_prompt p = true) prompts ->
  exists out,
    generatePromptsCode prompts = Ok out /\
    count_lines prompt_registration out = Nat.min 1 (List.length prompts) /\
    count_lines prompt_todo out = List.length prompts - 1.
Proof.
  intros F. unfold generatePromptsCode.
  destruct prompts as [|p1 rest].
  { eexists. split; [reflexivity|]. split; vm_compute; reflexivity. }
  inversion F as [|? ? P1 F']; subst.
  destruct (plain_prompt_parts _ P1) as (N & D & T & W & S).
  pose proof (todo_prompt_lines _ F') as L.
  pose proof (todo_prompts_count _ F') as C.
  assert (Z : exists a,
             (if truthy (McpPrompt.argsSchema p1) then
                schemaString <-
                  generateZodSchemaFromJson (McpPrompt.argsSchema p1)
                    "        " ;;
                Ok ("      argsSchema: {
" ++ schemaString ++ "
      }")
              else Ok ("      argsSchema: {}")) = Ok a
             /\ count_lines prompt_registration a = 0
             /\ count_lines prompt_todo a = 0).
  { destruct (truthy (McpPrompt.argsSchema p1)) eqn:E.
    - destruct (generateZodSchemaFromJson_comma_lines
                  (McpPrompt.argsSchema p1) "        "
                  (truthy_non_nullish _ E) W S) as (lines & Hz & Fz).
      rewrite Hz. cbn [bind]. eexists. split; [reflexivity|].
      split; count_pieces.
    - eexists. split; [reflexivity|]. split; vm_compute; reflexivity. }
  destruct Z as (a & Ha & A1 & A2). rewrite Ha. cbn [bind].
  eexists. split; [reflexivity|].
  destruct rest as [|p2 rest];
    cbn [List.length Nat.ltb Nat.leb tl Nat.sub Nat.min] in *;
    split; try count_pieces.
  all: remember (List.length rest) as k eqn:Hk; clear Hk.
  all: count_pieces_upto ltac:(sum_of k).
Qed.

Lemma Cli_tools_first_only (tools : list McpTool.t) (hasConfig : bool) :
  Forall (fun t => plain_tool t = true) tools ->
  exists out,
    Cli.generateToolsCode tools hasConfig = Ok out /\
    count_lines registration_line out = Nat.min 1 (List.length tools) /\
    count_lines todo_line out = List.length tools - 1.
Proof.
  intros F. unfold Cli.generateToolsCode.
  destruct tools as [|t1 rest].
  { eexists. split; [reflexivity|]. split; vm_compute; reflexivity. }
  inversion F as [|? ? P1 F']; subst.
  destruct (plain_tool_parts _ P1) as (N & D & W & S).
  pose proof (todo_tool_lines _ F') as L.
  pose proof (todo_tools_count _ F') as C.
  assert (Z : exists a,
             (if truthy (McpTool.inputSchema t1) then
                schemaString <-
                  generateZodSchemaFromJson (McpTool.inputSchema t1)
                    "        " ;;
                Ok ("      inputSchema: {
" ++ schemaString ++ "
      }")
              else Ok ("      inputSchema: {}")) = Ok a
             /\ count_lines registration_line a = 0
             /\ count_lines todo_line a = 0).
  { destruct (truthy (McpTool.inputSchema t1)) eqn:E.
    - destruct (generateZodSchemaFromJson_comma_lines
                  (McpTool.inputSchema t1) "        "
                  (truthy_non_nullish _ E) W S) as (lines & Hz & Fz).
      rewrite Hz. cbn [bind]. eexists. split; [reflexivity|].
      split; count_pieces.
    - eexists. split; [reflexivity|]. split; vm_compute; reflexivity. }
  destruct Z as (a & Ha & A1 & A2). rewrite Ha. cbn [bind].
  eexists. split; [reflexivity|].
  destruct rest as [|t2 rest];
    cbn [List.length Nat.ltb Nat.leb tl Nat.sub Nat.min] in *;
    destruct hasConfig; split; try count_pieces.
  all: remember (List.length rest) as k eqn:Hk; clear Hk.
  all: count_pieces_upto ltac:(sum_of k).
Qed.

Definition sample_resources : list McpResource.t :=
  [ readme_resource;
    McpResource.mk "changelog" "file:///changelog.md" "The changes" None None;
    McpResource.mk "license" "file:///LICENSE" "The license" None None;
    McpResource.mk "logo" "https://example.com/logo.svg" "The logo"
      (Some "image/svg+xml") None ].

Definition sample_prompts : list McpPrompt.t :=
  [ summarize_prompt;
    McpPrompt.mk "translate" "Translate a text" VUndefined None ].

(** X7: whatever the number of tools, prompts and resources (strings
    of one line, well-formed schemas whose defaults can be printed),
    the TypeScript generators register the first one of each kind and
    leave every other one as a one-line [// TODO: Register ...]
    comment; with none of a kind they write neither. *)
Theorem first_only_for_every_length `{CM : CaseMapping}
    (tools : list McpTool.t) (prompts : list McpPrompt.t)
    (resources : list McpResource.t) (hasConfig : bool) :
  forallb plain_tool tools = true ->
  forallb plain_prompt prompts = true ->
  forallb plain_resource resources = true ->
  (exists out,
     Cli.generateToolsCode tools hasConfig = Ok out /\
     count_lines registration_line out = Nat.min 1 (List.length tools) /\
     count_lines todo_line out = List.length tools - 1) /\
  (exists out,
     generatePromptsCode prompts = Ok out /\
     count_lines prompt_registration out
     = Nat.min 1 (List.length prompts) /\
     count_lines prompt_todo out = List.length prompts - 1) /\
  count_lines resource_registration (generateResourcesCode resources)
  = Nat.min 1 (List.length resources) /\
  count_lines resource_todo (generateResourcesCode resources)
  = List.length resources - 1.
Proof.
  intros Ht Hp Hr. split; [|split].
  - apply Cli_tools_first_only, forallb_Forall, Ht.
  - apply prompts_first_only, forallb_Forall, Hp.
  - apply resources_first_only, forallb_Forall, Hr.
Qed.

Section With_first_only_for_every_length_witness.
#[local] Existing Instance ascii_mapping.

Lemma first_only_for_every_length_witness :
  (exists out,
     generatePromptsCode sample_prompts = Ok out /\
     count_lines prompt_registration out = 1 /\
     count_lines prompt_todo out = 1) /\
  count_lines resource_registration (generateResourcesCode sample_resources)
  = 1 /\
  count_lines resource_todo (generateResourcesCode sample_resources) = 3.
Proof.
  destruct (first_only_for_every_length three_tools sample_prompts
              sample_resources true eq_refl eq_refl eq_refl)
    as (_ & Hp & Hr).
  split; [exact Hp|exact Hr].
Defined.

End With_first_only_for_every_length_witness.

(** The decorators that register a prompt or a resource in the Python
    template. *)
Definition py_prompt_decorator : marker :=
  {| m_mode := Exact; m_text := "@mcp.prompt()" |}.
Definition py_resource_decorator : marker :=
  {| m_mode := Prefix; m_text := "@mcp.resource(" |}.
Definition py_requests_import : marker :=
  {| m_mode := Exact; m_text := "    import requests" |}.

Lemma blocks_count (m : marker) (k : nat) (blocks : list string) :
  m_text m <> EmptyString ->
  Forall (fun b => count_lines m b = k) blocks ->
  count_lines m (join (nl ++ nl) blocks) = k * List.length blocks.
Proof.
  intros HM F. rewrite count_lines_join_blocks by exact HM.
  rewrite (list_sum_const k), length_map; [reflexivity|].
  apply Forall_map. exact F.
Qed.

Lemma Python_prompts_all `{CM : CaseMapping} (prompts : list McpPrompt.t) :
  Forall (fun p => plain_prompt p = true) prompts ->
  count_lines py_prompt_decorator (Python.generatePythonPromptsCode prompts)
  = List.length prompts.
Proof.
  intros F. unfold Python.generatePythonPromptsCode.
  destruct prompts as [|p1 rest]; [vm_compute; reflexivity|].
  match goal with
  | |- context [join (nl ++ nl) (map ?f ?l)] =>
      assert (B : count_lines py_prompt_decorator
                    (join (nl ++ nl) (map f l)) = List.length l)
  end.
  { rewrite blocks_count with (k := 1);
      [rewrite length_map; apply Nat.mul_1_l|discriminate|].
    apply Forall_map. eapply Forall_impl; [|exact F]. intros q Hq.
    destruct (plain_prompt_parts _ Hq) as (N & D & T & _).
    count_pieces. }
  remember (List.length (p1 :: rest)) as k eqn:Hk. clear Hk.
  count_pieces_upto ltac:(sum_of k).
Qed.

Lemma Python_resources_all `{CM : CaseMapping} (resources : list McpResource.t) :
  Forall (fun r => plain_resource r = true) resources ->
  count_lines py_resource_decorator
    (Python.generatePythonResourcesCode resources)
  = List.length resources.
Proof.
  intros F. unfold Python.generatePythonResourcesCode.
  destruct resources as [|r1 rest]; [vm_compute; reflexivity|].
  match goal with
  | |- context [join (nl ++ nl) (map ?f ?l)] =>
      assert (B : count_lines py_resource_decorator
                    (join (nl ++ nl) (map f l)) = List.length l)
  end.
  { rewrite blocks_count with (k := 1);
      [rewrite length_map; apply Nat.mul_1_l|discriminate|].
    apply Forall_map. eapply Forall_impl; [|exact F]. intros r Hr.
    destruct (plain_resource_parts _ Hr) as (N & U & D & _).
    destruct (startsWith "https://" (McpResource.uri r)); count_pieces. }
  remember (List.length (r1 :: rest)) as k eqn:Hk. clear Hk.
  count_pieces_upto ltac:(sum_of k).
Qed.

(** X8: the custom-container TypeScript generator writes one
    [server.registerTool(] call for every tool it is given and no
    [// TODO: Register tool] line, and the Python generator writes one
    decorator for every tool, every prompt and every resource, whatever
    their number (strings of one line, well-formed schemas whose
    defaults can be printed). *)
Theorem container_and_python_register_all `{CM : CaseMapping}
    (tools : list McpTool.t) (prompts : list McpPrompt.t)
    (resources : list McpResource.t) (hasConfig : bool)
    (configSchema : value) :
  forallb plain_tool tools = true ->
  forallb plain_prompt prompts = true ->
  forallb plain_resource resources = true ->
  wf_schema configSchema = true -> single_line_schema configSchema = true ->
  (exists out,
     Container.generateCustomContainerToolsCode tools hasConfig = Ok out /\
     count_lines registration_line out = List.length tools /\
     count_lines todo_line out = 0) /\
  (exists out,
     Python.generatePythonToolsCode tools configSchema = Ok out /\
     count_lines decorator_line out = List.length tools) /\
  count_lines py_prompt_decorator (Python.generatePythonPromptsCode prompts)
  = List.length prompts /\
  count_lines py_resource_decorator
    (Python.generatePythonResourcesCode resources)
  = List.length resources.
Proof.
  intros Ht Hp Hr W S. split; [|split; [|split]].
  - destruct tools as [|t1 rest].
    + eexists. split; [reflexivity|]. split; vm_compute; reflexivity.
    + apply Container_tools_count; [discriminate|exact Ht].
  - destruct tools as [|t1 rest].
    + eexists. split; [reflexivity|]. vm_compute. reflexivity.
    + apply Python_tools_count; [discriminate|exact W|exact S|].
      apply forallb_forall. intros t Hin. apply plain_tool_python.
      rewrite forallb_forall in Ht. apply Ht, Hin.
  - apply Python_prompts_all, forallb_Forall, Hp.
  - apply Python_resources_all, forallb_Forall, Hr.
Qed.

Section With_container_and_python_register_all_witness.
#[local] Existing Instance ascii_mapping.

Lemma container_and_python_register_all_witness :
  count_lines py_prompt_decorator
    (Python.generatePythonPromptsCode sample_prompts) = 2 /\
  count_lines py_resource_decorator
    (Python.generatePythonResourcesCode sample_resources) = 4.
Proof.
  destruct (container_and_python_register_all three_tools sample_prompts
              sample_resources true flags_schema eq_refl eq_refl eq_refl
              eq_refl eq_refl) as (_ & _ & Hp & Hr).
  split; [exact Hp|exact Hr].
Defined.

End With_container_and_python_register_all_witness.

(** The call that fetches a resource in the TypeScript templates. *)
Definition fetch_call : marker :=
  {| m_mode := Exact;
     m_text := "        const response = await fetch(uri.href);" |}.

Definition is_https (r : McpResource.t) : bool :=
  startsWith "https://" (McpResource.uri r).

Lemma list_sum_indicator {A : Type} (f : A -> bool) (g : A -> nat)
    (l : list A) :
  Forall (fun x => g x = if f x then 1 else 0) l ->
  list_sum (map g l) = List.length (filter f l).
Proof.
  induction 1 as [|x l Hx F IH]; [reflexivity|].
  cbn [map list_sum fold_right filter]. fold (list_sum (map g l)).
  rewrite IH, Hx. destruct (f x); reflexivity.
Qed.

Lemma Python_resources_requests `{CM : CaseMapping} (resources : list McpResource.t) :
  Forall (fun r => plain_resource r = true) resources ->
  count_lines py_requests_import
    (Python.generatePythonResourcesCode resources)
  = List.length (filter is_https resources).
Proof.
  intros F. unfold Python.generatePythonResourcesCode.
  destruct resources as [|r1 rest]; [vm_compute; reflexivity|].
  match goal with
  | |- context [join (nl ++ nl) (map ?f ?l)] =>
      assert (B : count_lines py_requests_import
                    (join (nl ++ nl) (map f l))
                  = List.length (filter is_https l))
  end.
  { rewrite count_lines_join_blocks by discriminate.
    rewrite map_map. apply list_sum_indicator.
    eapply Forall_impl; [|exact F]. intros r Hr.
    destruct (plain_resource_parts _ Hr) as (N & U & D & _).
    unfold is_https.
    destruct (startsWith "https://" (McpResource.uri r)); count_pieces. }
  remember (List.length (filter is_https (r1 :: rest))) as k eqn:Hk.
  clear Hk. count_pieces_upto ltac:(sum_of k).
Qed.

Lemma resources_fetch `{CM : CaseMapping} (resources : list McpResource.t) :
  Forall (fun r => plain_resource r = true) resources ->
  count_lines fetch_call (generateResourcesCode resources)
  = match resources with
    | r :: _ => if is_https r then 1 else 0
    | [] => 0
    end.
Proof.
  intros F. unfold generateResourcesCode, is_https.
  destruct resources as [|r1 rest]; [vm_compute; reflexivity|].
  inversion F as [|? ? P1 F']; subst.
  destruct (plain_resource_parts _ P1) as (N & U & D & T).
  pose proof (todo_resource_lines _ F') as L.
  destruct rest as [|r2 rest];
    cbn [List.length Nat.ltb Nat.leb tl] in *;
    destruct (startsWith "https://" (McpResource.uri r1)); count_pieces.
Qed.

(** X9: the TypeScript handler of the first resource fetches its URI
    exactly when the URI starts with [https://]; the Python template
    imports [requests] once for each resource whose URI does, and for
    no other. *)
Theorem https_resources_are_fetched `{CM : CaseMapping} (resources : list McpResource.t) :
  forallb plain_resource resources = true ->
  count_lines fetch_call (generateResourcesCode resources)
  = match resources with
    | r :: _ => if is_https r then 1 else 0
    | [] => 0
    end
  /\ count_lines py_requests_import
       (Python.generatePythonResourcesCode resources)
     = List.length (filter is_https resources).
Proof.
  intros H. apply forallb_Forall in H. split.
  - apply resources_fetch, H.
  - apply Python_resources_requests, H.
Qed.

Section With_https_resources_are_fetched_witness.
#[local] Existing Instance ascii_mapping.

Lemma https_resources_are_fetched_witness :
  count_lines fetch_call (generateResourcesCode sample_resources) = 1 /\
  count_lines py_requests_import
    (Python.generatePythonResourcesCode sample_resources) = 2.
Proof. exact (https_resources_are_fetched sample_resources eq_refl). Defined.

End With_https_resources_are_fetched_witness.

End EmissionFacts.

(* ================================================================= *)
(** ** More on sanitized identifiers *)

Module SlugFacts.
Import SanitizeFacts.

(** A letter or a digit of ASCII, in either case. *)
Definition is_alnum (c : ascii) : bool :=
  is_lower c || is_upper c || is_digit c.

Definition has_alnum (s : string) : bool :=
  negb (forall_chars (fun c => negb (is_alnum c)) s).

Definition all_dashes (s : string) : bool :=
  forall_chars (fun c => Ascii.eqb c dash) s.

Lemma length_map_chars (f : ascii -> ascii) (s : string) :
  String.length (map_chars f s) = String.length s.
Proof. induction s as [|c s IH]; cbn; [reflexivity|rewrite IH; reflexivity]. Qed.

Lemma length_collapse (s : string) :
  String.length (collapse_dashes s) <= String.length s.
Proof.
  induction s as [|c s IH]; [apply le_n|].
  cbn [collapse_dashes]. destruct (Ascii.eqb c dash).
  - destruct s as [|d s]; [apply le_n|].
    destruct (Ascii.eqb d dash); cbn [String.length] in *; lia.
  - cbn [String.length]. lia.
Qed.

Lemma length_strip_trailing (s : string) :
  String.length (strip_trailing_dash s) <= String.length s.
Proof.
  induction s as [|c s IH]; [apply le_n|].
  cbn [strip_trailing_dash]. destruct s as [|d s].
  - destruct (Ascii.eqb c dash); cbn; lia.
  - cbn [String.length] in *. lia.
Qed.

Lemma length_strip_leading (s : string) :
  String.length (strip_leading_dash s) <= String.length s.
Proof.
  destruct s as [|c s]; [apply le_n|].
  cbn [strip_leading_dash]. destruct (Ascii.eqb c dash); cbn; lia.
Qed.

Lemma strip_trailing_empty (s : string) :
  strip_trailing_dash s = EmptyString ->
  s = EmptyString \/ s = String dash EmptyString.
Proof.
  destruct s as [|c s]; [auto|].
  cbn [strip_trailing_dash]. destruct s as [|d s].
  - destruct (Ascii.eqb c dash) eqn:E; [|discriminate].
    apply Ascii.eqb_eq in E. subst c. auto.
  - discriminate.
Qed.

Lemma trim_empty (s : string) :
  no_double_dash s = true -> trim_dashes s = EmptyString ->
  s = EmptyString \/ s = String dash EmptyString.
Proof.
  intros Hn H. unfold trim_dashes in H.
  destruct s as [|c s]; [auto|]. cbn [strip_leading_dash] in H.
  destruct (Ascii.eqb c dash) eqn:E.
  - apply Ascii.eqb_eq in E. subst c.
    apply strip_trailing_empty in H. destruct H as [->| ->]; [auto|].
    cbn in Hn. discriminate.
  - apply strip_trailing_empty in H. destruct H as [H|H]; [discriminate|].
    injection H as -> _. cbn in E. discriminate.
Qed.

Lemma collapse_all_dashes (s : string) :
  all_dashes s = true ->
  collapse_dashes s = EmptyString
  \/ collapse_dashes s = String dash EmptyString.
Proof.
  induction s as [|c s IH]; [auto|].
  unfold all_dashes. cbn [forall_chars]. intros H.
  apply andb_prop in H as [Hc Hs]. specialize (IH Hs).
  cbn [collapse_dashes]. rewrite Hc.
  destruct s as [|d s]; [apply Ascii.eqb_eq in Hc; subst; auto|].
  unfold all_dashes in Hs. cbn [forall_chars] in Hs.
  apply andb_prop in Hs as [Hd _]. rewrite Hd. exact IH.
Qed.

Lemma collapse_keeps_others (s : string) :
  all_dashes (collapse_dashes s) = all_dashes s.
Proof.
  induction s as [|c s IH]; [reflexivity|].
  cbn [collapse_dashes]. destruct (Ascii.eqb c dash) eqn:E.
  - destruct s as [|d s]; [unfold all_dashes; cbn; rewrite E; reflexivity|].
    destruct (Ascii.eqb d dash) eqn:Ed.
    + rewrite IH. unfold all_dashes. cbn [forall_chars]. rewrite E, Ed.
      reflexivity.
    + unfold all_dashes in *. cbn [forall_chars] in *. rewrite E, Ed in *.
      rewrite IH. reflexivity.
  - unfold all_dashes. cbn [forall_chars]. rewrite E. reflexivity.
Qed.

Lemma is_alnum_lowered (c : ascii) :
  is_lower (lower_char c) || is_digit (lower_char c) = is_alnum c.
Proof.
  destruct c as [[] [] [] [] [] [] [] []]; reflexivity.
Qed.

Lemma ascii_replaced_all_dashes (s : string) :
  all_dashes (replace_non_alnum (ascii_lower s)) = negb (has_alnum s).
Proof.
  unfold has_alnum. rewrite negb_involutive.
  induction s as [|c s IH]; [reflexivity|].
  unfold all_dashes, replace_non_alnum, ascii_lower in *.
  cbn [map_chars forall_chars]. rewrite IH. f_equal.
  rewrite <- is_alnum_lowered.
  destruct (lower_char c) as [[] [] [] [] [] [] [] []]; reflexivity.
Qed.

Lemma replaced_all_dashes `{CM : CaseMapping} (s : string) :
  is_ascii s = true ->
  all_dashes (replace_non_alnum (toLowerCase s)) = negb (has_alnum s).
Proof.
  intros Ha. rewrite (toLowerCase_ascii s Ha).
  apply ascii_replaced_all_dashes.
Qed.

Lemma all_dashes_short (s : string) :
  s = EmptyString \/ s = String dash EmptyString -> all_dashes s = true.
Proof. intros [->| ->]; reflexivity. Qed.

(** X10: a sanitized identifier is made of lower-case letters, digits
    and single dashes and neither starts nor ends with a dash, for every
    name and whatever [toLowerCase] does to the letters that are not of
    ASCII; for a name of ASCII it is never longer than the name. *)
Theorem sanitizeId_is_a_short_slug `{CM : CaseMapping} (x : string) :
  slug (sanitizeId x) = true /\
  no_double_dash (sanitizeId x) = true /\
  no_leading_dash (sanitizeId x) = true /\
  no_trailing_dash (sanitizeId x) = true /\
  (is_ascii x = true -> String.length (sanitizeId x) <= String.length x).
Proof.
  destruct (sanitizeId_shape x) as (H1 & H2 & H3 & H4).
  repeat (split; [assumption|]). intros Ha.
  unfold sanitizeId, trim_dashes.
  eapply Nat.le_trans; [apply length_strip_trailing|].
  eapply Nat.le_trans; [apply length_strip_leading|].
  eapply Nat.le_trans; [apply length_collapse|].
  rewrite (toLowerCase_ascii x Ha).
  unfold replace_non_alnum, ascii_lower. rewrite !length_map_chars.
  apply le_n.
Qed.

(** X11: for a name of ASCII, the sanitized identifier is empty exactly
    when the name holds no letter and no digit. *)
Theorem sanitizeId_empty_iff_no_alnum `{CM : CaseMapping} (x : string) :
  is_ascii x = true ->
  (sanitizeId x = EmptyString <-> has_alnum x = false).
Proof.
  intros Ha. unfold sanitizeId. split.
  - intros H. apply trim_empty in H; [|apply collapse_no_double].
    apply all_dashes_short in H. rewrite collapse_keeps_others in H.
    rewrite (replaced_all_dashes x Ha) in H. apply negb_true_iff in H.
    exact H.
  - intros H.
    assert (A : all_dashes (replace_non_alnum (toLowerCase x)) = true)
      by (rewrite (replaced_all_dashes x Ha), H; reflexivity).
    destruct (collapse_all_dashes _ A) as [-> | ->]; reflexivity.
Qed.

Section With_sanitizeId_empty_iff_no_alnum_witness.
#[local] Existing Instance ascii_mapping.

Lemma sanitizeId_empty_iff_no_alnum_witness :
  sanitizeId "?! (...) _" = EmptyString /\ sanitizeId "--v2--" = "v2".
Proof.
  split; [|reflexivity].
  apply (sanitizeId_empty_iff_no_alnum "?! (...) _"); reflexivity.
Defined.

End With_sanitizeId_empty_iff_no_alnum_witness.

End SlugFacts.

(* ================================================================= *)
(** ** The text of a migration overview (migration-overview.ts) *)

Module OverviewText.
Import Overview.

(** The callback of [filesNeeded.map] in formatMigrationOverview. *)
Definition file_entry (file : FileNeeded.t) : string :=
  "- **" ++ FileNeeded.filename file ++ "** " ++ (if FileNeeded.required file then "(Required)" else "(Optional)") ++ " " ++ (if FileNeeded.generated file then "(Generated)" else "(Manual)") ++ "
  " ++ FileNeeded.description file.

Definition formatMigrationOverview (overview : MigrationOverview) : string :=
  "# " ++ title overview ++ "

## Overview
" ++ description overview ++ "

## Prerequisites
" ++ join nl (map (fun prereq => "- " ++ prereq) (prerequisites overview)) ++ "

## Required Files
" ++ join nl (map file_entry (filesNeeded overview)) ++ "

## Project Structure
" ++ ProjectStructure.description (projectStructure overview) ++ "

```
" ++ ProjectStructure.structure (projectStructure overview) ++ "
```

## Deployment Steps
" ++ join nl (map (fun step => step) (deploymentSteps overview)) ++ "

## Additional Notes
" ++ join nl (map (fun note => note) (additionalNotes overview)) ++ "

## Next Steps
" ++ join nl (map (fun step => "- " ++ step) (nextSteps overview)).

End OverviewText.

(* ================================================================= *)
(** ** The report of the package.json validator
       (package-json-validation.ts) *)

Module Report.
Import PackageJson.

(** The callback of [result.requiredChanges.forEach]. *)
Definition change_entry (change : RequiredChange) : string :=
  let action :=
    if String.eqb (action change) "add" then "Add"
    else if String.eqb (action change) "modify" then "Update"
    else "Remove" in
  "- **" ++ action ++ "** `" ++ field change ++ "`: "
    ++ JSON_stringify (expected change).

Definition formatValidationResult (result : ValidationResult)
    (filePath : option string) : string :=
  let status := if isValid result then "âœ… **Valid**" else "âŒ **Invalid**" in
  let sections : list string :=
    [status ++ " package.json validation"
       ++ (match filePath with
           | Some fp => if opt_truthy filePath then " for `" ++ fp ++ "`"
                        else EmptyString
           | None => EmptyString
           end)] in
  let sections :=
    if (0 <? List.length (errors result))%nat then
      (sections ++ ["## âŒ Errors (Must Fix)"]
         ++ map (fun error => ("- " ++ error)%string) (errors result))%list
    else sections in
  let sections :=
    if (0 <? List.length (requiredChanges result))%nat then
      (sections ++ ["## ðŸ”§ Required Changes"]
         ++ map change_entry (requiredChanges result))%list
    else sections in
  let sections :=
    if (0 <? List.length (warnings result))%nat then
      (sections ++ ["## âš ï¸ Warnings (Recommended)"]
         ++ map (fun warning => ("- " ++ warning)%string) (warnings result))%list
    else sections in
  let sections :=
    if (0 <? List.length (suggestions result))%nat then
      (sections ++ ["## ðŸ’¡ Suggestions"]
         ++ map (fun suggestion => ("- " ++ suggestion)%string)
              (suggestions result))%list
    else sections in
  let sections :=
    if isValid result then
      (sections ++ ["## âœ¨ Summary"; "Your package.json is ready for migration! Address any warnings above for optimal setup."])%list
    else
      (sections ++ ["## ðŸš¨ Next Steps"; "Fix the errors above before proceeding with migration. The required changes section shows exactly what needs to be updated."])%list in
  join (nl ++ nl) sections.

Section WithJsonParser.

(** The external [JSON.parse]; a syntax error is a thrown [Error]. *)
Variable JSON_parse : string -> result value.

(** The text of the TypeError that the engine throws. *)
Variable type_error_message : string.

(** [error instanceof Error ? error.message : String(error)] *)
Definition message (error : exn) : string :=
  match error with
  | Error m => m
  | TypeError => type_error_message
  end.

Definition validatePackageJson (packageJsonContent migrationPath : string)
    (filePath : option string) : string :=
  match
    (packageJson <- JSON_parse packageJsonContent ;;
     result <- performValidation packageJson migrationPath ;;
     Ok (formatValidationResult result filePath))
  with
  | Ok report => report
  | Throw error =>
      "**Invalid JSON Format**

" ++ (match filePath with Some fp => if opt_truthy filePath then "File: `" ++ fp ++ "`" else EmptyString | None => EmptyString end) ++ "

The package.json file contains invalid JSON syntax:
```
" ++ message error ++ "
```

Please fix the JSON syntax errors before proceeding with migration."
  end.

End WithJsonParser.

End Report.

(* ================================================================= *)
(** ** The tools of the server (index.ts, templates/index.ts) *)

Definition getMigrationModeDescription (migrationMode : string) : string :=
  if String.eqb migrationMode "ts-smithery-cli" then
    "TypeScript with Smithery CLI - Automatic deployment with STDIO backward compatibility"
  else if String.eqb migrationMode "ts-custom-container" then
    "TypeScript Custom Container - Full Docker control with Express HTTP server"
  else if String.eqb migrationMode "py-custom-container" then
    "Python Custom Container - FastMCP with custom middleware and Docker control"
  else "Unknown migration mode".

Module Server.

Section WithEngine.

Variable YAML_parse : string -> result value.

(** The text of the TypeError that the engine throws. *)
Variable type_error_message : string.

(** [error instanceof Error ? error.message : String(error)] *)
Definition message (error : exn) : string :=
  match error with
  | Error m => m
  | TypeError => type_error_message
  end.

(** What a call of a registered tool gives: the text of its answer, or
    the refusal of the arguments by the input schema of the tool, on
    which the server does not run the handler and answers with the
    protocol error InvalidParams (-32602). *)
Inductive tool_result : Type :=
| Answer (text : string)
| InvalidParams.

(** [z.record(z.any()).optional()]: an object that is no array, or
    nothing. *)
Definition optional_record (v : value) : bool :=
  match v with VUndefined | VObj _ => true | _ => false end.

(** The text that the handler of get_migration_overview returns. *)
Definition overview_handler (params : Overview.MigrationOverviewParams)
  : string :=
  match
    (overview <- Overview.generateMigrationOverview YAML_parse params ;;
     Ok (OverviewText.formatMigrationOverview overview))
  with
  | Ok formattedOverview => formattedOverview
  | Throw error => "Error generating migration overview: " ++ message error
  end.

(** The [z.enum] of [migrationPath] in MigrationOverviewToolSchema.  The
    other fields of the schema are the types of the parameters, and its
    default for a flag that is not given, [false], is the one that the
    generator gives it too. *)
Definition overview_paths : list string :=
  ["ts-smithery-cli"; "ts-custom-container"; "py-custom-container"].

(** The tool get_migration_overview as it is registered. *)
Definition overview_tool (params : Overview.MigrationOverviewParams)
  : tool_result :=
  if existsb (String.eqb (Overview.p_migrationPath params)) overview_paths
  then Answer (overview_handler params)
  else InvalidParams.

(** The text that the handler of the migration template tool returns. *)
Definition template_handler `{CM : CaseMapping} (migrationMode : string)
    (params : SmitheryMigrationParams) : string :=
  match generateMigrationTemplate YAML_parse migrationMode params with
  | Ok migrationCode =>
      let fileExtension := getFileExtension migrationMode in
      let modeDescription := getMigrationModeDescription migrationMode in
      "Generated " ++ modeDescription ++ " migration code:

```" ++ fileExtension ++ "
" ++ migrationCode ++ "
```"
  | Throw error =>
      "Error generating migration template: " ++ message error
  end.

(** The [z.enum] of [migrationMode] in UnifiedMigrationTemplateToolSchema. *)
Definition template_modes : list string :=
  ["ts-smithery-cli"; "ts-custom-container"; "py-custom-container"].

(** The input schema of the migration template tool, on the typed
    parameters: the mode is one of the enumeration, and the schema of a
    tool or of a prompt is a record when it is given. *)
Definition template_input_ok (migrationMode : string)
    (params : SmitheryMigrationParams) : bool :=
  existsb (String.eqb migrationMode) template_modes
  && forallb (fun t => optional_record (McpTool.inputSchema t)) (tools params)
  && forallb (fun q => optional_record (McpPrompt.argsSchema q))
       (prompts params).

(** The tool create_migration_template as it is registered. *)
Definition template_tool `{CM : CaseMapping} (migrationMode : string)
    (params : SmitheryMigrationParams) : tool_result :=
  if template_input_ok migrationMode params
  then Answer (template_handler migrationMode params)
  else InvalidParams.


End WithEngine.

End Server.

(* ================================================================= *)
(** ** Facts about the package.json validator and its report *)

Module ValidatorFacts.
Import PackageJson PackageJsonFacts DispatchFacts TemplateFacts.

Definition nerr (r : ValidationResult) : nat := List.length (errors r).
Definition nch (r : ValidationResult) : nat :=
  List.length (requiredChanges r).

(** The actions that the validators ask for. *)
Definition ok_action (c : RequiredChange) : Prop :=
  action c = "add" \/ action c = "modify".

(** One more error when the condition fails. *)
Definition miss (b : bool) : nat := if b then 0 else 1.

(** What a validator keeps: as many required changes as errors, with
    the actions above. *)
Definition paired (r : ValidationResult) : Prop :=
  nerr r = nch r /\ Forall ok_action (requiredChanges r).

Lemma paired_push (r : ValidationResult) (e : string) (c : RequiredChange) :
  paired r -> ok_action c -> paired (push_change (push_error r e) c).
Proof.
  intros [H F] Hc. unfold paired, nerr, nch in *.
  cbn [push_change push_error errors requiredChanges].
  rewrite !length_app. cbn [List.length]. split; [lia|].
  apply Forall_app. split; [exact F|]. constructor; [exact Hc|constructor].
Qed.

Lemma nerr_push (r : ValidationResult) (e : string) (c : RequiredChange) :
  nerr (push_change (push_error r e) c) = nerr r + 1.
Proof.
  unfold nerr. cbn [push_change push_error errors].
  rewrite length_app. reflexivity.
Qed.

(** A step of a validator: it returns, adds [n] errors and keeps the
    pairing. *)
Definition step_adds (r : ValidationResult) (n : nat)
    (res : result ValidationResult) : Prop :=
  exists r', res = Ok r' /\ nerr r' = nerr r + n /\ (paired r -> paired r').

Lemma step_adds_same (r : ValidationResult) : step_adds r 0 (Ok r).
Proof. exists r. split; [reflexivity|]. split; [lia|auto]. Qed.

Lemma step_adds_push (r : ValidationResult) (e : string)
    (c : RequiredChange) :
  ok_action c -> step_adds r 1 (Ok (push_change (push_error r e) c)).
Proof.
  intros Hc. eexists. split; [reflexivity|].
  split; [apply nerr_push|]. intros P. apply paired_push; assumption.
Qed.

Lemma nerr_push_warning (r : ValidationResult) (w : string) :
  nerr (push_warning r w) = nerr r.
Proof. reflexivity. Qed.

Lemma paired_push_warning (r : ValidationResult) (w : string) :
  paired r -> paired (push_warning r w).
Proof. intros H. exact H. Qed.

Lemma paired_push_suggestion (r : ValidationResult) (s : string) :
  paired r -> paired (push_suggestion r s).
Proof. intros H. exact H. Qed.

Lemma check_script_adds (scripts : value) (r : ValidationResult)
    (scriptName expectedCommand : string) :
  non_nullish scripts = true ->
  expectedCommand <> EmptyString ->
  printable (prop_of scripts scriptName) = true ->
  step_adds r
    (miss (strict_eq_str (prop_of scripts scriptName) expectedCommand))
    (check_script scripts r scriptName expectedCommand).
Proof.
  intros Hs Hc Hp. unfold check_script, prop_of in *.
  rewrite (get_non_nullish _ _ Hs). cbn [bind].
  destruct (truthy (lookup scriptName (own_entries scripts))) eqn:Et;
    cbn [negb].
  - destruct (strict_eq_str _ expectedCommand); cbn [negb miss].
    + apply step_adds_same.
    + unfold String_of. rewrite Hp. cbn [bind].
      apply step_adds_push. right. reflexivity.
  - assert (E : strict_eq_str (lookup scriptName (own_entries scripts))
                  expectedCommand = false).
    { destruct (lookup scriptName (own_entries scripts)); try reflexivity.
      cbn in Et |- *. apply negb_false_iff in Et.
      apply String.eqb_eq in Et. subst.
      destruct expectedCommand; [congruence|reflexivity]. }
    rewrite E. cbn [miss]. apply step_adds_push. left. reflexivity.
Qed.

(** A script that cannot be printed is an array or an object: it is
    truthy and not the expected command, and the message that quotes it
    cannot be built. *)
Lemma check_script_throws (scripts : value) (r : ValidationResult)
    (scriptName expectedCommand : string) :
  non_nullish scripts = true ->
  printable (prop_of scripts scriptName) = false ->
  check_script scripts r scriptName expectedCommand = Throw TypeError.
Proof.
  intros Hs Hp. unfold check_script, prop_of in *.
  rewrite (get_non_nullish _ _ Hs). cbn [bind].
  unfold String_of. rewrite Hp.
  destruct (lookup scriptName (own_entries scripts));
    try discriminate Hp; reflexivity.
Qed.

Lemma step_adds_bind (r : ValidationResult) (n m : nat)
    (a : result ValidationResult)
    (k : ValidationResult -> result ValidationResult) :
  step_adds r n a ->
  (forall r1, step_adds r1 m (k r1)) ->
  step_adds r (n + m) (bind a k).
Proof.
  intros (r1 & -> & N1 & P1) K. cbn [bind].
  destruct (K r1) as (r2 & E2 & N2 & P2).
  exists r2. split; [exact E2|]. split; [lia|auto].
Qed.

(** *** The Smithery CLI rules *)

Definition scripts_of (packageJson : value) : value :=
  or_else (prop_of packageJson "scripts") (VObj []).

Definition devDeps_of (packageJson : value) : value :=
  or_else (prop_of packageJson "devDependencies") (VObj []).

(** The scripts can be read by the CLI rules: the build and the dev
    script are printable, and the start script, when set, is a string or
    an array. *)
Definition scripts_readable (scripts : value) : bool :=
  printable (prop_of scripts "build")
  && printable (prop_of scripts "dev")
  && (negb (truthy (prop_of scripts "start"))
      || has_includes (prop_of scripts "start")).

(** The package can be read by the CLI rules: it is not null, its
    module, when set, is a string, and its scripts can be read. *)
Definition cli_readable (packageJson : value) : bool :=
  non_nullish packageJson
  && (negb (truthy (prop_of packageJson "module"))
      || is_string (prop_of packageJson "module"))
  && scripts_readable (scripts_of packageJson).

(** The package has what the CLI rules require. *)
Definition cli_ready (packageJson : value) : bool :=
  truthy (prop_of packageJson "name")
  && truthy (prop_of packageJson "version")
  && truthy (prop_of packageJson "module")
  && strict_eq_str (prop_of (scripts_of packageJson) "build")
       "npx @smithery/cli build"
  && strict_eq_str (prop_of (scripts_of packageJson) "dev")
       "npx @smithery/cli dev"
  && truthy (prop_of (devDeps_of packageJson) "@smithery/cli")
  && truthy (prop_of (devDeps_of packageJson) "tsx").

Definition cli_misses (packageJson : value) : nat :=
  miss (truthy (prop_of packageJson "name"))
  + miss (truthy (prop_of packageJson "version"))
  + miss (truthy (prop_of packageJson "module"))
  + miss (strict_eq_str (prop_of (scripts_of packageJson) "build")
            "npx @smithery/cli build")
  + miss (strict_eq_str (prop_of (scripts_of packageJson) "dev")
            "npx @smithery/cli dev")
  + miss (truthy (prop_of (devDeps_of packageJson) "@smithery/cli"))
  + miss (truthy (prop_of (devDeps_of packageJson) "tsx")).

Lemma or_else_object_non_nullish (v : value) :
  non_nullish (or_else v (VObj [])) = true.
Proof. apply or_else_non_nullish. reflexivity. Qed.

Lemma scripts_adds (scripts : value) (r : ValidationResult) :
  non_nullish scripts = true ->
  scripts_readable scripts = true ->
  step_adds r
    (miss (strict_eq_str (prop_of scripts "build") "npx @smithery/cli build")
     + miss (strict_eq_str (prop_of scripts "dev") "npx @smithery/cli dev"))
    (validateSmitheryCliScripts scripts r).
Proof.
  intros Hs R. unfold scripts_readable in R.
  apply andb_prop in R as [R Hstart]. apply andb_prop in R as [Pb Pd].
  unfold validateSmitheryCliScripts.
  apply step_adds_bind;
    [apply check_script_adds; [exact Hs|discriminate|exact Pb]|].
  intros r1.
  rewrite <- (Nat.add_0_r (miss _)).
  apply step_adds_bind;
    [apply check_script_adds; [exact Hs|discriminate|exact Pd]|].
  intros r2. rewrite (get_non_nullish _ _ Hs). cbn [bind].
  unfold prop_of in Hstart.
  destruct (truthy (lookup "start" (own_entries scripts))) eqn:Et;
    [|apply step_adds_same].
  cbn [negb orb] in Hstart.
  destruct (lookup "start" (own_entries scripts)); try discriminate;
    cbn [includes_method bind];
    match goal with
    | |- step_adds _ _ (Ok (if ?c then _ else _)) => destruct c
    end;
    first [ apply step_adds_same
          | exists (push_warning r2
                      "Start script appears to use STDIO transport - consider updating for HTTP transport");
            split; [reflexivity|]; split; [unfold nerr; cbn; lia|auto] ].
Qed.

Lemma scripts_throw (scripts : value) (r : ValidationResult) :
  non_nullish scripts = true ->
  scripts_readable scripts = false ->
  validateSmitheryCliScripts scripts r = Throw TypeError.
Proof.
  intros Hs R. unfold scripts_readable in R.
  unfold validateSmitheryCliScripts.
  destruct (printable (prop_of scripts "build")) eqn:Pb.
  2:{ rewrite (check_script_throws _ _ _ _ Hs Pb). reflexivity. }
  destruct (check_script_adds scripts r "build" "npx @smithery/cli build"
              Hs ltac:(discriminate) Pb) as (r1 & -> & _).
  cbn [bind].
  destruct (printable (prop_of scripts "dev")) eqn:Pd.
  2:{ rewrite (check_script_throws _ _ _ _ Hs Pd). reflexivity. }
  destruct (check_script_adds scripts r1 "dev" "npx @smithery/cli dev"
              Hs ltac:(discriminate) Pd) as (r2 & -> & _).
  cbn [bind andb] in R |- *. rewrite (get_non_nullish _ _ Hs). cbn [bind].
  unfold prop_of in R.
  destruct (truthy (lookup "start" (own_entries scripts))) eqn:Et;
    [|discriminate].
  cbn [negb orb] in R.
  destruct (lookup "start" (own_entries scripts)); try discriminate;
    reflexivity.
Qed.

Lemma deps_adds (deps devDeps : value) (r : ValidationResult) :
  non_nullish devDeps = true ->
  step_adds r
    (miss (truthy (prop_of devDeps "@smithery/cli"))
     + miss (truthy (prop_of devDeps "tsx")))
    (validateSmitheryCliDependencies deps devDeps r).
Proof.
  intros Hd. unfold validateSmitheryCliDependencies, prop_of.
  rewrite !(get_non_nullish _ _ Hd). cbn [bind].
  destruct (truthy (lookup "@smithery/cli" (own_entries devDeps)));
    destruct (truthy (lookup "tsx" (own_entries devDeps)));
    cbn [negb miss Nat.add];
    eexists; (split; [reflexivity|]);
    (split;
     [unfold nerr; cbn [errors push_change push_error];
      rewrite ?length_app; cbn [List.length]; lia
     |intros P;
      repeat first [ assumption
                   | apply paired_push; [|left; reflexivity] ]]).
Qed.

Ltac pushes :=
  split;
  [ unfold nerr;
    cbn [errors push_change push_error push_warning push_suggestion];
    rewrite ?length_app; cbn [List.length]; lia
  | intros P;
    repeat first [ assumption
                 | apply paired_push_warning
                 | apply paired_push_suggestion
                 | apply paired_push; [|left; reflexivity] ] ].

Lemma step_adds_after (r r1 : ValidationResult) (m t : nat)
    (res : result ValidationResult) :
  step_adds r1 m res ->
  nerr r1 + m = nerr r + t /\ (paired r -> paired r1) ->
  step_adds r t res.
Proof.
  intros (r2 & E & N2 & P2) [N P]. exists r2.
  split; [exact E|]. split; [lia|auto].
Qed.

Lemma cli_tail_adds (scripts deps devDeps : value) (r : ValidationResult) :
  non_nullish scripts = true ->
  non_nullish devDeps = true ->
  scripts_readable scripts = true ->
  step_adds r
    (miss (strict_eq_str (prop_of scripts "build") "npx @smithery/cli build")
     + miss (strict_eq_str (prop_of scripts "dev") "npx @smithery/cli dev")
     + (miss (truthy (prop_of devDeps "@smithery/cli"))
        + miss (truthy (prop_of devDeps "tsx"))))
    (r <- validateSmitheryCliScripts scripts r ;;
     validateSmitheryCliDependencies deps devDeps r).
Proof.
  intros Hn Hd Hs.
  apply step_adds_bind.
  - apply scripts_adds; assumption.
  - intros r1. apply deps_adds. exact Hd.
Qed.

Lemma cli_adds (packageJson : value) (r : ValidationResult) :
  cli_readable packageJson = true ->
  step_adds r (cli_misses packageJson)
    (validateSmitheryCliPackageJson packageJson r).
Proof.
  unfold cli_readable. intros R.
  apply andb_prop in R. destruct R as [R Hs].
  apply andb_prop in R. destruct R as [Hn Hm].
  unfold validateSmitheryCliPackageJson, cli_misses.
  rewrite !(get_non_nullish _ _ Hn). cbn [bind].
  unfold scripts_of, devDeps_of, prop_of in *.
  destruct (truthy (lookup "name" (own_entries packageJson)));
    destruct (truthy (lookup "version" (own_entries packageJson)));
    destruct (truthy (lookup "module" (own_entries packageJson))) eqn:Em;
    cbn [negb orb] in Hm |- *;
    try (destruct (lookup "module" (own_entries packageJson))
           as [| |?|?|s|?|?];
         try discriminate Hm;
         cbn [endsWith_method bind];
         destruct (endsWith ".ts" s); cbn [negb bind];
         [|destruct (endsWith ".js" s); cbn [negb]]);
    cbn [bind];
    destruct (strict_eq_str (lookup "type" (own_entries packageJson))
                "module");
    cbn [negb];
    (eapply (step_adds_after r);
     [apply cli_tail_adds;
      [apply or_else_object_non_nullish|apply or_else_object_non_nullish
      |exact Hs]
     |cbn [miss]; unfold prop_of; pushes]).
Qed.

Lemma cli_throws (packageJson : value) (r : ValidationResult) :
  cli_readable packageJson = false ->
  validateSmitheryCliPackageJson packageJson r = Throw TypeError.
Proof.
  unfold cli_readable. intros R.
  unfold validateSmitheryCliPackageJson.
  destruct (non_nullish packageJson) eqn:Hn.
  2:{ destruct packageJson; try discriminate Hn; reflexivity. }
  rewrite !(get_non_nullish _ _ Hn). cbn [bind andb] in R |- *.
  unfold scripts_of, prop_of in R.
  destruct (truthy (lookup "module" (own_entries packageJson))) eqn:Em;
    cbn [negb orb andb] in R |- *.
  - destruct (lookup "module" (own_entries packageJson))
      as [| |?|?|s|?|?]; try reflexivity.
    cbn [is_string andb] in R.
    cbn [endsWith_method bind].
    match goal with
    | |- bind ?a _ = _ =>
        assert (E : exists r1, a = Ok r1)
          by (destruct (endsWith ".ts" s); cbn [negb bind];
              [|destruct (endsWith ".js" s); cbn [negb]]; eexists;
              reflexivity);
        destruct E as [r1 ->]
    end.
    cbn [bind].
    rewrite scripts_throw;
      [reflexivity|apply or_else_object_non_nullish|exact R].
  - cbn [bind]. rewrite scripts_throw;
      [reflexivity|apply or_else_object_non_nullish|exact R].
Qed.

Definition fresh_result : ValidationResult :=
  {| isValid := true; errors := []; warnings := [];
     suggestions := []; requiredChanges := [] |}.

Lemma paired_fresh : paired fresh_result.
Proof. split; [reflexivity|constructor]. Qed.

Lemma cli_ready_misses (packageJson : value) :
  Nat.eqb (cli_misses packageJson) 0 = cli_ready packageJson.
Proof.
  unfold cli_misses, cli_ready.
  repeat match goal with
         | |- context [miss ?b] =>
             lazymatch b with
             | true => fail
             | false => fail
             | _ => destruct b
             end
         end; reflexivity.
Qed.

(** The runtime dependencies play no part. *)
Lemma deps_unused (deps deps' devDeps : value) (r : ValidationResult) :
  validateSmitheryCliDependencies deps devDeps r
  = validateSmitheryCliDependencies deps' devDeps r.
Proof. reflexivity. Qed.

Lemma python_adds (packageJson : value) (r : ValidationResult) :
  non_nullish packageJson = true ->
  step_adds r 0 (validatePythonContainerPackageJson packageJson r).
Proof.
  intros Hn. unfold validatePythonContainerPackageJson.
  rewrite !(get_non_nullish _ _ Hn). cbn [bind].
  destruct (truthy (lookup "name" (own_entries packageJson)));
    destruct (truthy (lookup "version" (own_entries packageJson)));
    cbn [negb]; eexists; (split; [reflexivity|]); pushes.
Qed.

Lemma python_throws (packageJson : value) (r : ValidationResult) :
  non_nullish packageJson = false ->
  validatePythonContainerPackageJson packageJson r = Throw TypeError.
Proof. destruct packageJson; try discriminate; reflexivity. Qed.

(** How a required change is shown in the report. *)
Definition shown_as (verb : string) (c : RequiredChange) : Prop :=
  Report.change_entry c
  = "- **" ++ verb ++ "** `" ++ field c ++ "`: " ++ JSON_stringify (expected c).

Lemma ok_action_shown (c : RequiredChange) :
  ok_action c -> shown_as "Add" c \/ shown_as "Update" c.
Proof.
  unfold ok_action, shown_as, Report.change_entry.
  intros [-> | ->]; [left|right]; reflexivity.
Qed.

Lemma cli_result (packageJson : value) :
  cli_readable packageJson = true ->
  exists r,
    performValidation packageJson "ts-smithery-cli" = Ok r /\
    List.length (errors r) = cli_misses packageJson /\
    isValid r = cli_ready packageJson.
Proof.
  intros R.
  destruct (cli_adds packageJson fresh_result R) as (r & E & N & _).
  unfold performValidation.
  cbn [String.eqb Ascii.eqb Bool.eqb]. fold fresh_result.
  rewrite E. cbn [bind]. eexists. split; [reflexivity|].
  cbn [errors isValid set_isValid]. unfold nerr in N. cbn in N.
  rewrite N. split; [reflexivity|apply cli_ready_misses].
Qed.

Lemma cli_failure (packageJson : value) :
  cli_readable packageJson = false ->
  performValidation packageJson "ts-smithery-cli" = Throw TypeError.
Proof.
  intros R. unfold performValidation.
  cbn [String.eqb Ascii.eqb Bool.eqb]. fold fresh_result.
  rewrite (cli_throws _ _ R). reflexivity.
Qed.

(** X12: in Smithery CLI mode the validation of a package throws a
    TypeError exactly when the package cannot be read (it is null or
    undefined, its module is truthy and is no string, its build or dev
    script is an object or array that cannot be printed, or its start
    script is truthy and is neither a string nor an array); otherwise it
    returns a result with one
    error for each of the seven requirements that the package misses
    (name, version, module, the build and dev scripts with their exact
    commands, the devDependencies @smithery/cli and tsx), and the result
    is valid exactly when none is missed. *)
Theorem cli_validation_outcome (packageJson : value) :
  if cli_readable packageJson then
    exists r,
      performValidation packageJson "ts-smithery-cli" = Ok r /\
      List.length (errors r) = cli_misses packageJson /\
      isValid r = cli_ready packageJson
  else performValidation packageJson "ts-smithery-cli" = Throw TypeError.
Proof.
  destruct (cli_readable packageJson) eqn:R.
  - apply cli_result, R.
  - apply cli_failure, R.
Qed.

Lemma validation_paired (packageJson : value) (migrationPath : string)
    (r : ValidationResult) :
  performValidation packageJson migrationPath = Ok r ->
  paired r.
Proof.
  unfold performValidation. fold fresh_result. intros H.
  match type of H with
  | bind ?m _ = _ =>
      assert (B : forall r1, m = Ok r1 -> paired r1);
        [|destruct m as [r1|]; [|discriminate H];
          cbn [bind] in H; injection H as <-; exact (B r1 eq_refl)]
  end.
  clear H. intros r1 H.
  destruct (String.eqb migrationPath "ts-smithery-cli").
  { destruct (cli_readable packageJson) eqn:R.
    - destruct (cli_adds packageJson fresh_result R) as (r2 & E & _ & P).
      rewrite E in H. injection H as <-. exact (P paired_fresh).
    - rewrite (cli_throws _ _ R) in H. discriminate. }
  destruct (String.eqb migrationPath "ts-custom-container").
  { injection H as <-. exact paired_fresh. }
  destruct (String.eqb migrationPath "py-custom-container").
  { destruct (non_nullish packageJson) eqn:Hn.
    - destruct (python_adds packageJson fresh_result Hn) as (r2 & E & _ & P).
      rewrite E in H. injection H as <-. exact (P paired_fresh).
    - rewrite (python_throws _ _ Hn) in H. discriminate. }
  injection H as <-. exact paired_fresh.
Qed.

(** X13: whatever the package and the migration path, a result of the
    validation has exactly one required change for each error, and every
    required change asks to add or to modify a field, so that the report
    shows it as Add or Update, never as Remove. *)
Theorem errors_paired_with_changes
    (packageJson : value) (migrationPath : string) (r : ValidationResult) :
  performValidation packageJson migrationPath = Ok r ->
  List.length (requiredChanges r) = List.length (errors r) /\
  Forall (fun c => shown_as "Add" c \/ shown_as "Update" c)
    (requiredChanges r).
Proof.
  intros H. destruct (validation_paired _ _ _ H) as [N F].
  split; [symmetry; exact N|].
  eapply Forall_impl; [|exact F]. intros c. apply ok_action_shown.
Qed.

Lemma errors_paired_with_changes_witness :
  exists r,
    performValidation sample_package "ts-smithery-cli" = Ok r /\
    List.length (requiredChanges r) = List.length (errors r) /\
    Forall (fun c => shown_as "Add" c \/ shown_as "Update" c)
      (requiredChanges r).
Proof.
  eexists. split; [vm_compute; reflexivity|].
  apply (errors_paired_with_changes sample_package "ts-smithery-cli").
  vm_compute. reflexivity.
Defined.

(** X14: outside the Smithery CLI mode the validation never finds a
    package invalid: for the custom container and for any unknown
    migration path the package is not even read, and the result is valid
    with no error and no required change; in Python mode the same holds
    for every package but null, on which the validation throws a
    TypeError. *)
Theorem other_paths_never_invalid
    (packageJson : value) (migrationPath : string) :
  migrationPath <> "ts-smithery-cli" ->
  if String.eqb migrationPath "py-custom-container"
     && negb (non_nullish packageJson)
  then performValidation packageJson migrationPath = Throw TypeError
  else
    exists r,
      performValidation packageJson migrationPath = Ok r /\
      isValid r = true /\ errors r = [] /\ requiredChanges r = [].
Proof.
  intros Hp. apply String.eqb_neq in Hp. unfold performValidation.
  rewrite Hp. fold fresh_result.
  destruct (String.eqb migrationPath "ts-custom-container") eqn:Ec.
  { apply String.eqb_eq in Ec. subst. cbn [String.eqb Ascii.eqb Bool.eqb andb].
    eexists. split; [reflexivity|]. repeat split. }
  destruct (String.eqb migrationPath "py-custom-container"); cbn [andb].
  2:{ eexists. split; [reflexivity|]. repeat split. }
  destruct (non_nullish packageJson) eqn:Hn; cbn [negb].
  - destruct (python_adds packageJson fresh_result Hn) as (r2 & E & N & P).
    rewrite E. cbn [bind]. destruct (P paired_fresh) as [N2 _].
    unfold nerr, nch in *. cbn [errors fresh_result List.length] in N.
    rewrite N in N2.
    destruct (errors r2) eqn:Ee; [|discriminate N].
    destruct (requiredChanges r2) eqn:Er; [|discriminate N2].
    eexists. split; [reflexivity|].
    cbn [isValid errors requiredChanges set_isValid]. rewrite Ee.
    repeat split; assumption.
  - rewrite (python_throws _ _ Hn). reflexivity.
Qed.

Lemma other_paths_never_invalid_witness :
  exists r,
    performValidation VNull "no-such-path" = Ok r /\
    isValid r = true /\ errors r = [] /\ requiredChanges r = [].
Proof.
  apply (other_paths_never_invalid VNull "no-such-path"). discriminate.
Defined.

(** X15: the validation never looks at the runtime dependencies: two
    packages that agree on every property but [dependencies] get the same
    outcome, on every migration path. *)
Theorem dependencies_are_never_checked
    (packageJson packageJson' : value) (migrationPath : string) :
  non_nullish packageJson = non_nullish packageJson' ->
  (forall k, k <> "dependencies" ->
             prop_of packageJson k = prop_of packageJson' k) ->
  performValidation packageJson migrationPath
  = performValidation packageJson' migrationPath.
Proof.
  intros Hn Hk. unfold prop_of in Hk.
  destruct (non_nullish packageJson) eqn:E; symmetry in Hn.
  - unfold performValidation, validateSmitheryCliPackageJson,
      validatePythonContainerPackageJson, validateCustomContainerPackageJson,
      validateSmitheryCliDependencies.
    rewrite !(get_non_nullish _ _ E), !(get_non_nullish _ _ Hn).
    rewrite !(Hk "name"), !(Hk "version"), !(Hk "module"), !(Hk "type"),
      !(Hk "scripts"), !(Hk "devDependencies") by discriminate.
    reflexivity.
  - destruct packageJson; try discriminate E;
      destruct packageJson'; try discriminate Hn; reflexivity.
Qed.

Definition with_dependencies (deps : value) : value :=
  VObj [("name", VStr "my-server"); ("dependencies", deps)].

Lemma dependencies_are_never_checked_witness :
  performValidation (with_dependencies (VObj [])) "ts-smithery-cli"
  = performValidation (with_dependencies (VStr "none")) "ts-smithery-cli".
Proof.
  apply (dependencies_are_never_checked
           (with_dependencies (VObj [])) (with_dependencies (VStr "none"))).
  - reflexivity.
  - intros k D. unfold prop_of, with_dependencies.
    cbn [own_entries lookup].
    destruct (String.eqb k "name"); [reflexivity|].
    destruct (String.eqb k "dependencies") eqn:Ek; [|reflexivity].
    apply String.eqb_eq in Ek. contradiction.
Defined.

(** *** The report *)

Lemma contains_join_in (sep x : string) (l : list string) :
  In x l -> contains x (join sep l).
Proof.
  induction l as [|a l IH]; [intros []|].
  intros [->|H].
  - destruct l; cbn [join]; [apply contains_refl|].
    apply contains_here.
  - destruct l as [|b l]; [destruct H|].
    change (join sep (a :: b :: l)) with (a ++ sep ++ join sep (b :: l)).
    apply contains_app_r, contains_app_r, IH, H.
Qed.

Lemma contains_join_later (sep x h : string) (l : list string) :
  In x l -> contains (sep ++ x) (join sep (h :: l)).
Proof.
  revert h. induction l as [|a l IH]; intros h; [intros []|].
  change (join sep (h :: a :: l)) with (h ++ sep ++ join sep (a :: l)).
  intros [->|H].
  - apply contains_app_r.
    destruct l; cbn [join].
    + apply contains_refl.
    + exists EmptyString, (sep ++ join sep (s :: l)).
      cbn [append]. rewrite !StrFacts.app_assoc. reflexivity.
  - apply contains_app_r, contains_app_r, IH, H.
Qed.

Lemma if_app (A : Type) (b : bool) (s x y : list A) :
  (if b then s ++ x else s ++ y)%list = (s ++ (if b then x else y))%list.
Proof. destruct b; reflexivity. Qed.

(** The sections of the report, as formatValidationResult collects
    them. *)
Lemma report_sections (r : ValidationResult) (filePath : option string) :
  exists header footer h1 h2 h3 h4,
    Report.formatValidationResult r filePath
    = join (nl ++ nl)
        (header ::
           (if (0 <? List.length (errors r))%nat
            then h1 :: map (fun error => ("- " ++ error)%string) (errors r)
            else [])
           ++ (if (0 <? List.length (requiredChanges r))%nat
               then h2 :: map Report.change_entry (requiredChanges r)
               else [])
           ++ (if (0 <? List.length (warnings r))%nat
               then h3 :: map (fun warning => ("- " ++ warning)%string)
                            (warnings r)
               else [])
           ++ (if (0 <? List.length (suggestions r))%nat
               then h4 :: map (fun suggestion => ("- " ++ suggestion)%string)
                            (suggestions r)
               else [])
           ++ footer)%list.
Proof.
  unfold Report.formatValidationResult. cbv zeta.
  rewrite if_app. do 6 eexists. f_equal.
  destruct (0 <? List.length (errors r))%nat;
    destruct (0 <? List.length (requiredChanges r))%nat;
    destruct (0 <? List.length (warnings r))%nat;
    destruct (0 <? List.length (suggestions r))%nat;
    cbn [List.app]; rewrite <- ?List.app_assoc; cbn [List.app];
    rewrite <- ?List.app_assoc; reflexivity.
Qed.


Lemma in_guarded (A B : Type) (f : A -> B) (h : B) (x : A) (l : list A) :
  In x l ->
  In (f x) (if (0 <? List.length l)%nat then h :: map f l else []).
Proof.
  destruct l; [intros []|]. cbn [List.length Nat.ltb Nat.leb].
  intros H. right. apply in_map, H.
Qed.


(** X16: the report of the validator drops nothing: every error, every
    warning and every suggestion of the result is a bullet of its own
    paragraph in the report, and so is every required change. *)
Theorem report_lists_every_finding
    (r : ValidationResult) (filePath : option string) :
  let report := Report.formatValidationResult r filePath in
  (forall e, In e (errors r) -> contains (nl ++ nl ++ "- " ++ e) report) /\
  (forall c, In c (requiredChanges r) ->
             contains (nl ++ nl ++ Report.change_entry c) report) /\
  (forall w, In w (warnings r) -> contains (nl ++ nl ++ "- " ++ w) report) /\
  (forall s, In s (suggestions r) ->
             contains (nl ++ nl ++ "- " ++ s) report).
Proof.
  cbv zeta. destruct (report_sections r filePath)
    as (header & footer & h1 & h2 & h3 & h4 & ->).
  repeat split; intros x H; rewrite <- StrFacts.app_assoc;
    apply contains_join_later.
  - apply in_or_app. left.
    apply (in_guarded _ _ (fun error => "- " ++ error)), H.
  - apply in_or_app. right. apply in_or_app. left.
    apply (in_guarded _ _ Report.change_entry), H.
  - do 2 (apply in_or_app; right). apply in_or_app. left.
    apply (in_guarded _ _ (fun warning => "- " ++ warning)), H.
  - do 3 (apply in_or_app; right). apply in_or_app. left.
    apply (in_guarded _ _ (fun suggestion => "- " ++ suggestion)), H.
Qed.

(** The first words of the report of a package in Smithery CLI mode. *)
Definition cli_verdict (packageJson : value) : string :=
  if negb (cli_readable packageJson) then "**Invalid JSON Format**"
  else if cli_ready packageJson then "âœ… **Valid** package.json validation"
  else "âŒ **Invalid** package.json validation".

(** X17: the report of validatePackageJson in Smithery CLI mode, for a
    text that JSON.parse accepts: it opens with the Valid mark when the
    package has the seven things that the CLI rules require, with the
    Invalid mark when it misses one, and, although the text is valid JSON,
    with "Invalid JSON Format" and the message of the TypeError when the
    package cannot be read (null, a module that is no string, a build or
    dev script that cannot be printed, a start script that is neither a
    string nor an array). *)
Theorem cli_report_verdict
    (JSON_parse : string -> result value) (type_error_message : string)
    (packageJsonContent : string) (filePath : option string)
    (packageJson : value) :
  JSON_parse packageJsonContent = Ok packageJson ->
  let report :=
    Report.validatePackageJson JSON_parse type_error_message
      packageJsonContent "ts-smithery-cli" filePath in
  startsWith (cli_verdict packageJson) report = true /\
  (cli_readable packageJson = false ->
   contains type_error_message report).
Proof.
  intros HP. cbv zeta. unfold Report.validatePackageJson, cli_verdict.
  rewrite HP. cbn [bind].
  destruct (cli_readable packageJson) eqn:R; cbn [negb].
  - destruct (cli_result packageJson R) as (r & -> & _ & Hv). cbn [bind].
    split; [|discriminate].
    unfold Report.formatValidationResult. cbv zeta.
    rewrite Hv.
    match goal with
    | |- context [join _ ?l] =>
        assert (E : exists first rest, l = first :: rest /\
                  startsWith (if cli_ready packageJson
                              then "âœ… **Valid** package.json validation"
                              else "âŒ **Invalid** package.json validation")
                    first = true)
    end.
    { destruct (0 <? List.length (errors r))%nat;
        destruct (0 <? List.length (requiredChanges r))%nat;
        destruct (0 <? List.length (warnings r))%nat;
        destruct (0 <? List.length (suggestions r))%nat;
        destruct (cli_ready packageJson);
        cbn [List.app]; eexists; eexists; (split; [reflexivity|]);
        lazymatch goal with
        | |- startsWith ?m (_ ++ _ ++ ?x) = true =>
            exact (StrFacts.startsWith_refl_app m x)
        end. }
    destruct E as (first & rest & -> & S).
    destruct rest; cbn [join]; [exact S|].
    apply StrFacts.startsWith_app_l. exact S.
  - rewrite (cli_failure packageJson R). cbn [bind].
    split; [reflexivity|]. intros _.
    cbn [Report.message]. find_part.
Qed.

Lemma cli_report_verdict_witness :
  let report :=
    Report.validatePackageJson (fun _ => Ok VNull)
      "Cannot read properties of null (reading 'name')"
      "null" "ts-smithery-cli" None in
  startsWith (cli_verdict VNull) report = true /\
  (cli_readable VNull = false ->
   contains "Cannot read properties of null (reading 'name')" report).
Proof.
  apply (cli_report_verdict (fun _ => Ok VNull)
           "Cannot read properties of null (reading 'name')"
           "null" None VNull).
  reflexivity.
Defined.

End ValidatorFacts.

(* ================================================================= *)
(** ** Facts about the schema reader and the descriptor *)

Module SchemaFacts.
Import DispatchFacts StrFacts.

(** *** When the schema reader throws *)

Lemma zod_property_throws (required : value) (indent : string)
    (entry : string * value) :
  wf_property required entry = false ->
  zod_property required indent entry = Throw TypeError.
Proof.
  destruct entry as [key prop]. unfold wf_property. cbn [snd]. intros H.
  unfold zod_property.
  destruct (non_nullish prop) eqn:Hp.
  2:{ destruct prop; try discriminate Hp; reflexivity. }
  rewrite !(get_non_nullish _ _ Hp). cbn [bind andb] in H |- *.
  set (dflt := lookup "default" (own_entries prop)) in *.
  set (desc := lookup "description" (own_entries prop)) in *.
  assert (Hdesc : forall z,
             negb (truthy desc) || is_string desc = false ->
             (zodType <-
                (if truthy desc then
                   match desc with
                   | VStr d =>
                       Ok (z ++ ".describe(" ++ dq
                             ++ replace_char "034"%char (bs ++ dq) d
                             ++ dq ++ ")")
                   | _ => Throw TypeError
                   end
                 else Ok z) ;;
              Ok (indent ++ key ++ ": " ++ zodType ++ ","))
             = Throw TypeError).
  { intros z Hd. destruct (truthy desc); [|discriminate Hd].
    destruct desc; try discriminate Hd; reflexivity. }
  destruct (printable dflt) eqn:Pr; cbn [andb] in H.
  2:{ assert (Eu : is_undefined dflt = false)
        by (destruct dflt; try discriminate Pr; reflexivity).
      rewrite Eu. cbn [negb]. rewrite (default_not_printed _ Pr).
      reflexivity. }
  destruct (is_undefined dflt) eqn:Eu; cbn [negb orb andb] in H |- *.
  - destruct (has_includes required) eqn:Hr; cbn [andb] in H.
    + destruct required; try discriminate Hr;
        cbn [includes_method bind]; apply Hdesc, H.
    + destruct required; try discriminate Hr; reflexivity.
  - rewrite (default_printed _ Pr). cbn [bind]. apply Hdesc, H.
Qed.


Lemma mapM_throws {A B : Type} (f : A -> result B) (l : list A) :
  (forall x, In x l -> f x = Throw TypeError \/ exists y, f x = Ok y) ->
  (exists x, In x l /\ f x = Throw TypeError) ->
  mapM f l = Throw TypeError.
Proof.
  induction l as [|a l IH]; intros H (x & Hx & E); [destruct Hx|].
  cbn [mapM]. destruct (H a (or_introl eq_refl)) as [Ha|[y Ha]]; rewrite Ha.
  - reflexivity.
  - cbn [bind]. rewrite IH; [reflexivity| |].
    + intros z Hz. apply H. right. exact Hz.
    + destruct Hx as [<-|Hx]; [congruence|]. exists x. split; assumption.
Qed.


Lemma generateZodSchemaFromJson_throws (schema : value) (indent : string) :
  non_nullish schema && wf_schema schema = false ->
  generateZodSchemaFromJson schema indent = Throw TypeError.
Proof.
  unfold generateZodSchemaFromJson.
  destruct (non_nullish schema) eqn:Hs; cbn [andb].
  2:{ intros _. destruct schema; try discriminate Hs; reflexivity. }
  rewrite !(get_non_nullish _ _ Hs). cbn [bind].
  rewrite entries_non_nullish by (apply or_else_non_nullish; reflexivity).
  cbn [bind]. unfold wf_schema.
  set (required := or_else (lookup "required" (own_entries schema)) (VArr [])).
  set (es := own_entries
               (or_else (lookup "properties" (own_entries schema)) (VObj []))).
  intros Hw.
  rewrite mapM_throws; [reflexivity| |].
  - intros x _. destruct (wf_property required x) eqn:Ex.
    + right. apply zod_property_returns, Ex.
    + left. apply zod_property_throws, Ex.
  - apply Bool.not_true_iff_false in Hw.
    rewrite forallb_forall in Hw.
    destruct (existsb (fun x => negb (wf_property required x)) es) eqn:Ee.
    + apply existsb_exists in Ee. destruct Ee as (x & Hx & Nx).
      exists x. split; [exact Hx|]. apply zod_property_throws.
      apply negb_true_iff, Nx.
    + exfalso. apply Hw. intros x Hx.
      destruct (wf_property required x) eqn:Ex; [reflexivity|].
      assert (T : existsb (fun x => negb (wf_property required x)) es
                  = true)
        by (apply existsb_exists; exists x; rewrite Ex; split;
            [exact Hx|reflexivity]).
      congruence.
Qed.


(** X19: the environment parser reads every schema that the schema
    reader reads: whenever generateZodSchemaFromJson returns on a schema,
    generateEnvConfigParsing returns on it too, so that in a template,
    where the schema is written first, the parser is never the step that
    throws. *)
Theorem env_parser_reads_what_the_schema_reader_reads `{CM : CaseMapping}
    (schema : value) (indent s : string) :
  generateZodSchemaFromJson schema indent = Ok s ->
  exists code, generateEnvConfigParsing schema = Ok code.
Proof.
  intros H. destruct (non_nullish schema && wf_schema schema) eqn:W.
  - apply andb_prop in W as [_ Hw].
    apply generateEnvConfigParsing_returns, Hw.
  - rewrite (generateZodSchemaFromJson_throws _ _ W) in H. discriminate.
Qed.

Section With_env_parser_reads_what_the_schema_reader_reads_witness.
#[local] Existing Instance ascii_mapping.

Lemma env_parser_reads_what_the_schema_reader_reads_witness :
  exists code,
    generateEnvConfigParsing
      (VObj [("properties", VObj [("apiKey", VObj [("type", VStr "string")])])])
    = Ok code.
Proof.
  apply (env_parser_reads_what_the_schema_reader_reads
           (VObj [("properties",
                   VObj [("apiKey", VObj [("type", VStr "string")])])])
           "  " ("  apiKey: z.string().optional(),")).
  reflexivity.
Defined.

End With_env_parser_reads_what_the_schema_reader_reads_witness.


(** *** A descriptor that cannot be used *)

Definition with_descriptor (params : SmitheryMigrationParams)
    (yaml : option string) : SmitheryMigrationParams :=
  {| tools := tools params;
     prompts := prompts params;
     resources := resources params;
     serverName := serverName params;
     serverVersion := serverVersion params;
     includeBackwardCompatibility := includeBackwardCompatibility params;
     smitheryYaml := yaml |}.

(** X20: a descriptor that gives no configuration schema counts as no
    descriptor: when the text is empty, when the YAML parser rejects it,
    or when what it parses to has no startCommand.configSchema, the
    outcome of the template generator is the one of the same request
    without a descriptor, in every mode. *)
Theorem unusable_descriptor_counts_as_absent `{CM : CaseMapping}
    (YAML_parse : string -> result value) (migrationMode : string)
    (params : SmitheryMigrationParams) (y : string) :
  y = EmptyString
  \/ (exists e, YAML_parse y = Throw e)
  \/ (exists parsed,
        YAML_parse y = Ok parsed /\
        get_opt (get_opt parsed "startCommand") "configSchema" = VUndefined) ->
  generateMigrationTemplate YAML_parse migrationMode
    (with_descriptor params (Some y))
  = generateMigrationTemplate YAML_parse migrationMode
      (with_descriptor params None).
Proof.
  intros H.
  assert (E : extractedConfigSchema YAML_parse (Some y) = VUndefined).
  { unfold extractedConfigSchema, extractConfigSchemaFromSmitheryYaml,
      parseSmitheryYaml.
    destruct H as [->|[[e ->]|(parsed & -> & Hc)]].
    - reflexivity.
    - destruct (opt_truthy (Some y)); reflexivity.
    - destruct (opt_truthy (Some y)); [exact Hc|reflexivity]. }
  unfold generateMigrationTemplate, generateSmitheryCliMigration,
    generateCustomContainerMigration, generatePythonCustomContainerMigration,
    with_descriptor.
  cbn [tools prompts resources serverName serverVersion
       includeBackwardCompatibility smitheryYaml].
  rewrite E. reflexivity.
Qed.

Section With_unusable_descriptor_counts_as_absent_witness.
#[local] Existing Instance ascii_mapping.

Lemma unusable_descriptor_counts_as_absent_witness :
  generateMigrationTemplate (fun _ => Throw (Error "bad indentation"))
    "py-custom-container"
    (with_descriptor sample_request (Some "startCommand: ["))
  = generateMigrationTemplate (fun _ => Throw (Error "bad indentation"))
      "py-custom-container" (with_descriptor sample_request None).
Proof.
  apply (unusable_descriptor_counts_as_absent
           (fun _ => Throw (Error "bad indentation")) "py-custom-container"
           sample_request "startCommand: [").
  right. left. exists (Error "bad indentation"). reflexivity.
Defined.

End With_unusable_descriptor_counts_as_absent_witness.

End SchemaFacts.

(* ================================================================= *)
(** ** Facts about the overview and the handlers of the tools *)

Module ServerFacts.
Import Overview OverviewText DispatchFacts StrFacts Lines.

(** *** The overview *)

Definition overview_request (path : string) (ibc nfa nla : option bool)
    (yaml : option string) : MigrationOverviewParams :=
  {| p_migrationPath := path;
     p_includeBackwardCompatibility := ibc;
     p_needsFileSystemAccess := nfa;
     p_needsLocalApps := nla;
     p_existingSmitheryYaml := yaml |}.

(** X21: the two flags needsFileSystemAccess and needsLocalApps never
    change the overview: whatever the path, the other parameters and the
    answers of the YAML parser, two requests that differ only in these
    flags get the same overview or the same error. *)
Theorem local_access_flags_are_ignored
    (YAML_parse : string -> result value) (path : string)
    (ibc nfa nla nfa' nla' : option bool) (yaml : option string) :
  generateMigrationOverview YAML_parse (overview_request path ibc nfa nla yaml)
  = generateMigrationOverview YAML_parse
      (overview_request path ibc nfa' nla' yaml).
Proof.
  unfold generateMigrationOverview, overview_request.
  cbn [p_migrationPath p_includeBackwardCompatibility p_needsFileSystemAccess
       p_needsLocalApps p_existingSmitheryYaml].
  destruct (String.eqb path "local-stdio-only"); [reflexivity|].
  destruct (String.eqb path "ts-smithery-cli"); [reflexivity|].
  destruct (String.eqb path "ts-custom-container"); [reflexivity|].
  destruct (String.eqb path "py-custom-container"); reflexivity.
Qed.

(** The descriptor text makes a difference: the path is the Python one,
    the text is not empty, the parser accepts it, and the configSchema or
    the exampleConfig of its startCommand has a key. *)
Definition descriptor_matters (YAML_parse : string -> result value)
    (path y : string) : bool :=
  String.eqb path "py-custom-container"
  && negb (String.eqb y EmptyString)
  && match YAML_parse y with
     | Ok parsed =>
         has_keys (get_opt (get_opt parsed "startCommand") "configSchema")
         || has_keys (get_opt (get_opt parsed "startCommand") "exampleConfig")
     | Throw _ => false
     end.

Lemma opt_truthy_some (y : string) :
  opt_truthy (Some y) = negb (String.eqb y EmptyString).
Proof. destruct y; reflexivity. Qed.

(** X22: an existing descriptor changes the overview only on the Python
    path and only when it is not empty, parses, and its startCommand has a
    configSchema or an exampleConfig with a key; in every other case, a
    text that the parser rejects included, the overview (or the error) is
    the one of a request with no descriptor. *)
Theorem descriptor_changes_the_overview_iff
    (YAML_parse : string -> result value) (path : string)
    (ibc nfa nla : option bool) (y : string) :
  generateMigrationOverview YAML_parse
    (overview_request path ibc nfa nla (Some y))
  = generateMigrationOverview YAML_parse
      (overview_request path ibc nfa nla None)
  <-> descriptor_matters YAML_parse path y = false.
Proof.
  unfold generateMigrationOverview, overview_request, descriptor_matters,
    analyzeSmitheryYamlForSessionConfig.
  cbn [p_migrationPath p_includeBackwardCompatibility p_needsFileSystemAccess
       p_needsLocalApps p_existingSmitheryYaml].
  rewrite opt_truthy_some.
  destruct (String.eqb path "local-stdio-only") eqn:E1.
  { apply String.eqb_eq in E1. subst. cbn. split; reflexivity. }
  destruct (String.eqb path "ts-smithery-cli") eqn:E2.
  { apply String.eqb_eq in E2. subst. cbn. split; reflexivity. }
  destruct (String.eqb path "ts-custom-container") eqn:E3.
  { apply String.eqb_eq in E3. subst. cbn. split; reflexivity. }
  destruct (String.eqb path "py-custom-container"); cbn [andb];
    [|split; reflexivity].
  destruct (negb (String.eqb y EmptyString)); cbn [andb];
    [|split; reflexivity].
  destruct (YAML_parse y) as [parsed|e]; [|split; reflexivity].
  destruct (has_keys (get_opt (get_opt parsed "startCommand") "configSchema")
            || has_keys
                 (get_opt (get_opt parsed "startCommand") "exampleConfig"));
    [|split; reflexivity].
  split; [|discriminate].
  intros H.
  apply (f_equal (fun res => match res with
                             | Ok o => List.length (filesNeeded o)
                             | Throw _ => 0
                             end)) in H.
  cbn in H. discriminate.
Qed.

(** The steps carry the numbers [n], [n+1], ... *)
Fixpoint numbered_from (n : nat) (steps : list string) : bool :=
  match steps with
  | [] => true
  | step :: rest =>
      startsWith (string_of_nat n ++ ". ") step && numbered_from (S n) rest
  end.

(** X23: on the three paths that have deployment steps of their own, the
    steps of the overview are numbered 1, 2, 3, ... without a gap,
    whether or not the Python overview has the middleware step. *)
Theorem deployment_steps_are_numbered
    (YAML_parse : string -> result value) (params : MigrationOverviewParams)
    (overview : MigrationOverview) :
  generateMigrationOverview YAML_parse params = Ok overview ->
  p_migrationPath params <> "local-stdio-only" ->
  numbered_from 1 (deploymentSteps overview) = true /\
  (7 <= List.length (deploymentSteps overview) <= 8)%nat.
Proof.
  unfold generateMigrationOverview. intros H Hp.
  apply String.eqb_neq in Hp. rewrite Hp in H.
  destruct (String.eqb (p_migrationPath params) "ts-smithery-cli").
  { injection H as <-. split; [reflexivity|cbn; lia]. }
  destruct (String.eqb (p_migrationPath params) "ts-custom-container").
  { injection H as <-. split; [reflexivity|cbn; lia]. }
  destruct (String.eqb (p_migrationPath params) "py-custom-container");
    [|discriminate].
  injection H as <-.
  unfold generatePythonContainerOverview.
  cbn [cp_needsSessionConfig cp_includeBackwardCompatibility deploymentSteps].
  match goal with
  | |- context [if ?c then ["2. Create src/middleware.py for configuration handling"] else _] =>
      destruct c
  end; split; [reflexivity|cbn; lia|reflexivity|cbn; lia].
Qed.

Lemma deployment_steps_are_numbered_witness :
  exists overview,
    generateMigrationOverview (fun _ => Ok VNull)
      (overview_request "py-custom-container" None None None None)
    = Ok overview /\
    numbered_from 1 (deploymentSteps overview) = true /\
    (7 <= List.length (deploymentSteps overview) <= 8)%nat.
Proof.
  eexists. split; [reflexivity|].
  apply (deployment_steps_are_numbered (fun _ => Ok VNull)
           (overview_request "py-custom-container" None None None None)).
  - reflexivity.
  - discriminate.
Defined.

(** *** The handlers of the tools *)

(** A section heading of the overview text. *)
Definition section_heading : marker := {| m_mode := Prefix; m_text := "## " |}.

Definition title_line : marker := {| m_mode := Prefix; m_text := "# " |}.

(** X24: the overview tool as it is registered.  A path outside the
    three of its input schema, local-stdio-only included, is refused
    before the handler runs, so that neither the contact-support plan nor
    the error text of the handler is ever answered; for each of the three
    paths the answer is a text with one title line and exactly seven
    section headings, whatever the flags and the descriptor are. *)
Theorem overview_tool_answer
    (YAML_parse : string -> result value) (type_error_message : string)
    (params : MigrationOverviewParams) :
  if existsb (String.eqb (p_migrationPath params)) Server.overview_paths
  then
    exists answer,
      Server.overview_tool YAML_parse type_error_message params
      = Server.Answer answer /\
      count_lines title_line answer = 1 /\
      count_lines section_heading answer = 7
  else
    Server.overview_tool YAML_parse type_error_message params
    = Server.InvalidParams.
Proof.
  unfold Server.overview_tool.
  destruct (existsb (String.eqb (p_migrationPath params))
              Server.overview_paths) eqn:E; [|reflexivity].
  eexists. split; [reflexivity|].
  unfold Server.overview_handler, generateMigrationOverview.
  unfold Server.overview_paths in E. cbn [existsb] in E.
  destruct (String.eqb (p_migrationPath params) "local-stdio-only") eqn:E0.
  { apply String.eqb_eq in E0. rewrite E0 in E. discriminate E. }
  destruct (String.eqb (p_migrationPath params) "ts-smithery-cli").
  { cbn [bind].
    destruct (default_false (p_includeBackwardCompatibility params));
      split; vm_compute; reflexivity. }
  destruct (String.eqb (p_migrationPath params) "ts-custom-container").
  { cbn [bind].
    destruct (default_false (p_includeBackwardCompatibility params));
      split; vm_compute; reflexivity. }
  destruct (String.eqb (p_migrationPath params) "py-custom-container");
    [|discriminate E].
  cbn [bind].
  unfold generatePythonContainerOverview.
  cbn [cp_needsSessionConfig cp_includeBackwardCompatibility].
  match goal with
  | |- context [if ?c then "3" else "2"] => destruct c
  end;
    destruct (default_false (p_includeBackwardCompatibility params));
    split; vm_compute; reflexivity.
Qed.

(** X25: the fall-back answers of getFileExtension and of
    getMigrationModeDescription are given exactly for the modes that the
    template generator rejects, and the registered tool refuses these
    modes before the handler runs; so an answer of the tool never shows
    them: it is the generated code in a ts or py fence under the
    description of the mode, or the error text with the message of what
    the generator threw. *)
Theorem template_tool_never_falls_back `{CM : CaseMapping}
    (YAML_parse : string -> result value) (type_error_message : string)
    (migrationMode : string) (params : SmitheryMigrationParams) :
  (getFileExtension migrationMode = "txt" <-> supported migrationMode = false)
  /\ (getMigrationModeDescription migrationMode = "Unknown migration mode"
      <-> supported migrationMode = false)
  /\ (supported migrationMode = false ->
      Server.template_tool YAML_parse type_error_message migrationMode params
      = Server.InvalidParams)
  /\ (forall text,
        Server.template_tool YAML_parse type_error_message migrationMode
          params = Server.Answer text ->
        supported migrationMode = true /\
        text
        = match generateMigrationTemplate YAML_parse migrationMode params with
          | Ok code =>
              "Generated " ++ getMigrationModeDescription migrationMode
                ++ " migration code:" ++ nl ++ nl ++ "```"
                ++ (if String.eqb migrationMode "py-custom-container"
                    then "py" else "ts")
                ++ nl ++ code ++ nl ++ "```"
          | Throw error =>
              "Error generating migration template: "
                ++ Server.message type_error_message error
          end).
Proof.
  unfold Server.template_tool, Server.template_input_ok,
    Server.template_modes, Server.template_handler.
  unfold supported, supported_modes, getFileExtension,
    getMigrationModeDescription.
  cbn [existsb].
  destruct (String.eqb migrationMode "ts-smithery-cli") eqn:E1;
    [|destruct (String.eqb migrationMode "ts-custom-container") eqn:E2;
      [|destruct (String.eqb migrationMode "py-custom-container") eqn:E3]];
    cbn [orb andb];
    (split; [split; intros; (discriminate || reflexivity)|]);
    (split; [split; intros; (discriminate || reflexivity)|]);
    (split; [intros; (discriminate || reflexivity)|]);
    intros text T;
    try discriminate T;
    (split; [reflexivity|]);
    (destruct (forallb _ (tools params) && forallb _ (prompts params));
     [|discriminate T]);
    injection T as <-;
    (destruct (generateMigrationTemplate _ _ _); [|reflexivity]);
    try (apply String.eqb_eq in E1; subst);
    try (apply String.eqb_eq in E2; subst);
    cbn [String.eqb Ascii.eqb Bool.eqb orb]; rewrite ?StrFacts.app_assoc;
    reflexivity.
Qed.


End ServerFacts.
